(** * The add-funds flow of the billing portal

    A shallow embedding of the four pieces of the repository that take part
    in adding funds to a customer's balance:

    - [src/app/api/add-funds/apply-credit/route.ts]           (module [ApplyCredit])
    - [src/app/api/add-funds/create-payment-intent/route.ts]  (module [CreateIntent])
    - [src/app/customers/[slug]/page.tsx]                     (module [Page])
    - [src/app/customers/[slug]/CustomerPortal.tsx]           (module [Portal])

    Every handler is an [async] function that talks to the outside
    (the Stripe SDK, [fetch], the browser history) and, on the client,
    updates React state.  A handler is embedded as a computation in a small
    state / trace / exception monad: the answers of the outside are given by
    an explicit record of oracles, every call to the outside is logged as an
    event in program order, and a JavaScript [throw] (or a rejected promise
    that is awaited) is the [Throw] result. *)

From Stdlib Require Import ZArith QArith Qround List String Ascii Bool Lia.
From Stdlib Require Import SpecFloat.
From Stdlib Require Import Lqa.
Import ListNotations.

Set Warnings "-register-all".

Local Open Scope string_scope.
Local Open Scope list_scope.
Local Open Scope Z_scope.

(* ================================================================== *)
(** * JavaScript values *)
(* ================================================================== *)

Module Js.

(** ** Numbers

    A JavaScript number is an IEEE binary64 value.  A finite one is
    represented by the rational it denotes; results of inexact operations
    go through [round64], the round-to-nearest-even of binary64, computed
    with the reference implementation of [SpecFloat].  The sign of zero is
    not kept: nothing in the modelled code can observe it. *)

Inductive number : Type :=
| NaN
| Infinity (negative : bool)
| Finite (q : Q).

Definition num (z : Z) : number := Finite (inject_Z z).

Definition prec : Z := 53.
Definition emax : Z := 1024.

(** The value [p / d] to 58 or more significant bits, the last one sticky. *)
Definition sf_of_pos_ratio (neg : bool) (p d : positive) : spec_float :=
  let k := Z.max 0 (Z.log2_up (Zpos d) - Z.log2 (Zpos p) + 56) in
  let (quo, rem) := Z.div_eucl (Zpos p * 2 ^ k) (Zpos d) in
  let m := 2 * quo + (if rem =? 0 then 0 else 1) in
  binary_round prec emax neg (Z.to_pos m) (- k - 1).

Definition sf_of_Q (q : Q) : spec_float :=
  match Qnum q with
  | Z0 => S754_zero false
  | Zpos p => sf_of_pos_ratio false p (Qden q)
  | Zneg p => sf_of_pos_ratio true p (Qden q)
  end.

Definition Q_of_mantissa (neg : bool) (m : positive) (e : Z) : Q :=
  let v := if neg then Zneg m else Zpos m in
  match e with
  | Zneg k => Qred (v # (2 ^ k)%positive)
  | _ => inject_Z (v * 2 ^ e)
  end.

Definition number_of_sf (x : spec_float) : number :=
  match x with
  | S754_zero _ => Finite 0
  | S754_infinity s => Infinity s
  | S754_nan => NaN
  | S754_finite s m e => Finite (Q_of_mantissa s m e)
  end.

Definition round64 (q : Q) : number := number_of_sf (sf_of_Q q).

Definition Qltb (a b : Q) : bool := negb (Qle_bool b a).

(** [x < y] *)
Definition lt (x y : number) : bool :=
  match x, y with
  | NaN, _ | _, NaN => false
  | Finite a, Finite b => Qltb a b
  | Infinity true, Infinity true => false
  | Infinity true, _ => true
  | _, Infinity true => false
  | Infinity false, _ => false
  | Finite _, Infinity false => true
  end.

(** [x > y] *)
Definition gt (x y : number) : bool := lt y x.

(** [x * y] *)
Definition mul (x y : number) : number :=
  match x, y with
  | NaN, _ | _, NaN => NaN
  | Finite a, Finite b => round64 (a * b)
  | Infinity s, Finite b | Finite b, Infinity s =>
      if Qeq_bool b 0 then NaN else Infinity (xorb s (Qltb b 0))
  | Infinity s, Infinity t => Infinity (xorb s t)
  end.

(** [-x] *)
Definition neg (x : number) : number :=
  match x with
  | NaN => NaN
  | Infinity s => Infinity (negb s)
  | Finite q => Finite (- q)
  end.

(** [Number.isFinite(x)] *)
Definition Number_isFinite (x : number) : bool :=
  match x with Finite _ => true | _ => false end.

(** [Number.isInteger(x)] *)
Definition Number_isInteger (x : number) : bool :=
  match x with
  | Finite q => Qeq_bool q (inject_Z (Qfloor q))
  | _ => false
  end.

(** [Math.round(x)]: the integer nearest to [x], ties towards +Infinity. *)
Definition Math_round (x : number) : number :=
  match x with
  | Finite q => Finite (inject_Z (Qfloor (q + (1 # 2))))
  | _ => x
  end.

(** ** Strings

    A string is its sequence of code units; the model keeps to the code
    units below 256, which is where customer references, currency codes,
    confirmation secrets and amounts typed in a number field live. *)

Definition digit_value (c : ascii) : option Z :=
  let n := Z.of_N (N_of_ascii c) in
  if (48 <=? n) && (n <=? 57) then Some (n - 48) else None.

Definition is_white_space (c : ascii) : bool :=
  let n := Z.of_N (N_of_ascii c) in
  ((9 <=? n) && (n <=? 13)) || (n =? 32) || (n =? 160).

Fixpoint skip_white_space (s : string) : string :=
  match s with
  | String c s' => if is_white_space c then skip_white_space s' else s
  | EmptyString => s
  end.

(** Reads the longest run of decimal digits at the head of [s], continuing
    the value [acc]; returns the value, the number of digits read and the
    rest of the string. *)
Fixpoint scan_digits (s : string) (acc : Z) (cnt : Z) : Z * Z * string :=
  match s with
  | String c s' =>
      match digit_value c with
      | Some d => scan_digits s' (10 * acc + d) (cnt + 1)
      | None => (acc, cnt, s)
      end
  | EmptyString => (acc, cnt, s)
  end.

Definition scan_sign (s : string) : bool * string :=
  match s with
  | String "-" s' => (true, s')
  | String "+" s' => (false, s')
  | _ => (false, s)
  end.

Definition scan_exponent (s : string) : Z :=
  match s with
  | String c s' =>
      if (Ascii.eqb c "e" || Ascii.eqb c "E")%bool then
        let (eneg, r) := scan_sign s' in
        let '(ev, ne, _) := scan_digits r 0 0 in
        if ne =? 0 then 0 else if eneg then - ev else ev
      else 0
  | EmptyString => 0
  end.

Definition Q_of_decimal (mant e10 : Z) : Q :=
  match e10 with
  | Zneg k => mant # (10 ^ k)%positive
  | _ => inject_Z (mant * 10 ^ e10)
  end.

(** [parseFloat(s)]: leading white space is skipped, the longest prefix
    that is a decimal literal is read, what follows is ignored; [NaN] when
    there is no such prefix. *)
Definition parseFloat (s : string) : number :=
  let (sneg, s2) := scan_sign (skip_white_space s) in
  if String.prefix "Infinity" s2 then Infinity sneg else
  let '(ip, ni, s3) := scan_digits s2 0 0 in
  let '(mant, nf, s4) :=
    match s3 with
    | String "." r => scan_digits r ip 0
    | _ => (ip, 0, s3)
    end in
  if ni + nf =? 0 then NaN else
  let q := Q_of_decimal mant (scan_exponent s4 - nf) in
  round64 (if sneg then - q else q).

Definition lower_code_unit (c : ascii) : ascii :=
  let n := N_of_ascii c in
  if ((65 <=? n) && (n <=? 90))%N
     || ((192 <=? n) && (n <=? 222) && negb (n =? 215))%N
  then ascii_of_N (n + 32) else c.

(** [s.toLowerCase()].  The strings of this development are sequences of
    code units below 256, and on these JavaScript lowers one unit at a
    time: A .. Z, and the capital letters of U+00C0 .. U+00DE (U+00D7, the
    multiplication sign, is no letter).  Beyond that range a lower-cased
    string can have more units than the string it comes from (U+0130 gives
    two), so no statement relies on the length of a lower-cased string. *)
Fixpoint toLowerCase (s : string) : string :=
  match s with
  | String c s' => String (lower_code_unit c) (toLowerCase s')
  | EmptyString => EmptyString
  end.

(** [s.startsWith(p)] *)
Definition startsWith (s p : string) : bool := String.prefix p s.

(** ** Values of any type, as a parsed JSON body delivers them *)

Inductive value : Type :=
| VUndefined
| VNull
| VBool (b : bool)
| VNumber (n : number)
| VString (s : string)
| VArray (items : list value)
| VObject (fields : list (string * value)).

(** [!!v] *)
Definition truthy (v : value) : bool :=
  match v with
  | VUndefined | VNull => false
  | VBool b => b
  | VNumber NaN => false
  | VNumber (Finite q) => negb (Qeq_bool q 0)
  | VNumber (Infinity _) => true
  | VString s => negb (String.eqb s "")
  | VArray _ | VObject _ => true
  end.

Fixpoint lookup (k : string) (fields : list (string * value)) : value :=
  match fields with
  | [] => VUndefined
  | (k', v) :: rest => if String.eqb k k' then v else lookup k rest
  end.

(** What is thrown and caught: an [Error] object with its message, or
    any other value. *)
Inductive exn : Type :=
| Error (message : string)
| TypeError (message : string)
| Thrown (v : value).

(** [e instanceof Error ? e.message : fallback] *)
Definition message_or (e : exn) (fallback : string) : string :=
  match e with
  | Error m | TypeError m => m
  | Thrown _ => fallback
  end.

(** The way an awaited promise settles. *)
Inductive settled (A : Type) : Type :=
| Fulfilled (a : A)
| Rejected (e : exn).
Arguments Fulfilled {A} a.
Arguments Rejected {A} e.

(** [a ?? b] on an optional field ([None] is [undefined] or [null]). *)
Definition nullish {A : Type} (a : option A) (b : A) : A :=
  match a with Some x => x | None => b end.

End Js.

(* ================================================================== *)
(** * Asynchronous handlers as computations *)
(* ================================================================== *)

(** How a handler (or a block of one) ends. *)
Inductive result (A : Type) : Type :=
| Ok (a : A)
| Throw (e : Js.exn).
Arguments Ok {A} a.
Arguments Throw {A} e.

Section Effects.
(** [E]: the calls to the outside; [S]: the mutable state in scope. *)
Context {E S : Type}.

Definition M (A : Type) : Type := S -> S * list E * result A.

Definition ret {A} (a : A) : M A := fun s => (s, [], Ok a).

Definition bind {A B} (m : M A) (k : A -> M B) : M B :=
  fun s =>
    match m s with
    | (s1, t1, Ok a) => let '(s2, t2, r) := k a s1 in (s2, t1 ++ t2, r)
    | (s1, t1, Throw e) => (s1, t1, Throw e)
    end.

Definition throw {A} (e : Js.exn) : M A := fun s => (s, [], Throw e).

Definition emit (ev : E) : M unit := fun s => (s, [ev], Ok tt).

Definition get : M S := fun s => (s, [], Ok s).

Definition modify (f : S -> S) : M unit := fun s => (f s, [], Ok tt).

(** [try { m } catch (e) { h e }] *)
Definition try_catch {A} (m : M A) (h : Js.exn -> M A) : M A :=
  fun s =>
    match m s with
    | (s1, t1, Throw e) => let '(s2, t2, r) := h e s1 in (s2, t1 ++ t2, r)
    | done => done
    end.

(** [try { m } finally { f }], and [p.finally(() => f)]. *)
Definition finally {A} (m : M A) (f : M unit) : M A :=
  fun s =>
    let '(s1, t1, r) := m s in
    let '(s2, t2, r') := f s1 in
    (s2, t1 ++ t2, match r' with Throw e => Throw e | Ok _ => r end).

(** [await] of a call to the outside: the call is logged, a rejection
    is thrown at the point of the [await]. *)
Definition await {A} (ev : E) (p : Js.settled A) : M A :=
  bind (emit ev)
       (fun _ => match p with
                 | Js.Fulfilled a => ret a
                 | Js.Rejected e => throw e
                 end).

(** [p.catch(() => d)] on an already issued call. *)
Definition or_else {A} (p : Js.settled A) (d : A) : A :=
  match p with Js.Fulfilled a => a | Js.Rejected _ => d end.
End Effects.

Arguments M : clear implicits.

Declare Scope eff_scope.
Delimit Scope eff_scope with eff.
Notation "x <- m ;; k" := (bind m (fun x => k))
  (at level 61, m at next level, right associativity) : eff_scope.
Notation "m ;; k" := (bind m (fun _ => k))
  (at level 61, right associativity) : eff_scope.
Local Open Scope eff_scope.

(** Unfolds the operations of [M] in the goal, leaving the calls to the
    outside to be examined. *)
Ltac run_eff :=
  cbv [finally try_catch await bind emit modify ret throw get].

(** Final state, trace and result of a run. *)
Definition state_of {S E A} (r : S * list E * result A) : S := fst (fst r).
Definition trace_of {S E A} (r : S * list E * result A) : list E := snd (fst r).
Definition result_of {S E A} (r : S * list E * result A) : result A := snd r.

(* ================================================================== *)
(** * The two API routes *)
(* ================================================================== *)

Module Server.

(** Calls of a route handler to the outside: the Stripe server SDK
    ([@/lib/stripe]) and the server log. *)
Inductive event : Type :=
| CreateBalanceTransaction (customerId : string) (amount : Js.number) (currency : string)
| PaymentIntentsCreate (amount : Js.number) (currency : string) (customer : string)
                       (automatic_payment_methods_enabled : bool)
| ConsoleError (label : string) (err : Js.exn).

(** The payment intent as [stripe.paymentIntents.create] resolves it; the
    route reads [client_secret] only ([None] is [null]). *)
Record created_intent : Type := { client_secret : option string }.

(** The ledger gateway: how each SDK call settles. *)
Record gateway : Type := {
  createBalanceTransaction : string -> Js.number -> string -> Js.settled unit;
  paymentIntents_create : Js.number -> string -> string -> Js.settled created_intent
}.

(** [NextResponse.json(body, { status })] *)
Record response : Type := { status : Z; body : Js.value }.

Definition json (b : Js.value) : response := {| status := 200; body := b |}.
Definition json_error (msg : string) (st : Z) : response :=
  {| status := st; body := Js.VObject [("error", Js.VString msg)] |}.

Definition handler : Type := M event unit response.

(** [const { customerId, amount, currency = "usd" } = body]: destructuring
    [null] throws, a primitive or an array has none of the three. *)
Definition destructure (body : Js.value)
    (k : list (string * Js.value) -> handler) : handler :=
  match body with
  | Js.VNull | Js.VUndefined =>
      throw (Js.TypeError "Cannot destructure property 'customerId' of 'body'")
  | Js.VObject fields => k fields
  | _ => k []
  end.

Definition with_default (v d : Js.value) : Js.value :=
  match v with Js.VUndefined => d | _ => v end.

(** [if (!customerId || !customerId.startsWith("cus_")) return 400]; a
    truthy value that is not a string has no [startsWith] to call. *)
Definition check_customerId (customerId : Js.value) (k : string -> handler) : handler :=
  if negb (Js.truthy customerId) then
    ret (json_error "Valid customerId (cus_...) is required" 400)
  else
    match customerId with
    | Js.VString c =>
        if negb (Js.startsWith c "cus_") then
          ret (json_error "Valid customerId (cus_...) is required" 400)
        else k c
    | _ => throw (Js.TypeError "customerId.startsWith is not a function")
    end.

(** [if (typeof amount !== "number" || !Number.isInteger(amount) ||
         amount < MIN_CENTS || amount > MAX_CENTS) return 400] *)
Definition check_amount (MIN_CENTS MAX_CENTS : Z) (msg : string)
    (amount : Js.value) (k : Js.number -> handler) : handler :=
  match amount with
  | Js.VNumber a =>
      if negb (Js.Number_isInteger a)
         || Js.lt a (Js.num MIN_CENTS) || Js.gt a (Js.num MAX_CENTS)
      then ret (json_error msg 400)
      else k a
  | _ => ret (json_error msg 400)
  end.

End Server.

(** [src/app/api/add-funds/apply-credit/route.ts] *)
Module ApplyCredit.
Import Server.

Definition MIN_CENTS : Z := 1.
Definition MAX_CENTS : Z := 99999999.

Definition POST (g : gateway) (request_json : Js.settled Js.value) : handler :=
  match request_json with
  | Js.Rejected _ => ret (json_error "Invalid JSON body" 400)
  | Js.Fulfilled body =>
    destructure body (fun fields =>
    let customerId := Js.lookup "customerId" fields in
    let amount := Js.lookup "amount" fields in
    let currency := with_default (Js.lookup "currency" fields) (Js.VString "usd") in
    check_customerId customerId (fun customerId =>
    check_amount MIN_CENTS MAX_CENTS
      "Amount must be an integer in cents between 1 and 99999999" amount (fun amount =>
    match currency with
    | Js.VString currency =>
        if negb (Z.of_nat (String.length currency) =? 3) then
          ret (json_error "Valid 3-letter currency code is required" 400)
        else
          try_catch
            (await (CreateBalanceTransaction customerId (Js.neg amount)
                      (Js.toLowerCase currency))
                   (createBalanceTransaction g customerId (Js.neg amount)
                      (Js.toLowerCase currency)) ;;
             ret (json (Js.VObject [("ok", Js.VBool true)])))
            (fun err =>
               emit (ConsoleError "Apply credit error:" err) ;;
               ret (json_error "Failed to apply credit" 500))
    | _ => ret (json_error "Valid 3-letter currency code is required" 400)
    end)))
  end.

End ApplyCredit.

(** [src/app/api/add-funds/create-payment-intent/route.ts] *)
Module CreateIntent.
Import Server.

Definition MIN_CENTS : Z := 50.
Definition MAX_CENTS : Z := 99999999.

Definition POST (g : gateway) (request_json : Js.settled Js.value) : handler :=
  match request_json with
  | Js.Rejected _ => ret (json_error "Invalid JSON body" 400)
  | Js.Fulfilled body =>
    destructure body (fun fields =>
    let customerId := Js.lookup "customerId" fields in
    let amount := Js.lookup "amount" fields in
    let currency := with_default (Js.lookup "currency" fields) (Js.VString "usd") in
    check_customerId customerId (fun customerId =>
    check_amount MIN_CENTS MAX_CENTS
      "Amount must be an integer in cents between 50 and 99999999" amount (fun amount =>
    let currency :=
      match currency with
      | Js.VString c => Js.toLowerCase c
      | _ => "usd"
      end in
    try_catch
      (paymentIntent <-
         await (PaymentIntentsCreate amount currency customerId true)
               (paymentIntents_create g amount currency customerId) ;;
       match client_secret paymentIntent with
       | Some secret =>
           if String.eqb secret "" then
             ret (json_error "Failed to create payment intent" 500)
           else
             ret (json (Js.VObject [("clientSecret", Js.VString secret)]))
       | None => ret (json_error "Failed to create payment intent" 500)
       end)
      (fun err =>
         emit (ConsoleError "Create payment intent error:" err) ;;
         ret (json_error "Failed to create payment intent" 500)))))
  end.

End CreateIntent.

(* ================================================================== *)
(** * The customer page and the portal component *)
(* ================================================================== *)

Module Client.

(** [CustomerData] of [page.tsx]. *)
Record Address : Type := {
  line1 : option string;
  line2 : option string;
  city : option string;
  state : option string;
  postal_code : option string;
  country : option string
}.

Record CustomerData : Type := {
  id : string;
  email : option string;
  name : option string;
  address : option Address;
  balance : Js.number;
  currency : string
}.

(** The payment intent as [stripe.retrievePaymentIntent] resolves it.
    An optional field is [None] when it is [undefined] or [null]. *)
Record PaymentIntent : Type := {
  pi_id : string;
  pi_status : string;
  pi_amount : option Js.number;
  pi_amount_received : option Js.number;
  pi_currency : option string;
  pi_customer : option string
}.

(** The page's address: its path and its decoded query parameters, in
    order.  [window.location.origin] never changes and is left out. *)
Record Location : Type := {
  pathname : string;
  search : list (string * string)
}.

(** [new URLSearchParams(search).get(k)]: the first value of [k], or [null]. *)
Fixpoint URLSearchParams_get (k : string) (params : list (string * string)) : option string :=
  match params with
  | [] => None
  | (k', v) :: rest => if String.eqb k k' then Some v else URLSearchParams_get k rest
  end.

(** Truthiness of a [string | null]. *)
Definition present (s : option string) : bool :=
  match s with
  | Some v => negb (String.eqb v "")
  | None => false
  end.

(** JSON bodies of the two API routes as the client reads them:
    [data.error] and [data.clientSecret]. *)
Record api_body : Type := {
  body_error : option string;
  body_clientSecret : option string
}.

Definition empty_body : api_body :=
  {| body_error := None; body_clientSecret := None |}.

(** A [fetch] response: [res.ok], and how [res.json()] settles. *)
Record Response (A : Type) : Type := { ok : bool; json : Js.settled A }.
Arguments ok {A} r.
Arguments json {A} r.

(** The response of the customer route: [ok] with a JSON profile, or
    not [ok] with a JSON error body. *)
Inductive CustomerResponse : Type :=
| CustomerOk (json : Js.settled CustomerData)
| CustomerNotOk (json : Js.settled api_body).

(** [{ error?: { message?: string } }] of [elements.submit] and [confirmPayment]. *)
Record StripeError : Type := { message : option string }.

(** Calls of the browser code to the outside. *)
Inductive event : Type :=
| ReplaceState (url : Location)
| LoadStripe
| RetrievePaymentIntent (clientSecret : string)
| FetchCustomer (customerId : string)
| FetchApplyCredit (customerId : string) (amount : Js.number) (currency : string)
| FetchCreatePaymentIntent (customerId : string) (amount : Js.number) (currency : string)
| ElementsSubmit
| ConfirmPayment (clientSecret : string) (return_url : Location)
| OnBalanceUpdated.

(** The outside: how each call settles. *)
Record world : Type := {
  (** [loadStripe(key)]: a Stripe handle ([true]) or [null]. *)
  loadStripe : Js.settled bool;
  (** [stripe.retrievePaymentIntent(secret)]: [{ paymentIntent? }]. *)
  retrievePaymentIntent : string -> Js.settled (option PaymentIntent);
  fetch_customer : string -> Js.settled CustomerResponse;
  fetch_apply_credit : string -> Js.number -> string -> Js.settled (Response api_body);
  fetch_create_payment_intent :
    string -> Js.number -> string -> Js.settled (Response api_body);
  (** [elements.submit()]: [{ error? }]. *)
  elements_submit : Js.settled (option StripeError);
  (** [stripe.confirmPayment(...)]: [{ error? }]. *)
  confirmPayment : string -> Location -> Js.settled (option StripeError)
}.

Definition is_apply_credit (ev : event) : bool :=
  match ev with FetchApplyCredit _ _ _ => true | _ => false end.

(** Number of calls to the apply-credit route in a trace. *)
Definition apply_credit_calls (t : list event) : nat :=
  List.length (List.filter is_apply_credit t).

End Client.

(** [src/app/customers/[slug]/page.tsx] *)
Module Page.
Import Client.

(** The component's state ([useState]) and the address bar. *)
Record state : Type := {
  location : Location;
  customer : option CustomerData;
  loading : bool;
  error : option string
}.

Definition initial (loc : Location) : state :=
  {| location := loc; customer := None; loading := true; error := None |}.

Definition setCustomer (c : option CustomerData) : M event state unit :=
  modify (fun s => {| location := location s; customer := c;
                      loading := loading s; error := error s |}).
Definition setLoading (b : bool) : M event state unit :=
  modify (fun s => {| location := location s; customer := customer s;
                      loading := b; error := error s |}).
Definition setError (e : option string) : M event state unit :=
  modify (fun s => {| location := location s; customer := customer s;
                      loading := loading s; error := e |}).

(** [window.history.replaceState({}, "", url)] with a [url] that is a
    path: the address becomes that path, without a query. *)
Definition replaceState (path : string) : M event state unit :=
  let url := {| pathname := path; search := [] |} in
  emit (ReplaceState url) ;;
  modify (fun s => {| location := url; customer := customer s;
                      loading := loading s; error := error s |}).

(** The constants [amount] and [currency] of [processPaymentRedirect]:
    [amount_received ?? amount ?? 0] and [currency ?? "usd"]. *)
Definition resolved_amount (paymentIntent : PaymentIntent) : Js.number :=
  Js.nullish (pi_amount_received paymentIntent)
    (Js.nullish (pi_amount paymentIntent) (Js.num 0)).
Definition resolved_currency (paymentIntent : PaymentIntent) : string :=
  Js.nullish (pi_currency paymentIntent) "usd".

Definition processPaymentRedirect (w : world) (customerId clientSecret : string)
  : M event state unit :=
  stripe <- await LoadStripe (loadStripe w) ;;
  if negb stripe then ret tt else
  paymentIntent <- await (RetrievePaymentIntent clientSecret)
                         (retrievePaymentIntent w clientSecret) ;;
  match paymentIntent with
  | None => ret tt
  | Some paymentIntent =>
      if negb (String.eqb (pi_status paymentIntent) "succeeded") then ret tt else
      let amount := resolved_amount paymentIntent in
      if Js.lt amount (Js.num 1) then ret tt else
      let currency := resolved_currency paymentIntent in
      res <- await (FetchApplyCredit customerId amount currency)
                   (fetch_apply_credit w customerId amount currency) ;;
      if negb (ok res) then throw (Js.Error "Failed to apply credit") else ret tt
  end.

Definition fetchCustomer (w : world) (slug : string) : M event state unit :=
  if String.eqb slug "" then ret tt else
  setLoading true ;;
  setError None ;;
  finally
    (try_catch
       (res <- await (FetchCustomer slug) (fetch_customer w slug) ;;
        match res with
        | CustomerNotOk json =>
            let data := or_else json empty_body in
            throw (Js.Error (Js.nullish (body_error data) "Failed to load customer"))
        | CustomerOk (Js.Rejected e) => throw e
        | CustomerOk (Js.Fulfilled data) => setCustomer (Some data)
        end)
       (fun e =>
          setError (Some (Js.message_or e "Failed to load customer")) ;;
          setCustomer None))
    (setLoading false).

(** The body of the [useEffect] of [CustomerPortalPage]. *)
Definition mount_effect (w : world) (slug : string) : M event state unit :=
  if String.eqb slug "" then ret tt else
  s <- get ;;
  let secret := URLSearchParams_get "payment_intent_client_secret"
                  (search (location s)) in
  match secret with
  | Some secret =>
      if negb (String.eqb secret "") then
        replaceState ("/customers/" ++ slug)%string ;;
        setLoading true ;;
        setError None ;;
        finally
          (try_catch
             (processPaymentRedirect w slug secret ;;
              fetchCustomer w slug)
             (fun e =>
                setError (Some (Js.message_or e "Failed to update balance")) ;;
                setCustomer None))
          (setLoading false)
      else fetchCustomer w slug
  | None => fetchCustomer w slug
  end.

(** What the component renders. *)
Inductive view : Type :=
| MissingCustomerId
| Loading
| ErrorMessage (msg : string)
| Portal (customer : CustomerData) (customerId : string).

Definition render (slug : string) (s : state) : view :=
  if String.eqb slug "" then MissingCustomerId
  else if loading s then Loading
  else match customer s with
       | Some c =>
           if present (error s)
           then ErrorMessage (Js.nullish (error s) "Customer not found")
           else Portal c slug
       | None => ErrorMessage (Js.nullish (error s) "Customer not found")
       end.

End Page.

(** [src/app/customers/[slug]/CustomerPortal.tsx] *)
Module Portal.
Import Client.

(** [Props], without the callback. *)
Record Props : Type := {
  customer : CustomerData;
  customerId : string
}.

(** [useState] and [useRef] of the component; a ref holds a handle
    ([true]) or [null]. *)
Record state : Type := {
  amountDollars : string;
  clientSecret : option string;
  payLoading : bool;
  payError : option string;
  stripeRef : bool;
  elementsRef : bool
}.

Definition setAmountDollars (v : string) : M event state unit :=
  modify (fun s => {| amountDollars := v; clientSecret := clientSecret s;
                      payLoading := payLoading s; payError := payError s;
                      stripeRef := stripeRef s; elementsRef := elementsRef s |}).
Definition setClientSecret (v : option string) : M event state unit :=
  modify (fun s => {| amountDollars := amountDollars s; clientSecret := v;
                      payLoading := payLoading s; payError := payError s;
                      stripeRef := stripeRef s; elementsRef := elementsRef s |}).
Definition setPayLoading (v : bool) : M event state unit :=
  modify (fun s => {| amountDollars := amountDollars s; clientSecret := clientSecret s;
                      payLoading := v; payError := payError s;
                      stripeRef := stripeRef s; elementsRef := elementsRef s |}).
Definition setPayError (v : option string) : M event state unit :=
  modify (fun s => {| amountDollars := amountDollars s; clientSecret := clientSecret s;
                      payLoading := payLoading s; payError := v;
                      stripeRef := stripeRef s; elementsRef := elementsRef s |}).

(** [Math.round(parseFloat(amountDollars) * 100)] *)
Definition cents (amountDollars : string) : Js.number :=
  Js.Math_round (Js.mul (Js.parseFloat amountDollars) (Js.num 100)).

Definition handleCreatePaymentIntent (w : world) (p : Props) : M event state unit :=
  s <- get ;;
  let amount := cents (amountDollars s) in
  if negb (Js.Number_isFinite amount) || Js.lt amount (Js.num 50) then
    setPayError (Some "Enter at least $0.50")
  else
    setPayError None ;;
    setPayLoading true ;;
    finally
      (try_catch
         (res <- await (FetchCreatePaymentIntent (customerId p) amount
                          (currency (customer p)))
                       (fetch_create_payment_intent w (customerId p) amount
                          (currency (customer p))) ;;
          match json res with
          | Js.Rejected e => throw e
          | Js.Fulfilled data =>
              if negb (ok res) then
                throw (Js.Error (Js.nullish (body_error data) "Failed to create payment"))
              else setClientSecret (body_clientSecret data)
          end)
         (fun e => setPayError (Some (Js.message_or e "Something went wrong"))))
      (setPayLoading false).

(** The [return_url] handed to [confirmPayment]. *)
Definition return_url (customerId clientSecret : string) : Location :=
  {| pathname := ("/customers/" ++ customerId)%string;
     search := [("payment_intent_client_secret", clientSecret)] |}.

Definition handleConfirmPayment (w : world) (p : Props) : M event state unit :=
  s <- get ;;
  match clientSecret s with
  | None => ret tt
  | Some secret =>
    if negb (stripeRef s) || negb (elementsRef s) || String.eqb secret "" then ret tt else
    let amountCents := cents (amountDollars s) in
    setPayError None ;;
    setPayLoading true ;;
    finally
      (try_catch
         (submitError <- await ElementsSubmit (elements_submit w) ;;
          match submitError with
          | Some submitError =>
              setPayError (Some (Js.nullish (message submitError) "Validation failed")) ;;
              setPayLoading false
          | None =>
              error <- await (ConfirmPayment secret (return_url (customerId p) secret))
                             (confirmPayment w secret (return_url (customerId p) secret)) ;;
              match error with
              | Some error =>
                  setPayError (Some (Js.nullish (message error) "Payment failed")) ;;
                  setPayLoading false
              | None =>
                  (* Payment succeeded (or requires action); apply credit *)
                  applyRes <- await (FetchApplyCredit (customerId p) amountCents
                                       (currency (customer p)))
                                    (fetch_apply_credit w (customerId p) amountCents
                                       (currency (customer p))) ;;
                  if negb (ok applyRes) then
                    let data := or_else (json applyRes) empty_body in
                    setPayError
                      (Some (Js.nullish (body_error data)
                         "Payment succeeded but failed to add credit. Contact support.")) ;;
                    setPayLoading false
                  else
                    setClientSecret None ;;
                    setAmountDollars "" ;;
                    emit OnBalanceUpdated
              end
          end)
         (fun e => setPayError (Some (Js.message_or e "Something went wrong"))))
      (setPayLoading false)
  end.

End Portal.

(* ================================================================== *)
(** * Vocabulary of the statements *)
(* ================================================================== *)

Definition is_integer (q : Q) : Prop := exists z : Z, q == inject_Z z.

(** The amount [v] of a request is not an integer of [lo .. hi]: it is
    below [lo], above [hi], not an integer, or not a number at all. *)
Definition out_of_range (lo hi : Z) (v : Js.value) : Prop :=
  match v with
  | Js.VNumber (Js.Finite q) =>
      (q < inject_Z lo)%Q \/ (inject_Z hi < q)%Q \/ ~ is_integer q
  | _ => True
  end.

(** The [customerId] of a request has its declared type, [string | undefined]. *)
Definition customerId_typed (v : Js.value) : Prop :=
  v = Js.VUndefined \/ exists c, v = Js.VString c.

(** A currency code written in the letters a .. z, as customer profiles
    carry it. *)
Definition lowercase_code (s : string) : Prop :=
  forall c, In c (list_ascii_of_string s) -> (97 <= N_of_ascii c <= 122)%N.

(** A route answered a validation error, without calling the gateway. *)
Definition rejected_400 (r : unit * list Server.event * result Server.response) : Prop :=
  trace_of r = [] /\ exists msg, result_of r = Ok (Server.json_error msg 400).

(** A gateway that accepts every call. *)
Definition accepting_gateway : Server.gateway :=
  {| Server.createBalanceTransaction := fun _ _ _ => Js.Fulfilled tt;
     Server.paymentIntents_create :=
       fun _ _ _ => Js.Fulfilled {| Server.client_secret := Some "pi_1_secret_2" |} |}.

(** A gateway that refuses every call with the given error. *)
Definition failing_gateway (e : Js.exn) : Server.gateway :=
  {| Server.createBalanceTransaction := fun _ _ _ => Js.Rejected e;
     Server.paymentIntents_create := fun _ _ _ => Js.Rejected e |}.

(** The body [{ customerId, amount, currency }]. *)
Definition request_body (customerId : string) (amount : Js.number) (currency : string)
  : Js.value :=
  Js.VObject [("customerId", Js.VString customerId);
              ("amount", Js.VNumber amount);
              ("currency", Js.VString currency)].

(** How [paymentIntents.create] can let the route down: it rejects, or
    the intent it resolves has no usable [client_secret]. *)
Definition no_secret (p : Js.settled Server.created_intent) : Prop :=
  match p with
  | Js.Rejected _ => True
  | Js.Fulfilled i =>
      Server.client_secret i = None \/ Server.client_secret i = Some ""
  end.

(** The query parameter that carries the confirmation secret. *)
Definition secret_of (st : Page.state) : option string :=
  Client.URLSearchParams_get "payment_intent_client_secret"
    (Client.search (Page.location st)).

(** The address the page gives itself on return from a redirect. *)
Definition stripped (slug : string) : Client.Location :=
  {| Client.pathname := ("/customers/" ++ slug)%string; Client.search := [] |}.

(** The page's state when the reconciliation handler is started. *)
Definition reconciling (slug : string) (st : Page.state) : Page.state :=
  {| Page.location := stripped slug; Page.customer := Page.customer st;
     Page.loading := true; Page.error := None |}.

(** The page's state after [fetchCustomer], from the route's answer. *)
Definition fetched (w : Client.world) (slug : string) (st : Page.state) : Page.state :=
  match Client.fetch_customer w slug with
  | Js.Fulfilled (Client.CustomerOk (Js.Fulfilled data)) =>
      {| Page.location := Page.location st; Page.customer := Some data;
         Page.loading := false; Page.error := None |}
  | Js.Fulfilled (Client.CustomerOk (Js.Rejected e)) =>
      {| Page.location := Page.location st; Page.customer := None;
         Page.loading := false;
         Page.error := Some (Js.message_or e "Failed to load customer") |}
  | Js.Fulfilled (Client.CustomerNotOk j) =>
      {| Page.location := Page.location st; Page.customer := None;
         Page.loading := false;
         Page.error := Some (Js.nullish (Client.body_error (or_else j Client.empty_body))
                               "Failed to load customer") |}
  | Js.Rejected e =>
      {| Page.location := Page.location st; Page.customer := None;
         Page.loading := false;
         Page.error := Some (Js.message_or e "Failed to load customer") |}
  end.

(** The page's state after a reconciliation handler that threw [e]. *)
Definition failed (slug : string) (e : Js.exn) : Page.state :=
  {| Page.location := stripped slug; Page.customer := None;
     Page.loading := false;
     Page.error := Some (Js.message_or e "Failed to update balance") |}.

(** The world [w], with another customer recorded on every intent it retrieves. *)
Definition with_intent_customer (who : option string) (w : Client.world) : Client.world :=
  {| Client.loadStripe := Client.loadStripe w;
     Client.retrievePaymentIntent := fun secret =>
       match Client.retrievePaymentIntent w secret with
       | Js.Fulfilled (Some i) =>
           Js.Fulfilled (Some {| Client.pi_id := Client.pi_id i;
                                 Client.pi_status := Client.pi_status i;
                                 Client.pi_amount := Client.pi_amount i;
                                 Client.pi_amount_received := Client.pi_amount_received i;
                                 Client.pi_currency := Client.pi_currency i;
                                 Client.pi_customer := who |})
       | other => other
       end;
     Client.fetch_customer := Client.fetch_customer w;
     Client.fetch_apply_credit := Client.fetch_apply_credit w;
     Client.fetch_create_payment_intent := Client.fetch_create_payment_intent w;
     Client.elements_submit := Client.elements_submit w;
     Client.confirmPayment := Client.confirmPayment w |}.

(** The portal's state with a validation message put in [payError]. *)
Definition with_payError (msg : string) (s : Portal.state) : Portal.state :=
  {| Portal.amountDollars := Portal.amountDollars s;
     Portal.clientSecret := Portal.clientSecret s;
     Portal.payLoading := Portal.payLoading s;
     Portal.payError := Some msg;
     Portal.stripeRef := Portal.stripeRef s;
     Portal.elementsRef := Portal.elementsRef s |}.

(** ** A customer, an intent and a browser to run the handlers on *)

Definition alice : Client.CustomerData :=
  {| Client.id := "cus_123"; Client.email := None; Client.name := Some "Alice";
     Client.address := None; Client.balance := Js.num (-200);
     Client.currency := "usd" |}.

(** An intent of 200 minor units, created for [customer]. *)
Definition intent (status : string) (received : option Js.number) (customer : string)
  : Client.PaymentIntent :=
  {| Client.pi_id := "pi_1"; Client.pi_status := status;
     Client.pi_amount := Some (Js.num 200); Client.pi_amount_received := received;
     Client.pi_currency := Some "usd"; Client.pi_customer := Some customer |}.

(** A browser in which Stripe loads, the secret retrieves [i], the payment
    form validates and confirms, the customer route answers [alice], and
    the apply-credit route answers [ok = credit_ok]. *)
Definition browser (i : Client.PaymentIntent) (credit_ok : bool) : Client.world :=
  {| Client.loadStripe := Js.Fulfilled true;
     Client.retrievePaymentIntent := fun _ => Js.Fulfilled (Some i);
     Client.fetch_customer := fun _ => Js.Fulfilled (Client.CustomerOk (Js.Fulfilled alice));
     Client.fetch_apply_credit := fun _ _ _ =>
       Js.Fulfilled
         {| Client.ok := credit_ok;
            Client.json := Js.Fulfilled
              {| Client.body_error :=
                   if credit_ok then None else Some "Failed to apply credit";
                 Client.body_clientSecret := None |} |};
     Client.fetch_create_payment_intent := fun _ _ _ =>
       Js.Fulfilled
         {| Client.ok := true;
            Client.json := Js.Fulfilled
              {| Client.body_error := None;
                 Client.body_clientSecret := Some "pi_1_secret_2" |} |};
     Client.elements_submit := Js.Fulfilled None;
     Client.confirmPayment := fun _ _ => Js.Fulfilled None |}.

(** The portal with [amount] typed in the field; [secret] is the intent
    created for it, if any, and the payment element is mounted. *)
Definition typed (amount : string) (secret : option string) : Portal.state :=
  {| Portal.amountDollars := amount; Portal.clientSecret := secret;
     Portal.payLoading := false; Portal.payError := None;
     Portal.stripeRef := true; Portal.elementsRef := true |}.

Definition props_of_alice : Portal.Props :=
  {| Portal.customer := alice; Portal.customerId := "cus_123" |}.

(** The page as the browser opens it on return from a redirect. *)
Definition returning (slug secret : string) : Page.state :=
  Page.initial (Portal.return_url slug secret).

(* ================================================================== *)
(** * The customer route, the portal's views and the payment element *)
(* ================================================================== *)

(** [src/app/api/customer/route.ts] *)
Module CustomerRoute.

(** The customer as [stripe.customers.retrieve] resolves it; a field that
    is [null] or missing is [None], [deleted] is set on a deleted customer. *)
Record StripeAddress : Type := {
  line1 : option string;
  line2 : option string;
  city : option string;
  state : option string;
  postal_code : option string;
  country : option string
}.

Record StripeCustomer : Type := {
  id : string;
  deleted : bool;
  email : option string;
  name : option string;
  address : option StripeAddress;
  currency : option string;
  balance : option Js.number
}.

Inductive event : Type :=
| CustomersRetrieve (customerId : string)
| ConsoleError (label : string) (err : Js.exn).

Definition handler : Type := M event unit Server.response.

(** A property [k: v ?? undefined] of an object literal, as
    [JSON.stringify] writes it: left out when [v] is [undefined]. *)
Definition property (k : string) (v : option string) : list (string * Js.value) :=
  match v with
  | Some s => [(k, Js.VString s)]
  | None => []
  end.

(** A number in a JSON text: [NaN] and the infinities are written [null]. *)
Definition json_number (n : Js.number) : Js.value :=
  match n with
  | Js.Finite _ => Js.VNumber n
  | _ => Js.VNull
  end.

Definition address_json (a : StripeAddress) : Js.value :=
  Js.VObject (property "line1" (line1 a) ++ property "line2" (line2 a)
              ++ property "city" (city a) ++ property "state" (state a)
              ++ property "postal_code" (postal_code a)
              ++ property "country" (country a)).

Definition customer_json (customer : StripeCustomer) : Js.value :=
  let currency := Js.nullish (currency customer) "usd" in
  let balance := Js.nullish (balance customer) (Js.num 0) in
  Js.VObject ([("id", Js.VString (id customer))]
              ++ property "email" (email customer)
              ++ property "name" (name customer)
              ++ match address customer with
                 | Some a => [("address", address_json a)]
                 | None => []
                 end
              ++ [("balance", json_number balance);
                  ("currency", Js.VString currency)]).

Definition GET (retrieve : string -> Js.settled StripeCustomer)
    (searchParams : list (string * string)) : handler :=
  match Client.URLSearchParams_get "customerId" searchParams with
  | None => ret (Server.json_error "Valid customerId (cus_...) is required" 400)
  | Some customerId =>
      if (String.eqb customerId "" || negb (Js.startsWith customerId "cus_"))%bool then
        ret (Server.json_error "Valid customerId (cus_...) is required" 400)
      else
        try_catch
          (customer <- await (CustomersRetrieve customerId) (retrieve customerId) ;;
           if deleted customer then
             ret (Server.json_error "Customer not found" 404)
           else
             ret (Server.json (customer_json customer)))
          (fun err =>
             emit (ConsoleError "Customer fetch error:" err) ;;
             ret (Server.json_error "Failed to fetch customer" 500))
  end.

End CustomerRoute.

(** [formatAddress] of [CustomerPortal.tsx]. *)
Module PortalView.
Import Client.

(** [parts.filter(Boolean)]: the strings that are there and not empty. *)
Fixpoint filter_Boolean (parts : list (option string)) : list string :=
  match parts with
  | [] => []
  | Some p :: rest =>
      if String.eqb p "" then filter_Boolean rest else p :: filter_Boolean rest
  | None :: rest => filter_Boolean rest
  end.

(** [parts.join(sep)] *)
Fixpoint join (sep : string) (parts : list string) : string :=
  match parts with
  | [] => ""
  | [p] => p
  | p :: rest => (p ++ sep ++ join sep rest)%string
  end.

Definition newline : string := String (ascii_of_nat 10) "".

Definition formatAddress (addr : Address) : string :=
  let parts :=
    filter_Boolean
      [line1 addr;
       line2 addr;
       Some (join ", " (filter_Boolean [city addr; state addr; postal_code addr]));
       country addr] in
  join newline parts.

End PortalView.

(** The effect of [CustomerPortal] that mounts the payment element when
    there is a [clientSecret]. *)
Module PaymentElement.
Import Client.

(** The calls of the effect: those of the browser code, and the ones on
    the Stripe handle. *)
Inductive event : Type :=
| Browser (ev : Client.event)
| StripeElements (clientSecret : string)
| ElementsCreate (type : string)
| PaymentElementMount.

(** What the effect finds around it: the container [div]
    ([paymentElementRef.current]) when the effect starts and when
    [loadStripe] has resolved, the publishable key, and whether the effect's
    clean-up has run in the meantime ([mounted = false]). *)
Record surroundings : Type := {
  container : bool;
  PUBLISHABLE_KEY : string;
  container_after_load : bool;
  mounted_after_load : bool
}.

Definition setStripeRef (v : bool) : M event Portal.state unit :=
  modify (fun s => {| Portal.amountDollars := Portal.amountDollars s;
                      Portal.clientSecret := Portal.clientSecret s;
                      Portal.payLoading := Portal.payLoading s;
                      Portal.payError := Portal.payError s;
                      Portal.stripeRef := v;
                      Portal.elementsRef := Portal.elementsRef s |}).
Definition setElementsRef (v : bool) : M event Portal.state unit :=
  modify (fun s => {| Portal.amountDollars := Portal.amountDollars s;
                      Portal.clientSecret := Portal.clientSecret s;
                      Portal.payLoading := Portal.payLoading s;
                      Portal.payError := Portal.payError s;
                      Portal.stripeRef := Portal.stripeRef s;
                      Portal.elementsRef := v |}).

(** The effect with its [async] body.  Nothing awaits the body or catches
    what it throws: a rejected [loadStripe] ends it and is seen by no one. *)
Definition mount_effect (w : world) (env : surroundings) : M event Portal.state unit :=
  s <- get ;;
  match Portal.clientSecret s with
  | None => ret tt
  | Some clientSecret =>
      if (String.eqb clientSecret "" || negb (container env)
          || String.eqb (PUBLISHABLE_KEY env) "")%bool then ret tt
      else
        try_catch
          (stripe <- await (Browser LoadStripe) (loadStripe w) ;;
           if (negb stripe || negb (mounted_after_load env)
               || negb (container_after_load env))%bool then ret tt
           else
             setStripeRef true ;;
             emit (StripeElements clientSecret) ;;
             setElementsRef true ;;
             emit (ElementsCreate "payment") ;;
             emit PaymentElementMount)
          (fun _ => ret tt)
  end.

(** The [Cancel] button: [() => setClientSecret(null)]. *)
Definition cancel : M Client.event Portal.state unit := Portal.setClientSecret None.

End PaymentElement.

(** The browser's [fetch] of the three routes, served by the handlers:
    the request goes through [JSON.stringify], the answer is read through
    [res.ok] and [res.json()]. *)
Module Http.
Import Client.

(** [res.ok] *)
Definition ok_status (status : Z) : bool := (200 <=? status) && (status <=? 299).

(** [data.k] of a JSON answer, when it is a string. *)
Definition string_field (k : string) (data : Js.value) : option string :=
  match data with
  | Js.VObject fields =>
      match Js.lookup k fields with
      | Js.VString v => Some v
      | _ => None
      end
  | _ => None
  end.

Definition api_body_of (data : Js.value) : api_body :=
  {| body_error := string_field "error" data;
     body_clientSecret := string_field "clientSecret" data |}.

(** [JSON.stringify({ customerId, amount, currency })], parsed again. *)
Definition post_body (customerId : string) (amount : Js.number) (currency : string)
  : Js.value :=
  Js.VObject [("customerId", Js.VString customerId);
              ("amount", CustomerRoute.json_number amount);
              ("currency", Js.VString currency)].

(** The answer of a route as [fetch] resolves it.  A handler that throws
    is answered by the framework with status 500 and a body that is not the
    route's JSON. *)
Definition answer {E : Type} (r : unit * list E * result Server.response)
  : Js.settled (Response api_body) :=
  match result_of r with
  | Ok res =>
      Js.Fulfilled {| ok := ok_status (Server.status res);
                      json := Js.Fulfilled (api_body_of (Server.body res)) |}
  | Throw _ =>
      Js.Fulfilled {| ok := false;
                      json := Js.Rejected (Js.Error "Unexpected token in JSON") |}
  end.

(** [fetch("/api/add-funds/apply-credit", { method: "POST", body })] *)
Definition post_apply_credit (g : Server.gateway)
    (customerId : string) (amount : Js.number) (currency : string)
  : Js.settled (Response api_body) :=
  answer (ApplyCredit.POST g (Js.Fulfilled (post_body customerId amount currency)) tt).

(** [fetch("/api/add-funds/create-payment-intent", { method: "POST", body })] *)
Definition post_create_payment_intent (g : Server.gateway)
    (customerId : string) (amount : Js.number) (currency : string)
  : Js.settled (Response api_body) :=
  answer (CreateIntent.POST g (Js.Fulfilled (post_body customerId amount currency)) tt).

(** The world [w], with the two add-funds routes served from the gateway [g]. *)
Definition served (g : Server.gateway) (w : world) : world :=
  {| loadStripe := loadStripe w;
     retrievePaymentIntent := retrievePaymentIntent w;
     fetch_customer := fetch_customer w;
     fetch_apply_credit := post_apply_credit g;
     fetch_create_payment_intent := post_create_payment_intent g;
     elements_submit := elements_submit w;
     confirmPayment := confirmPayment w |}.

(** [data.k] of a JSON answer, when it is a number. *)
Definition number_field (k : string) (data : Js.value) : option Js.number :=
  match data with
  | Js.VObject fields =>
      match Js.lookup k fields with
      | Js.VNumber v => Some v
      | _ => None
      end
  | _ => None
  end.

(** A JSON answer of the customer route seen through the type
    [CustomerData]; [None] when it does not have the fields the type
    requires. *)
Definition CustomerData_of (data : Js.value) : option CustomerData :=
  match string_field "id" data, number_field "balance" data,
        string_field "currency" data with
  | Some id, Some balance, Some currency =>
      Some {| id := id;
              email := string_field "email" data;
              name := string_field "name" data;
              address :=
                match data with
                | Js.VObject fields =>
                    match Js.lookup "address" fields with
                    | Js.VObject a =>
                        Some {| line1 := string_field "line1" (Js.VObject a);
                                line2 := string_field "line2" (Js.VObject a);
                                city := string_field "city" (Js.VObject a);
                                state := string_field "state" (Js.VObject a);
                                postal_code := string_field "postal_code" (Js.VObject a);
                                country := string_field "country" (Js.VObject a) |}
                    | _ => None
                    end
                | _ => None
                end;
              balance := balance;
              currency := currency |}
  | _, _, _ => None
  end.

(** [fetch(`/api/customer?customerId=${encodeURIComponent(slug)}`)]: the
    route reads back the [slug] it was sent. *)
Definition get_customer (retrieve : string -> Js.settled CustomerRoute.StripeCustomer)
    (slug : string) : Js.settled CustomerResponse :=
  match result_of (CustomerRoute.GET retrieve [("customerId", slug)] tt) with
  | Ok res =>
      if ok_status (Server.status res) then
        match CustomerData_of (Server.body res) with
        | Some data => Js.Fulfilled (CustomerOk (Js.Fulfilled data))
        | None =>
            Js.Fulfilled (CustomerOk (Js.Rejected (Js.TypeError "not a customer profile")))
        end
      else Js.Fulfilled (CustomerNotOk (Js.Fulfilled (api_body_of (Server.body res))))
  | Throw _ =>
      Js.Fulfilled (CustomerNotOk (Js.Rejected (Js.Error "Unexpected token in JSON")))
  end.

(** The world [w], with the customer route served from the gateway. *)
Definition with_customer_route
    (retrieve : string -> Js.settled CustomerRoute.StripeCustomer) (w : world) : world :=
  {| loadStripe := loadStripe w;
     retrievePaymentIntent := retrievePaymentIntent w;
     fetch_customer := get_customer retrieve;
     fetch_apply_credit := Client.fetch_apply_credit w;
     fetch_create_payment_intent := Client.fetch_create_payment_intent w;
     elements_submit := elements_submit w;
     confirmPayment := confirmPayment w |}.

End Http.

(** ** Vocabulary of the further statements *)

(** The number [n] is an integer of [lo .. hi]. *)
Definition integer_between (lo hi : Z) (n : Js.number) : Prop :=
  exists q, n = Js.Finite q /\ is_integer q /\ (inject_Z lo <= q <= inject_Z hi)%Q.

(** The [customerId] a route reads from a parsed body. *)
Definition customerId_of (body : Js.value) : Js.value :=
  match body with
  | Js.VObject fields => Js.lookup "customerId" fields
  | _ => Js.VUndefined
  end.

(** The bodies on which the two add-funds routes throw: [null], and a
    [customerId] that is truthy and not a string. *)
Definition crashing_body (body : Js.value) : Prop :=
  body = Js.VNull \/ body = Js.VUndefined
  \/ (Js.truthy (customerId_of body) = true
      /\ forall c, customerId_of body <> Js.VString c).

(** The currency create-payment-intent hands to the gateway for the
    [currency] field [v] of a body. *)
Definition intent_currency (v : Js.value) : string :=
  match v with
  | Js.VString c => Js.toLowerCase c
  | _ => "usd"
  end.

(** The profile the page holds for a customer of the gateway: the balance
    is 0 and the currency "usd" when the gateway has none. *)
Definition address_of (a : CustomerRoute.StripeAddress) : Client.Address :=
  {| Client.line1 := CustomerRoute.line1 a; Client.line2 := CustomerRoute.line2 a;
     Client.city := CustomerRoute.city a; Client.state := CustomerRoute.state a;
     Client.postal_code := CustomerRoute.postal_code a;
     Client.country := CustomerRoute.country a |}.

Definition profile_of (c : CustomerRoute.StripeCustomer) : Client.CustomerData :=
  {| Client.id := CustomerRoute.id c;
     Client.email := CustomerRoute.email c;
     Client.name := CustomerRoute.name c;
     Client.address := option_map address_of (CustomerRoute.address c);
     Client.balance := Js.nullish (CustomerRoute.balance c) (Js.num 0);
     Client.currency := Js.nullish (CustomerRoute.currency c) "usd" |}.

(** A customer of the gateway, and a gateway that knows her only. *)
Definition stripe_alice : CustomerRoute.StripeCustomer :=
  {| CustomerRoute.id := "cus_123"; CustomerRoute.deleted := false;
     CustomerRoute.email := None; CustomerRoute.name := Some "Alice";
     CustomerRoute.address := None; CustomerRoute.currency := None;
     CustomerRoute.balance := None |}.

Definition retrieve_alice (customerId : string)
  : Js.settled CustomerRoute.StripeCustomer :=
  if String.eqb customerId "cus_123" then Js.Fulfilled stripe_alice
  else Js.Rejected (Js.Error "No such customer").

(** The world [w], with another requested amount on every intent it retrieves. *)
Definition with_intent_amount (a : option Js.number) (w : Client.world) : Client.world :=
  {| Client.loadStripe := Client.loadStripe w;
     Client.retrievePaymentIntent := fun secret =>
       match Client.retrievePaymentIntent w secret with
       | Js.Fulfilled (Some i) =>
           Js.Fulfilled (Some {| Client.pi_id := Client.pi_id i;
                                 Client.pi_status := Client.pi_status i;
                                 Client.pi_amount := a;
                                 Client.pi_amount_received := Client.pi_amount_received i;
                                 Client.pi_currency := Client.pi_currency i;
                                 Client.pi_customer := Client.pi_customer i |})
       | other => other
       end;
     Client.fetch_customer := Client.fetch_customer w;
     Client.fetch_apply_credit := Client.fetch_apply_credit w;
     Client.fetch_create_payment_intent := Client.fetch_create_payment_intent w;
     Client.elements_submit := Client.elements_submit w;
     Client.confirmPayment := Client.confirmPayment w |}.

(** The payment element can be mounted: the container is rendered, the
    key is configured, and the component stays as it is while Stripe loads. *)
Definition mountable (env : PaymentElement.surroundings) : bool :=
  PaymentElement.container env
  && negb (String.eqb (PaymentElement.PUBLISHABLE_KEY env) "")
  && PaymentElement.mounted_after_load env
  && PaymentElement.container_after_load env.

Definition rendered_form : PaymentElement.surroundings :=
  {| PaymentElement.container := true;
     PaymentElement.PUBLISHABLE_KEY := "pk_test_1";
     PaymentElement.container_after_load := true;
     PaymentElement.mounted_after_load := true |}.

(** The portal's state with both refs holding a handle. *)
Definition with_refs (s : Portal.state) : Portal.state :=
  {| Portal.amountDollars := Portal.amountDollars s;
     Portal.clientSecret := Portal.clientSecret s;
     Portal.payLoading := Portal.payLoading s;
     Portal.payError := Portal.payError s;
     Portal.stripeRef := true;
     Portal.elementsRef := true |}.

(** The calls of a confirmation that goes all the way, in order. *)
Definition confirmation_calls (p : Portal.Props) (s : Portal.state) (secret : string)
  : list Client.event :=
  [Client.ElementsSubmit;
   Client.ConfirmPayment secret (Portal.return_url (Portal.customerId p) secret);
   Client.FetchApplyCredit (Portal.customerId p) (Portal.cents (Portal.amountDollars s))
     (Client.currency (Portal.customer p));
   Client.OnBalanceUpdated].

(** The portal as it is first rendered, with [amount] typed in the field:
    no intent, no message, no handle in the two refs. *)
Definition fresh_form (amount : string) : Portal.state :=
  {| Portal.amountDollars := amount; Portal.clientSecret := None;
     Portal.payLoading := false; Portal.payError := None;
     Portal.stripeRef := false; Portal.elementsRef := false |}.

(** The form [s] once the route has answered with [secret]. *)
Definition with_intent_secret (secret : string) (s : Portal.state) : Portal.state :=
  {| Portal.amountDollars := Portal.amountDollars s;
     Portal.clientSecret := Some secret;
     Portal.payLoading := Portal.payLoading s;
     Portal.payError := Portal.payError s;
     Portal.stripeRef := Portal.stripeRef s;
     Portal.elementsRef := Portal.elementsRef s |}.

(** The calls of the payment element's effect when it mounts the element. *)
Definition mounting_calls (secret : string) : list PaymentElement.event :=
  [PaymentElement.Browser Client.LoadStripe;
   PaymentElement.StripeElements secret;
   PaymentElement.ElementsCreate "payment";
   PaymentElement.PaymentElementMount].

(** The effect has all it needs to mount the element for [secret]. *)
Definition ready (w : Client.world) (env : PaymentElement.surroundings)
    (s : Portal.state) (secret : string) : Prop :=
  Portal.clientSecret s = Some secret /\ secret <> ""
  /\ mountable env = true /\ Client.loadStripe w = Js.Fulfilled true.

(** An amount of [n] minor units as it is typed with two decimals. *)
Definition digit (d : Z) : ascii := ascii_of_N (Z.to_N (48 + d)).

Fixpoint decimal_digits (fuel : nat) (n : Z) (acc : string) : string :=
  match fuel with
  | O => acc
  | S fuel' =>
      let acc' := String (digit (n mod 10)) acc in
      if n / 10 =? 0 then acc' else decimal_digits fuel' (n / 10) acc'
  end.

Definition two_decimals (n : Z) : string :=
  (decimal_digits 20 (n / 100) ""
   ++ "." ++ String (digit ((n / 10) mod 10)) (String (digit (n mod 10)) ""))%string.

(** [f] holds of 0, 1, ..., [k - 1]. *)
Fixpoint all_below (k : nat) (f : Z -> bool) : bool :=
  match k with
  | O => true
  | S k' => f (Z.of_nat k') && all_below k' f
  end.

Definition cents_exact (n : Z) : bool :=
  match Portal.cents (two_decimals n) with
  | Js.Finite q => Qeq_bool q (inject_Z n)
  | _ => false
  end.

(* ================================================================== *)
(** * Numbers and strings: basic facts *)
(* ================================================================== *)

Lemma Qltb_lt (a b : Q) : Js.Qltb a b = true <-> (a < b)%Q.
Proof.
  unfold Js.Qltb. rewrite negb_true_iff. split.
  - intro H. apply Qnot_le_lt. intro L.
    apply Qle_bool_iff in L. congruence.
  - intro H. destruct (Qle_bool b a) eqn:L; [|reflexivity].
    apply Qle_bool_iff in L. exfalso. exact (Qlt_not_le _ _ H L).
Qed.

Lemma Qltb_inject_Z (a b : Z) : Js.Qltb (inject_Z a) (inject_Z b) = (a <? b).
Proof.
  destruct (a <? b) eqn:L.
  - apply Qltb_lt. rewrite <- Zlt_Qlt. now apply Z.ltb_lt.
  - destruct (Js.Qltb (inject_Z a) (inject_Z b)) eqn:K; [|reflexivity].
    apply Qltb_lt in K. rewrite <- Zlt_Qlt in K. apply Z.ltb_lt in K. congruence.
Qed.

Lemma Number_isInteger_iff (q : Q) :
  Js.Number_isInteger (Js.Finite q) = true <-> is_integer q.
Proof.
  simpl. rewrite Qeq_bool_iff. split.
  - intro H. now exists (Qfloor q).
  - intros [z Hz]. rewrite Hz at 2. rewrite Qfloor_Z. exact Hz.
Qed.

Lemma Number_isInteger_num (z : Z) : Js.Number_isInteger (Js.num z) = true.
Proof. apply Number_isInteger_iff. now exists z. Qed.

Lemma lt_num (a b : Z) : Js.lt (Js.num a) (Js.num b) = (a <? b).
Proof. apply Qltb_inject_Z. Qed.

Lemma neg_num (a : Z) : Js.neg (Js.num a) = Js.num (- a).
Proof. reflexivity. Qed.

Lemma toLowerCase_lowercase (s : string) :
  lowercase_code s -> Js.toLowerCase s = s.
Proof.
  induction s as [|c s IH]; intro H; [reflexivity|].
  cbn [Js.toLowerCase]. f_equal.
  - assert (R : (97 <= N_of_ascii c <= 122)%N) by (apply H; now left).
    unfold Js.lower_code_unit.
    replace ((65 <=? N_of_ascii c) && (N_of_ascii c <=? 90))%N with false
      by (symmetry; apply andb_false_iff; right; apply N.leb_gt; lia).
    replace (192 <=? N_of_ascii c)%N with false
      by (symmetry; apply N.leb_gt; lia).
    reflexivity.
  - apply IH. intros d Hd. apply H. now right.
Qed.

Lemma startsWith_nonempty (c p : string) :
  p <> "" -> Js.startsWith c p = true -> String.eqb c "" = false.
Proof.
  intros Hp H. destruct c; [|reflexivity].
  destruct p; [congruence|discriminate].
Qed.

(* ================================================================== *)
(** * The API routes *)
(* ================================================================== *)

Section Routes.
Import Server.

Lemma check_customerId_typed (v : Js.value) (k : string -> handler) :
  customerId_typed v ->
  check_customerId v k =
    ret (json_error "Valid customerId (cus_...) is required" 400)
  \/ exists c, check_customerId v k = k c.
Proof.
  intros [-> | [c ->]]; [now left|].
  unfold check_customerId. simpl Js.truthy.
  destruct (negb (negb (c =? "")%string)); [now left|].
  destruct (negb (Js.startsWith c "cus_")); [now left|].
  right. now exists c.
Qed.

Lemma check_customerId_ok (c : string) (k : string -> handler) :
  Js.startsWith c "cus_" = true -> check_customerId (Js.VString c) k = k c.
Proof.
  intro H. unfold check_customerId. simpl Js.truthy.
  rewrite (startsWith_nonempty c "cus_"), H by (assumption || discriminate).
  reflexivity.
Qed.

Lemma check_amount_out_of_range (lo hi : Z) (msg : string) (v : Js.value)
    (k : Js.number -> handler) :
  out_of_range lo hi v ->
  check_amount lo hi msg v k = ret (json_error msg 400).
Proof.
  destruct v as [| | |[| |q]| | |]; try reflexivity.
  intros H. unfold check_amount.
  replace (negb (Js.Number_isInteger (Js.Finite q))
           || Js.lt (Js.Finite q) (Js.num lo)
           || Js.gt (Js.Finite q) (Js.num hi))%bool with true; [reflexivity|].
  symmetry. rewrite !orb_true_iff, negb_true_iff.
  destruct H as [H | [H | H]].
  - left; right. now apply Qltb_lt.
  - right. now apply Qltb_lt.
  - left; left. destruct (Js.Number_isInteger (Js.Finite q)) eqn:I; [|reflexivity].
    apply Number_isInteger_iff in I. contradiction.
Qed.

Lemma check_amount_ok (lo hi a : Z) (msg : string) (k : Js.number -> handler) :
  lo <= a <= hi ->
  check_amount lo hi msg (Js.VNumber (Js.num a)) k = k (Js.num a).
Proof.
  intros [L H]. unfold check_amount, Js.gt.
  rewrite Number_isInteger_num, !lt_num.
  replace (a <? lo) with false by (symmetry; apply Z.ltb_ge; lia).
  replace (hi <? a) with false by (symmetry; apply Z.ltb_ge; lia).
  reflexivity.
Qed.

(** The apply-credit route on a well-formed request: the gateway is told
    to record [-amount] for the customer, in the lower-cased currency; the
    answer follows the gateway's. *)
Lemma apply_credit_valid_request (g : gateway) (fields : list (string * Js.value))
    (c cur : string) (a : Z) :
  Js.lookup "customerId" fields = Js.VString c ->
  Js.startsWith c "cus_" = true ->
  Js.lookup "amount" fields = Js.VNumber (Js.num a) ->
  1 <= a <= 99999999 ->
  Js.lookup "currency" fields = Js.VString cur ->
  String.length cur = 3%nat ->
  ApplyCredit.POST g (Js.Fulfilled (Js.VObject fields)) tt =
    let call := CreateBalanceTransaction c (Js.num (- a)) (Js.toLowerCase cur) in
    match createBalanceTransaction g c (Js.num (- a)) (Js.toLowerCase cur) with
    | Js.Fulfilled _ =>
        (tt, [call], Ok (json (Js.VObject [("ok", Js.VBool true)])))
    | Js.Rejected e =>
        (tt, [call; ConsoleError "Apply credit error:" e],
         Ok (json_error "Failed to apply credit" 500))
    end.
Proof.
  intros Hc Hp Ha Hr Hcur Hlen.
  unfold ApplyCredit.POST, destructure. cbv zeta.
  rewrite Hc, Ha, Hcur, check_customerId_ok by assumption.
  rewrite check_amount_ok by (unfold ApplyCredit.MIN_CENTS, ApplyCredit.MAX_CENTS; lia).
  cbn [with_default]. rewrite Hlen, neg_num. cbn [Z.of_nat Pos.of_succ_nat Pos.succ Z.eqb Pos.eqb negb].
  run_eff.
  destruct (createBalanceTransaction g c (Js.num (- a)) (Js.toLowerCase cur)); reflexivity.
Qed.


Lemma create_intent_rejects (g : gateway) (fields : list (string * Js.value)) :
  customerId_typed (Js.lookup "customerId" fields) ->
  out_of_range 50 99999999 (Js.lookup "amount" fields) ->
  rejected_400 (CreateIntent.POST g (Js.Fulfilled (Js.VObject fields)) tt).
Proof.
  intros Hc Ha. unfold CreateIntent.POST, destructure. cbv zeta.
  match goal with
  | |- context [check_customerId ?v ?k] =>
      destruct (check_customerId_typed v k Hc) as [E | [c E]]; rewrite E
  end.
  - split; [reflexivity | eexists; reflexivity].
  - rewrite check_amount_out_of_range by exact Ha.
    split; [reflexivity | eexists; reflexivity].
Qed.

Lemma apply_credit_rejects (g : gateway) (fields : list (string * Js.value)) :
  customerId_typed (Js.lookup "customerId" fields) ->
  out_of_range 1 99999999 (Js.lookup "amount" fields) ->
  rejected_400 (ApplyCredit.POST g (Js.Fulfilled (Js.VObject fields)) tt).
Proof.
  intros Hc Ha. unfold ApplyCredit.POST, destructure. cbv zeta.
  match goal with
  | |- context [check_customerId ?v ?k] =>
      destruct (check_customerId_typed v k Hc) as [E | [c E]]; rewrite E
  end.
  - split; [reflexivity | eexists; reflexivity].
  - rewrite check_amount_out_of_range by exact Ha.
    split; [reflexivity | eexists; reflexivity].
Qed.

(** The create-payment-intent route either stops before the gateway, or
    makes one [paymentIntents.create] call and answers from its outcome. *)
Lemma create_intent_cases (g : gateway) (request_json : Js.settled Js.value) :
  let run := CreateIntent.POST g request_json tt in
  trace_of run = []
  \/ exists a cur c,
      let call := PaymentIntentsCreate a cur c true in
      let failure := json_error "Failed to create payment intent" 500 in
      run =
        match paymentIntents_create g a cur c with
        | Js.Rejected e =>
            (tt, [call; ConsoleError "Create payment intent error:" e], Ok failure)
        | Js.Fulfilled i =>
            match client_secret i with
            | None => (tt, [call], Ok failure)
            | Some secret =>
                if String.eqb secret "" then (tt, [call], Ok failure)
                else (tt, [call],
                      Ok (json (Js.VObject [("clientSecret", Js.VString secret)])))
            end
        end.
Proof.
  cbv zeta. unfold CreateIntent.POST.
  destruct request_json as [body | e]; [|now left].
  assert (K : forall fields,
    trace_of (CreateIntent.POST g (Js.Fulfilled (Js.VObject fields)) tt) = []
    \/ exists a cur c,
      CreateIntent.POST g (Js.Fulfilled (Js.VObject fields)) tt =
        match paymentIntents_create g a cur c with
        | Js.Rejected e =>
            (tt, [PaymentIntentsCreate a cur c true;
                  ConsoleError "Create payment intent error:" e],
             Ok (json_error "Failed to create payment intent" 500))
        | Js.Fulfilled i =>
            match client_secret i with
            | None => (tt, [PaymentIntentsCreate a cur c true],
                       Ok (json_error "Failed to create payment intent" 500))
            | Some secret =>
                if String.eqb secret "" then
                  (tt, [PaymentIntentsCreate a cur c true],
                   Ok (json_error "Failed to create payment intent" 500))
                else (tt, [PaymentIntentsCreate a cur c true],
                      Ok (json (Js.VObject [("clientSecret", Js.VString secret)])))
            end
        end).
  { intros fields. unfold CreateIntent.POST, destructure. cbv zeta.
    unfold check_customerId.
    destruct (negb (Js.truthy (Js.lookup "customerId" fields))); [now left|].
    destruct (Js.lookup "customerId" fields) as [| | | | c | |]; try now left.
    destruct (negb (Js.startsWith c "cus_")); [now left|].
    unfold check_amount.
    destruct (Js.lookup "amount" fields) as [| | | a | | |]; try now left.
    destruct (negb (Js.Number_isInteger a) || Js.lt a (Js.num CreateIntent.MIN_CENTS)
              || Js.gt a (Js.num CreateIntent.MAX_CENTS))%bool; [now left|].
    right.
    match goal with
    | |- context [paymentIntents_create g a ?cur c] => exists a, cur, c
    end.
    run_eff.
    destruct (paymentIntents_create g a _ c) as [[[secret|]]|e]; try reflexivity.
    cbn [client_secret]. destruct (String.eqb secret ""); reflexivity. }
  destruct body as [| | | | | |fields]; try (now left); try exact (K []).
  exact (K fields).
Qed.

End Routes.

(** C5.  For every valid credit-adjustment request (a customer reference,
    an integer amount of 1 .. 99999999 and a currency code of three
    letters) the apply-credit route makes exactly one gateway call, which
    records a balance transaction of exactly [-amount], in the given
    currency (put in lower case; a code in lower case is passed as it is),
    for that customer; when the gateway accepts it, the answer is the bare
    acknowledgment [{ ok: true }] with status 200. *)
Theorem apply_credit_records_negated_amount
    (g : Server.gateway) (fields : list (string * Js.value))
    (customerId currency : string) (amount : Z) :
  Js.lookup "customerId" fields = Js.VString customerId ->
  Js.startsWith customerId "cus_" = true ->
  Js.lookup "amount" fields = Js.VNumber (Js.num amount) ->
  1 <= amount <= 99999999 ->
  Js.lookup "currency" fields = Js.VString currency ->
  String.length currency = 3%nat ->
  let run := ApplyCredit.POST g (Js.Fulfilled (Js.VObject fields)) tt in
  let call := Server.CreateBalanceTransaction customerId (Js.num (- amount))
                (Js.toLowerCase currency) in
  List.filter (fun ev => match ev with
                         | Server.ConsoleError _ _ => false
                         | _ => true
                         end) (trace_of run) = [call]
  /\ (Server.createBalanceTransaction g customerId (Js.num (- amount))
        (Js.toLowerCase currency) = Js.Fulfilled tt ->
      run = (tt, [call],
             Ok {| Server.status := 200;
                   Server.body := Js.VObject [("ok", Js.VBool true)] |}))
  /\ (lowercase_code currency -> Js.toLowerCase currency = currency).
Proof.
  intros Hc Hp Ha Hr Hcur Hlen run call. subst run call.
  rewrite (apply_credit_valid_request g fields customerId currency amount) by assumption.
  cbv zeta. split; [|split; [|apply toLowerCase_lowercase]].
  - destruct (Server.createBalanceTransaction g customerId (Js.num (- amount))
                (Js.toLowerCase currency)) as [[]|e]; reflexivity.
  - intros ->. reflexivity.
Qed.

Lemma apply_credit_records_negated_amount_witness :
  ApplyCredit.POST accepting_gateway
    (Js.Fulfilled (request_body "cus_123" (Js.num 200) "USD")) tt
  = (tt, [Server.CreateBalanceTransaction "cus_123" (Js.num (-200)) "usd"],
     Ok {| Server.status := 200;
           Server.body := Js.VObject [("ok", Js.VBool true)] |}).
Proof.
  apply (apply_credit_records_negated_amount accepting_gateway
           [("customerId", Js.VString "cus_123");
            ("amount", Js.VNumber (Js.num 200));
            ("currency", Js.VString "USD")] "cus_123" "USD" 200);
    try reflexivity; lia.
Defined.

(** C2, as the code has it.  A request whose amount is below the route's
    minimum, above 99999999, or not an integer is rejected with status 400
    before the gateway is called; the minimum is 50 for create-payment-intent
    and 1 for apply-credit, which passes an amount of 1 .. 49 on to the
    gateway.  (The request's [customerId] is absent or a string, as its
    type says.) *)
Theorem out_of_range_amount_rejected
    (g : Server.gateway) (fields : list (string * Js.value)) :
  customerId_typed (Js.lookup "customerId" fields) ->
  (out_of_range 50 99999999 (Js.lookup "amount" fields) ->
   rejected_400 (CreateIntent.POST g (Js.Fulfilled (Js.VObject fields)) tt))
  /\ (out_of_range 1 99999999 (Js.lookup "amount" fields) ->
      rejected_400 (ApplyCredit.POST g (Js.Fulfilled (Js.VObject fields)) tt))
  /\ (forall c a cur,
       Js.lookup "customerId" fields = Js.VString c ->
       Js.startsWith c "cus_" = true ->
       Js.lookup "amount" fields = Js.VNumber (Js.num a) ->
       1 <= a < 50 ->
       Js.lookup "currency" fields = Js.VString cur ->
       String.length cur = 3%nat ->
       In (Server.CreateBalanceTransaction c (Js.num (- a)) (Js.toLowerCase cur))
          (trace_of (ApplyCredit.POST g (Js.Fulfilled (Js.VObject fields)) tt))).
Proof.
  intro Hc. split; [|split].
  - intro Ha. now apply create_intent_rejects.
  - intro Ha. now apply apply_credit_rejects.
  - intros c a cur H1 H2 H3 H4 H5 H6.
    rewrite (apply_credit_valid_request g fields c cur a) by (assumption || lia).
    cbv zeta.
    destruct (Server.createBalanceTransaction g c (Js.num (- a)) (Js.toLowerCase cur));
      now left.
Qed.

Lemma out_of_range_amount_rejected_witness :
  rejected_400 (CreateIntent.POST accepting_gateway
                  (Js.Fulfilled (request_body "cus_123" (Js.num 0) "usd")) tt)
  /\ rejected_400 (ApplyCredit.POST accepting_gateway
                     (Js.Fulfilled (request_body "cus_123" (Js.num 0) "usd")) tt)
  /\ In (Server.CreateBalanceTransaction "cus_123" (Js.num (-49)) "usd")
        (trace_of (ApplyCredit.POST accepting_gateway
                     (Js.Fulfilled (request_body "cus_123" (Js.num 49) "usd")) tt)).
Proof.
  destruct (out_of_range_amount_rejected accepting_gateway
              [("customerId", Js.VString "cus_123");
               ("amount", Js.VNumber (Js.num 0));
               ("currency", Js.VString "usd")]) as (A & B & _).
  { right. exists "cus_123". reflexivity. }
  destruct (out_of_range_amount_rejected accepting_gateway
              [("customerId", Js.VString "cus_123");
               ("amount", Js.VNumber (Js.num 49));
               ("currency", Js.VString "usd")]) as (_ & _ & C).
  { right. exists "cus_123". reflexivity. }
  split; [|split].
  - apply A. left. reflexivity.
  - apply B. left. reflexivity.
  - apply (C "cus_123" 49 "usd"); try reflexivity. lia.
Defined.

(** C2, as the claim has it, fails on apply-credit: an amount of 10 minor
    units is below 50, and the route accepts it and has the gateway record
    the credit. *)
Lemma apply_credit_accepts_10_cents :
  (inject_Z 10 < inject_Z 50)%Q
  /\ ApplyCredit.POST accepting_gateway
       (Js.Fulfilled (request_body "cus_123" (Js.num 10) "usd")) tt
     = (tt, [Server.CreateBalanceTransaction "cus_123" (Js.num (-10)) "usd"],
        Ok {| Server.status := 200;
              Server.body := Js.VObject [("ok", Js.VBool true)] |})
  /\ ~ rejected_400 (ApplyCredit.POST accepting_gateway
                       (Js.Fulfilled (request_body "cus_123" (Js.num 10) "usd")) tt).
Proof.
  split; [reflexivity|]. split; [reflexivity|].
  intros [H _]. discriminate H.
Qed.

(** Outside the declared type of the body: a [customerId] that is truthy
    and not a string reaches [customerId.startsWith], which is not there to
    call; the handler throws before it looks at the amount. *)
Lemma numeric_customerId_throws :
  CreateIntent.POST accepting_gateway
    (Js.Fulfilled (Js.VObject [("customerId", Js.VNumber (Js.num 123));
                               ("amount", Js.VNumber (Js.num 10))])) tt
  = (tt, [], Throw (Js.TypeError "customerId.startsWith is not a function")).
Proof. reflexivity. Qed.

(** C8.  Whenever the create-payment-intent route has called the gateway
    and the call failed, or resolved an intent without a confirmation
    secret, the answer is the fixed body
    [{ error: "Failed to create payment intent" }] with status 500: the
    same for every gateway error, and not a 400. *)
Theorem create_intent_gateway_failure_is_500
    (g : Server.gateway) (request_json : Js.settled Js.value)
    (amount : Js.number) (currency customer : string) (apm : bool) :
  let run := CreateIntent.POST g request_json tt in
  In (Server.PaymentIntentsCreate amount currency customer apm) (trace_of run) ->
  no_secret (Server.paymentIntents_create g amount currency customer) ->
  result_of run =
    Ok {| Server.status := 500;
          Server.body := Js.VObject
            [("error", Js.VString "Failed to create payment intent")] |}.
Proof.
  intros run Hin Hbad. subst run.
  destruct (create_intent_cases g request_json) as [E | (a & cur & c & E)].
  - rewrite E in Hin. destruct Hin.
  - cbv zeta in E. rewrite E in Hin |- *.
    assert (Hcall : a = amount /\ cur = currency /\ c = customer).
    { destruct (Server.paymentIntents_create g a cur c) as [[[secret|]]|e];
        cbn [Server.client_secret] in Hin; try destruct (String.eqb secret "");
        cbn in Hin; destruct Hin as [H | H]; try (now inversion H);
        try destruct H as [H | H]; try discriminate H; try contradiction. }
    destruct Hcall as (-> & -> & ->).
    destruct (Server.paymentIntents_create g amount currency customer) as [[[secret|]]|e];
      cbn [Server.client_secret] in *; try reflexivity.
    destruct Hbad as [H | H]; [discriminate|]. injection H as ->. reflexivity.
Qed.

Lemma create_intent_gateway_failure_is_500_witness :
  result_of (CreateIntent.POST (failing_gateway (Js.Error "card_declined: sk_live"))
               (Js.Fulfilled (request_body "cus_123" (Js.num 500) "usd")) tt)
  = Ok {| Server.status := 500;
          Server.body := Js.VObject
            [("error", Js.VString "Failed to create payment intent")] |}.
Proof.
  apply (create_intent_gateway_failure_is_500
           (failing_gateway (Js.Error "card_declined: sk_live"))
           (Js.Fulfilled (request_body "cus_123" (Js.num 500) "usd"))
           (Js.num 500) "usd" "cus_123" true).
  - simpl. left. reflexivity.
  - simpl. exact I.
Defined.

(* ================================================================== *)
(** * The customer page *)
(* ================================================================== *)

Section CustomerPage.
Import Client Page.

(** [processPaymentRedirect], call by call. *)
Lemma processPaymentRedirect_run (w : world) (customerId clientSecret : string)
    (st : state) :
  processPaymentRedirect w customerId clientSecret st =
    match loadStripe w with
    | Js.Rejected e => (st, [LoadStripe], Throw e)
    | Js.Fulfilled false => (st, [LoadStripe], Ok tt)
    | Js.Fulfilled true =>
        let retrieve := RetrievePaymentIntent clientSecret in
        match retrievePaymentIntent w clientSecret with
        | Js.Rejected e => (st, [LoadStripe; retrieve], Throw e)
        | Js.Fulfilled None => (st, [LoadStripe; retrieve], Ok tt)
        | Js.Fulfilled (Some i) =>
            if (negb (String.eqb (pi_status i) "succeeded")
                || Js.lt (resolved_amount i) (Js.num 1))%bool
            then (st, [LoadStripe; retrieve], Ok tt)
            else
              let amount := resolved_amount i in
              let currency := resolved_currency i in
              let apply := FetchApplyCredit customerId amount currency in
              match fetch_apply_credit w customerId amount currency with
              | Js.Rejected e => (st, [LoadStripe; retrieve; apply], Throw e)
              | Js.Fulfilled res =>
                  (st, [LoadStripe; retrieve; apply],
                   if ok res then Ok tt else Throw (Js.Error "Failed to apply credit"))
              end
        end
    end.
Proof.
  unfold processPaymentRedirect. run_eff.
  destruct (loadStripe w) as [[|]|e]; try reflexivity.
  cbn [negb]. cbv zeta.
  destruct (retrievePaymentIntent w clientSecret) as [[i|]|e]; try reflexivity.
  cbn. destruct (negb (String.eqb (pi_status i) "succeeded")); [reflexivity|].
  cbn. destruct (Js.lt (resolved_amount i) (Js.num 1)); [reflexivity|].
  cbn. destruct (fetch_apply_credit w customerId _ _) as [res|e]; [|reflexivity].
  destruct (ok res); reflexivity.
Qed.

Lemma fetchCustomer_run (w : world) (slug : string) (st : state) :
  slug <> "" ->
  fetchCustomer w slug st = (fetched w slug st, [FetchCustomer slug], Ok tt).
Proof.
  intro Hs. apply String.eqb_neq in Hs.
  unfold fetchCustomer, fetched. rewrite Hs.
  unfold setLoading, setError, setCustomer. run_eff.
  destruct (fetch_customer w slug) as [[[data|e]|j]|e]; reflexivity.
Qed.

Lemma fetched_idle (w : world) (slug : string) (st : state) :
  loading (fetched w slug st) = false
  /\ location (fetched w slug st) = location st.
Proof.
  unfold fetched.
  destruct (fetch_customer w slug) as [[[data|e]|j]|e]; split; reflexivity.
Qed.

(** The [useEffect] of the page, branch by branch. *)
Lemma mount_effect_plain (w : world) (slug : string) (st : state) :
  slug <> "" -> present (secret_of st) = false ->
  mount_effect w slug st = (fetched w slug st, [FetchCustomer slug], Ok tt).
Proof.
  intros Hs Hp. rewrite <- fetchCustomer_run by assumption.
  apply String.eqb_neq in Hs.
  unfold mount_effect. rewrite Hs. unfold bind at 1, get. cbv zeta.
  unfold secret_of, present in Hp.
  destruct (URLSearchParams_get _ _) as [secret|].
  - rewrite Hp.
    destruct (fetchCustomer w slug st) as [[s1 t1] r1]. reflexivity.
  - destruct (fetchCustomer w slug st) as [[s1 t1] r1]. reflexivity.
Qed.

Lemma processPaymentRedirect_state (w : world) (customerId clientSecret : string)
    (st : state) :
  state_of (processPaymentRedirect w customerId clientSecret st) = st.
Proof.
  rewrite processPaymentRedirect_run.
  destruct (loadStripe w) as [[|]|e]; try reflexivity. cbv zeta.
  destruct (retrievePaymentIntent w clientSecret) as [[i|]|e]; try reflexivity.
  destruct (negb _ || _)%bool; [reflexivity|].
  destruct (fetch_apply_credit w customerId _ _); reflexivity.
Qed.

Lemma mount_effect_redirect (w : world) (slug secret : string) (st : state) :
  slug <> "" -> secret_of st = Some secret -> secret <> "" ->
  mount_effect w slug st =
    match processPaymentRedirect w slug secret (reconciling slug st) with
    | (_, t, Ok _) =>
        (fetched w slug (reconciling slug st),
         ReplaceState (stripped slug) :: t ++ [FetchCustomer slug], Ok tt)
    | (_, t, Throw e) =>
        (failed slug e, ReplaceState (stripped slug) :: t, Ok tt)
    end.
Proof.
  intros Hs Hsec Hne.
  pose proof (fetchCustomer_run w slug (reconciling slug st) Hs) as Hf.
  pose proof (fetched_idle w slug (reconciling slug st)) as [Hl _].
  pose proof (processPaymentRedirect_state w slug secret (reconciling slug st)) as Hst.
  apply String.eqb_neq in Hs. apply String.eqb_neq in Hne.
  unfold mount_effect. rewrite Hs. unfold bind at 1, get. cbv zeta.
  unfold secret_of in Hsec. rewrite Hsec, Hne. cbn [negb].
  unfold replaceState, setLoading, setError, setCustomer. run_eff.
  cbn [location customer loading error].
  change {| location := {| pathname := ("/customers/" ++ slug)%string; search := [] |};
            customer := customer st; loading := true; error := None |}
    with (reconciling slug st).
  change {| pathname := ("/customers/" ++ slug)%string; search := [] |}
    with (stripped slug).
  destruct (processPaymentRedirect w slug secret (reconciling slug st))
    as [[s1 t1] [[]|e]]; cbn [state_of fst] in Hst; subst s1.
  - rewrite Hf. cbn [app]. rewrite !app_nil_r.
    pose proof Hl as Hl'. revert Hl'.
    destruct (fetched w slug (reconciling slug st)) as [l c b e].
    cbn. intros ->. reflexivity.
  - cbn [app]. rewrite !app_nil_r. reflexivity.
Qed.

Lemma present_secret (st : state) :
  present (secret_of st) = true ->
  exists secret, secret_of st = Some secret /\ secret <> "".
Proof.
  unfold present. destruct (secret_of st) as [secret|]; [|discriminate].
  intro H. exists secret. split; [reflexivity|].
  apply String.eqb_neq. now apply negb_true_iff.
Qed.

(** What the reconciliation handler does with an intent it will not credit. *)
Lemma processPaymentRedirect_abort (w : world) (customerId clientSecret : string)
    (st : state) (i : PaymentIntent) :
  loadStripe w = Js.Fulfilled true ->
  retrievePaymentIntent w clientSecret = Js.Fulfilled (Some i) ->
  pi_status i <> "succeeded"
  \/ (exists q, resolved_amount i = Js.Finite q /\ (q < 1)%Q) ->
  processPaymentRedirect w customerId clientSecret st =
    (st, [LoadStripe; RetrievePaymentIntent clientSecret], Ok tt).
Proof.
  intros Hl Hr Hbad. rewrite processPaymentRedirect_run, Hl. cbv zeta. rewrite Hr.
  replace (negb (String.eqb (pi_status i) "succeeded")
           || Js.lt (resolved_amount i) (Js.num 1))%bool with true; [reflexivity|].
  symmetry. apply orb_true_iff. destruct Hbad as [H | (q & -> & H)].
  - left. apply negb_true_iff. now apply String.eqb_neq.
  - right. now apply Qltb_lt.
Qed.

(** ... and with one it credits. *)
Lemma processPaymentRedirect_credit (w : world) (customerId clientSecret : string)
    (st : state) (i : PaymentIntent) (q : Q) :
  loadStripe w = Js.Fulfilled true ->
  retrievePaymentIntent w clientSecret = Js.Fulfilled (Some i) ->
  pi_status i = "succeeded" ->
  resolved_amount i = Js.Finite q -> (1 <= q)%Q ->
  processPaymentRedirect w customerId clientSecret st =
    (st,
     [LoadStripe; RetrievePaymentIntent clientSecret;
      FetchApplyCredit customerId (resolved_amount i) (resolved_currency i)],
     match fetch_apply_credit w customerId (resolved_amount i) (resolved_currency i) with
     | Js.Rejected e => Throw e
     | Js.Fulfilled res =>
         if ok res then Ok tt else Throw (Js.Error "Failed to apply credit")
     end).
Proof.
  intros Hl Hr Hs Hq Hge. rewrite processPaymentRedirect_run, Hl. cbv zeta.
  rewrite Hr, Hs. cbn [String.eqb Ascii.eqb Bool.eqb negb orb].
  replace (Js.lt (resolved_amount i) (Js.num 1)) with false.
  - destruct (fetch_apply_credit w customerId _ _); reflexivity.
  - symmetry. rewrite Hq.
    destruct (Js.lt (Js.Finite q) (Js.num 1)) eqn:L; [|reflexivity].
    apply Qltb_lt in L. exfalso. exact (Qle_not_lt _ _ Hge L).
Qed.

(** Every apply-credit call of the handler is for the [customerId] it was
    given, there is at most one, and the handler calls nothing of the page. *)
Lemma processPaymentRedirect_calls (w : world) (customerId clientSecret : string)
    (st : state) :
  let t := trace_of (processPaymentRedirect w customerId clientSecret st) in
  (apply_credit_calls t <= 1)%nat
  /\ (forall c a cur, In (FetchApplyCredit c a cur) t -> c = customerId)
  /\ (forall c, ~ In (FetchCustomer c) t)
  /\ (forall u, ~ In (ReplaceState u) t).
Proof.
  cbv zeta. rewrite processPaymentRedirect_run.
  destruct (loadStripe w) as [[|]|e]; cbv zeta;
    [ destruct (retrievePaymentIntent w clientSecret) as [[i|]|e];
      [ destruct (negb _ || _)%bool;
        [ | destruct (fetch_apply_credit w customerId _ _) as [res|e] ] | | ] | | ];
    cbn; repeat split; try lia; intros;
    intuition (try discriminate; congruence).
Qed.

Lemma secret_of_location (a b : state) :
  location a = location b -> secret_of a = secret_of b.
Proof. unfold secret_of. now intros ->. Qed.

(** The handler does not look at the customer recorded on the intent. *)
Lemma processPaymentRedirect_ignores_customer (who : option string) (w : world)
    (customerId clientSecret : string) (st : state) :
  processPaymentRedirect (with_intent_customer who w) customerId clientSecret st =
  processPaymentRedirect w customerId clientSecret st.
Proof.
  rewrite !processPaymentRedirect_run.
  cbn [with_intent_customer loadStripe retrievePaymentIntent fetch_apply_credit].
  destruct (loadStripe w) as [[|]|e]; try reflexivity. cbv zeta.
  destruct (retrievePaymentIntent w clientSecret) as [[i|]|e]; reflexivity.
Qed.

Lemma mount_effect_ignores_customer (who : option string) (w : world)
    (slug : string) (st : state) :
  mount_effect (with_intent_customer who w) slug st = mount_effect w slug st.
Proof.
  destruct (String.eqb_spec slug "") as [-> | Hs]; [reflexivity|].
  destruct (present (secret_of st)) eqn:Hp.
  - destruct (present_secret st Hp) as (secret & Hsec & Hne).
    rewrite !(mount_effect_redirect _ slug secret st Hs Hsec Hne).
    rewrite processPaymentRedirect_ignores_customer. reflexivity.
  - rewrite !mount_effect_plain by assumption. reflexivity.
Qed.

Lemma mount_effect_credits_slug (w : world) (slug : string) (st : state)
    (c : string) (a : Js.number) (cur : string) :
  In (FetchApplyCredit c a cur) (trace_of (mount_effect w slug st)) -> c = slug.
Proof.
  destruct (String.eqb_spec slug "") as [-> | Hs]; [intros []|].
  destruct (present (secret_of st)) eqn:Hp.
  - destruct (present_secret st Hp) as (secret & Hsec & Hne).
    rewrite (mount_effect_redirect _ slug secret st Hs Hsec Hne).
    pose proof (processPaymentRedirect_calls w slug secret (reconciling slug st))
      as (_ & Hc & _).
    destruct (processPaymentRedirect w slug secret (reconciling slug st))
      as [[s1 t1] [[]|e]]; cbn [trace_of fst snd] in *.
    + intros [H | H]; [discriminate|]. apply in_app_or in H.
      destruct H as [H | [H | []]]; [now apply (Hc c a cur) | discriminate].
    + intros [H | H]; [discriminate | now apply (Hc c a cur)].
  - rewrite mount_effect_plain by assumption.
    intros [H | []]. discriminate.
Qed.


(** The address a page load ends with: the stripped one when the query
    held a secret, the one it started with otherwise. *)
Lemma location_after_effect (w : world) (slug : string) (st : state) :
  slug <> "" ->
  location (state_of (mount_effect w slug st)) =
    if present (secret_of st) then stripped slug else location st.
Proof.
  intro Hs.
  destruct (present (secret_of st)) eqn:Hp.
  - destruct (present_secret st Hp) as (secret & Hsec & Hne).
    rewrite (mount_effect_redirect w slug secret st Hs Hsec Hne).
    destruct (processPaymentRedirect w slug secret (reconciling slug st))
      as [[s1 t1] [[]|e]]; cbn [state_of fst]; [|reflexivity].
    apply fetched_idle.
  - rewrite mount_effect_plain by assumption. apply fetched_idle.
Qed.

Lemma no_secret_after_effect (w : world) (slug : string) (st : state) :
  slug <> "" ->
  present (secret_of (state_of (mount_effect w slug st))) = false.
Proof.
  intro Hs. unfold secret_of at 1. rewrite location_after_effect by assumption.
  destruct (present (secret_of st)) eqn:Hp; [reflexivity | exact Hp].
Qed.

End CustomerPage.

(** C6.  On return from a redirect, when the retrieved intent is not
    succeeded, or its resolved amount is below 1, the reconciliation
    handler returns normally after the retrieval: it makes no apply-credit
    call, raises nothing and leaves the page's state alone; the page goes
    on to fetch the profile, and its error state is the fetch's. *)
Theorem redirect_aborts_silently
    (w : Client.world) (slug secret : string) (st : Page.state)
    (i : Client.PaymentIntent) :
  slug <> "" -> secret_of st = Some secret -> secret <> "" ->
  Client.loadStripe w = Js.Fulfilled true ->
  Client.retrievePaymentIntent w secret = Js.Fulfilled (Some i) ->
  Client.pi_status i <> "succeeded"
  \/ (exists q, Page.resolved_amount i = Js.Finite q /\ (q < 1)%Q) ->
  (forall st', Page.processPaymentRedirect w slug secret st' =
     (st', [Client.LoadStripe; Client.RetrievePaymentIntent secret], Ok tt))
  /\ Page.mount_effect w slug st =
       (fetched w slug (reconciling slug st),
        [Client.ReplaceState (stripped slug); Client.LoadStripe;
         Client.RetrievePaymentIntent secret; Client.FetchCustomer slug],
        Ok tt)
  /\ Client.apply_credit_calls (trace_of (Page.mount_effect w slug st)) = 0%nat.
Proof.
  intros Hs Hsec Hne Hl Hr Hbad.
  assert (A : forall st', Page.processPaymentRedirect w slug secret st' =
     (st', [Client.LoadStripe; Client.RetrievePaymentIntent secret], Ok tt)).
  { intro st'. now apply processPaymentRedirect_abort with (i := i). }
  assert (B : Page.mount_effect w slug st =
       (fetched w slug (reconciling slug st),
        [Client.ReplaceState (stripped slug); Client.LoadStripe;
         Client.RetrievePaymentIntent secret; Client.FetchCustomer slug],
        Ok tt)).
  { rewrite (mount_effect_redirect w slug secret st Hs Hsec Hne), A. reflexivity. }
  split; [exact A|]. split; [exact B|]. rewrite B. reflexivity.
Qed.

Lemma redirect_aborts_silently_witness :
  Page.mount_effect (browser (intent "canceled" None "cus_123") true) "cus_123"
    (returning "cus_123" "pi_1_secret_2")
  = ({| Page.location := stripped "cus_123"; Page.customer := Some alice;
        Page.loading := false; Page.error := None |},
     [Client.ReplaceState (stripped "cus_123"); Client.LoadStripe;
      Client.RetrievePaymentIntent "pi_1_secret_2"; Client.FetchCustomer "cus_123"],
     Ok tt).
Proof.
  apply (redirect_aborts_silently (browser (intent "canceled" None "cus_123") true)
           "cus_123" "pi_1_secret_2" (returning "cus_123" "pi_1_secret_2")
           (intent "canceled" None "cus_123")).
  - discriminate.
  - reflexivity.
  - discriminate.
  - reflexivity.
  - reflexivity.
  - left. discriminate.
Defined.

(** C7.  When the retrieved intent is succeeded, the reconciliation
    handler makes one apply-credit call, for the amount the gateway
    confirmed and in the intent's currency ("usd" when the intent has none):
    an [amount_received] of at least 1 is credited whatever the requested
    [amount] is; when the intent has no [amount_received], a requested
    [amount] of at least 1 is credited. *)
Theorem redirect_credits_confirmed_amount
    (w : Client.world) (customerId secret : string) (st : Page.state)
    (i : Client.PaymentIntent) :
  Client.loadStripe w = Js.Fulfilled true ->
  Client.retrievePaymentIntent w secret = Js.Fulfilled (Some i) ->
  Client.pi_status i = "succeeded" ->
  let credit_of amount :=
    [Client.LoadStripe; Client.RetrievePaymentIntent secret;
     Client.FetchApplyCredit customerId amount
       (match Client.pi_currency i with
        | Some currency => currency
        | None => "usd"
        end)] in
  (forall received,
     Client.pi_amount_received i = Some (Js.Finite received) -> (1 <= received)%Q ->
     trace_of (Page.processPaymentRedirect w customerId secret st)
     = credit_of (Js.Finite received))
  /\ (forall requested,
       Client.pi_amount_received i = None ->
       Client.pi_amount i = Some (Js.Finite requested) -> (1 <= requested)%Q ->
       trace_of (Page.processPaymentRedirect w customerId secret st)
       = credit_of (Js.Finite requested)).
Proof.
  intros Hl Hr Hs. cbv zeta.
  rewrite processPaymentRedirect_run, Hl, Hr. cbv zeta.
  apply String.eqb_eq in Hs. rewrite Hs. cbn [negb orb].
  unfold Page.resolved_amount, Page.resolved_currency.
  split.
  - intros received Hrec Hge. rewrite Hrec. cbn [Js.nullish].
    assert (L : Js.lt (Js.Finite received) (Js.num 1) = false).
    { destruct (Js.lt (Js.Finite received) (Js.num 1)) eqn:L; [|reflexivity].
      apply Qltb_lt in L. exfalso. exact (Qlt_not_le _ _ L Hge). }
    rewrite L.
    destruct (Client.fetch_apply_credit w customerId _ _) as [res|e]; reflexivity.
  - intros requested Hrec Hreq Hge. rewrite Hrec, Hreq. cbn [Js.nullish].
    assert (L : Js.lt (Js.Finite requested) (Js.num 1) = false).
    { destruct (Js.lt (Js.Finite requested) (Js.num 1)) eqn:L; [|reflexivity].
      apply Qltb_lt in L. exfalso. exact (Qlt_not_le _ _ L Hge). }
    rewrite L.
    destruct (Client.fetch_apply_credit w customerId _ _) as [res|e]; reflexivity.
Qed.

Lemma redirect_credits_confirmed_amount_witness :
  trace_of (Page.processPaymentRedirect
              (browser (intent "succeeded" (Some (Js.num 150)) "cus_123") true)
              "cus_123" "pi_1_secret_2" (returning "cus_123" "pi_1_secret_2"))
  = [Client.LoadStripe; Client.RetrievePaymentIntent "pi_1_secret_2";
     Client.FetchApplyCredit "cus_123" (Js.num 150) "usd"]
  /\ trace_of (Page.processPaymentRedirect
                 (browser (intent "succeeded" None "cus_123") true)
                 "cus_123" "pi_1_secret_2" (returning "cus_123" "pi_1_secret_2"))
     = [Client.LoadStripe; Client.RetrievePaymentIntent "pi_1_secret_2";
        Client.FetchApplyCredit "cus_123" (Js.num 200) "usd"].
Proof.
  split.
  - refine (proj1 (redirect_credits_confirmed_amount
                     (browser (intent "succeeded" (Some (Js.num 150)) "cus_123") true)
                     "cus_123" "pi_1_secret_2" (returning "cus_123" "pi_1_secret_2")
                     (intent "succeeded" (Some (Js.num 150)) "cus_123")
                     eq_refl eq_refl eq_refl)
                  (inject_Z 150) eq_refl _).
    unfold Qle. simpl. lia.
  - refine (proj2 (redirect_credits_confirmed_amount
                     (browser (intent "succeeded" None "cus_123") true)
                     "cus_123" "pi_1_secret_2" (returning "cus_123" "pi_1_secret_2")
                     (intent "succeeded" None "cus_123")
                     eq_refl eq_refl eq_refl)
                  (inject_Z 200) eq_refl eq_refl _).
    unfold Qle. simpl. lia.
Defined.

(** C3, as the code has it.  On return from a redirect the page fetches
    the customer's profile again, and displays it when the fetch succeeds,
    whenever the reconciliation handler returns normally: this includes an
    intent that is not succeeded and an amount below 1.  When the handler
    throws, which it does when the apply-credit call fails, the page makes
    no fetch and displays the error instead. *)
Theorem profile_refetched_after_reconciliation
    (w : Client.world) (slug secret : string) (st : Page.state) :
  slug <> "" -> secret_of st = Some secret -> secret <> "" ->
  let handler := Page.processPaymentRedirect w slug secret (reconciling slug st) in
  let run := Page.mount_effect w slug st in
  (result_of handler = Ok tt ->
     In (Client.FetchCustomer slug) (trace_of run)
     /\ state_of run = fetched w slug (reconciling slug st)
     /\ forall data,
          Client.fetch_customer w slug =
            Js.Fulfilled (Client.CustomerOk (Js.Fulfilled data)) ->
          Page.render slug (state_of run) = Page.Portal data slug)
  /\ (forall e, result_of handler = Throw e ->
       ~ In (Client.FetchCustomer slug) (trace_of run)
       /\ Page.render slug (state_of run) =
            Page.ErrorMessage (Js.message_or e "Failed to update balance"))
  /\ (forall i,
       Client.loadStripe w = Js.Fulfilled true ->
       Client.retrievePaymentIntent w secret = Js.Fulfilled (Some i) ->
       Client.pi_status i <> "succeeded"
       \/ (exists q, Page.resolved_amount i = Js.Finite q /\ (q < 1)%Q) ->
       result_of handler = Ok tt)
  /\ (forall i q res,
       Client.loadStripe w = Js.Fulfilled true ->
       Client.retrievePaymentIntent w secret = Js.Fulfilled (Some i) ->
       Client.pi_status i = "succeeded" ->
       Page.resolved_amount i = Js.Finite q -> (1 <= q)%Q ->
       Client.fetch_apply_credit w slug (Page.resolved_amount i)
         (Page.resolved_currency i) = Js.Fulfilled res ->
       Client.ok res = false ->
       result_of handler = Throw (Js.Error "Failed to apply credit")).
Proof.
  intros Hs Hsec Hne handler run. subst handler run.
  pose proof (String.eqb_neq slug "") as [_ Hs']. specialize (Hs' Hs).
  rewrite (mount_effect_redirect w slug secret st Hs Hsec Hne).
  pose proof (processPaymentRedirect_calls w slug secret (reconciling slug st))
    as (_ & _ & Hnf & _).
  split; [|split; [|split]].
  - intro H.
    destruct (Page.processPaymentRedirect w slug secret (reconciling slug st))
      as [[s1 t1] [[]|e]]; [|discriminate].
    split; [|split].
    + cbn. right. apply in_or_app. right. now left.
    + reflexivity.
    + intros data Hd. cbn [state_of fst]. unfold fetched. rewrite Hd.
      unfold Page.render. rewrite Hs'. reflexivity.
  - intros e H.
    destruct (Page.processPaymentRedirect w slug secret (reconciling slug st))
      as [[s1 t1] [[]|e']]; [discriminate|].
    cbn [result_of snd] in H. injection H as ->.
    cbn [trace_of state_of fst snd] in *. split.
    + intros [F | F]; [discriminate|]. exact (Hnf slug F).
    + unfold Page.render, failed. rewrite Hs'. reflexivity.
  - intros i Hl Hr Hbad.
    rewrite (processPaymentRedirect_abort w slug secret _ i Hl Hr Hbad). reflexivity.
  - intros i q res Hl Hr Hst Hq Hge Hres Hok.
    rewrite (processPaymentRedirect_credit w slug secret _ i q Hl Hr Hst Hq Hge).
    cbn [result_of snd]. rewrite Hres, Hok. reflexivity.
Qed.

Lemma profile_refetched_after_reconciliation_witness :
  Page.render "cus_123"
    (state_of (Page.mount_effect (browser (intent "canceled" None "cus_123") true)
                 "cus_123" (returning "cus_123" "pi_1_secret_2")))
  = Page.Portal alice "cus_123"
  /\ Page.render "cus_123"
       (state_of (Page.mount_effect
                    (browser (intent "succeeded" (Some (Js.num 200)) "cus_123") false)
                    "cus_123" (returning "cus_123" "pi_1_secret_2")))
     = Page.ErrorMessage "Failed to apply credit".
Proof.
  destruct (profile_refetched_after_reconciliation
              (browser (intent "canceled" None "cus_123") true)
              "cus_123" "pi_1_secret_2" (returning "cus_123" "pi_1_secret_2"))
    as (A & _); [discriminate | reflexivity | discriminate |].
  destruct A as (_ & _ & A); [reflexivity|].
  destruct (profile_refetched_after_reconciliation
              (browser (intent "succeeded" (Some (Js.num 200)) "cus_123") false)
              "cus_123" "pi_1_secret_2" (returning "cus_123" "pi_1_secret_2"))
    as (_ & B & _); [discriminate | reflexivity | discriminate |].
  destruct (B (Js.Error "Failed to apply credit")) as (_ & B'); [reflexivity|].
  split; [apply A; reflexivity | exact B'].
Defined.

(** C3, as the claim has it, fails when the apply-credit call fails: the
    intent is succeeded for 200, the apply-credit route answers an error,
    and the page fetches no profile and displays the error. *)
Lemma failed_credit_shows_error_not_profile :
  trace_of (Page.mount_effect
              (browser (intent "succeeded" (Some (Js.num 200)) "cus_123") false)
              "cus_123" (returning "cus_123" "pi_1_secret_2"))
  = [Client.ReplaceState (stripped "cus_123"); Client.LoadStripe;
     Client.RetrievePaymentIntent "pi_1_secret_2";
     Client.FetchApplyCredit "cus_123" (Js.num 200) "usd"]
  /\ ~ In (Client.FetchCustomer "cus_123")
        (trace_of (Page.mount_effect
                     (browser (intent "succeeded" (Some (Js.num 200)) "cus_123") false)
                     "cus_123" (returning "cus_123" "pi_1_secret_2")))
  /\ Page.render "cus_123"
       (state_of (Page.mount_effect
                    (browser (intent "succeeded" (Some (Js.num 200)) "cus_123") false)
                    "cus_123" (returning "cus_123" "pi_1_secret_2")))
     = Page.ErrorMessage "Failed to apply credit".
Proof.
  split; [reflexivity|]. split; [|reflexivity].
  cbn. intuition discriminate.
Qed.

(** C4.  When the page loads with the confirmation secret in its query,
    the first thing the effect does, before Stripe is loaded and before any
    request is sent, is to replace the address by the customer's path
    without a query; no later step touches the address, so when the effect
    is over the address holds no confirmation secret. *)
Theorem secret_stripped_before_reconciliation
    (w : Client.world) (slug : string) (st : Page.state) :
  slug <> "" ->
  Client.present (secret_of (state_of (Page.mount_effect w slug st))) = false
  /\ (Client.present (secret_of st) = true ->
      Page.location (state_of (Page.mount_effect w slug st)) = stripped slug
      /\ exists rest,
           trace_of (Page.mount_effect w slug st) =
             Client.ReplaceState (stripped slug) :: rest
           /\ forall u, ~ In (Client.ReplaceState u) rest).
Proof.
  intro Hs. split; [now apply no_secret_after_effect|].
  intro Hp. split.
  - rewrite location_after_effect, Hp by assumption. reflexivity.
  - destruct (present_secret st Hp) as (secret & Hsec & Hne).
    rewrite (mount_effect_redirect w slug secret st Hs Hsec Hne).
    pose proof (processPaymentRedirect_calls w slug secret (reconciling slug st))
      as (_ & _ & _ & Hnr).
    destruct (Page.processPaymentRedirect w slug secret (reconciling slug st))
      as [[s1 t1] [[]|e]]; cbn [trace_of fst snd] in *.
    + exists (t1 ++ [Client.FetchCustomer slug]). split; [reflexivity|].
      intros u F. apply in_app_or in F.
      destruct F as [F | [F | []]]; [exact (Hnr u F) | discriminate].
    + exists t1. split; [reflexivity | exact Hnr].
Qed.

Lemma secret_stripped_before_reconciliation_witness :
  Page.location
    (state_of (Page.mount_effect
                 (browser (intent "succeeded" (Some (Js.num 200)) "cus_123") true)
                 "cus_123" (returning "cus_123" "pi_1_secret_2")))
  = {| Client.pathname := "/customers/cus_123"; Client.search := [] |}.
Proof.
  destruct (secret_stripped_before_reconciliation
              (browser (intent "succeeded" (Some (Js.num 200)) "cus_123") true)
              "cus_123" (returning "cus_123" "pi_1_secret_2")) as (_ & A);
    [discriminate|].
  destruct A as (A & _); [reflexivity|]. exact A.
Defined.

(** C10.  Every apply-credit call of a page load names the customer of the
    page's URL; the customer recorded on the retrieved intent plays no part
    in the run; so a succeeded intent of another customer, presented on
    this customer's page, credits this customer and not the other. *)
Theorem redirect_credits_customer_of_url
    (w : Client.world) (slug : string) (st : Page.state) :
  (forall c a cur,
     In (Client.FetchApplyCredit c a cur) (trace_of (Page.mount_effect w slug st)) ->
     c = slug)
  /\ (forall who,
       Page.mount_effect (with_intent_customer who w) slug st =
       Page.mount_effect w slug st)
  /\ (forall secret i q other,
       slug <> "" -> secret_of st = Some secret -> secret <> "" ->
       Client.loadStripe w = Js.Fulfilled true ->
       Client.retrievePaymentIntent w secret = Js.Fulfilled (Some i) ->
       Client.pi_status i = "succeeded" ->
       Page.resolved_amount i = Js.Finite q -> (1 <= q)%Q ->
       Client.pi_customer i = Some other -> other <> slug ->
       In (Client.FetchApplyCredit slug (Page.resolved_amount i)
             (Page.resolved_currency i))
          (trace_of (Page.mount_effect w slug st))
       /\ forall a cur,
            ~ In (Client.FetchApplyCredit other a cur)
                 (trace_of (Page.mount_effect w slug st))).
Proof.
  split; [|split].
  - intros c a cur. apply mount_effect_credits_slug.
  - intro who. apply mount_effect_ignores_customer.
  - intros secret i q other Hs Hsec Hne Hl Hr Hst Hq Hge _ Hother. split.
    + rewrite (mount_effect_redirect w slug secret st Hs Hsec Hne).
      rewrite (processPaymentRedirect_credit w slug secret _ i q Hl Hr Hst Hq Hge).
      destruct (Client.fetch_apply_credit w slug _ _) as [res|e];
        [destruct (Client.ok res)|]; cbn; intuition.
    + intros a cur F. apply mount_effect_credits_slug in F. contradiction.
Qed.

Lemma redirect_credits_customer_of_url_witness :
  In (Client.FetchApplyCredit "cus_123" (Js.num 200) "usd")
     (trace_of (Page.mount_effect
                  (browser (intent "succeeded" (Some (Js.num 200)) "cus_999") true)
                  "cus_123" (returning "cus_123" "pi_1_secret_2"))).
Proof.
  destruct (redirect_credits_customer_of_url
              (browser (intent "succeeded" (Some (Js.num 200)) "cus_999") true)
              "cus_123" (returning "cus_123" "pi_1_secret_2")) as (_ & _ & A).
  destruct (A "pi_1_secret_2" (intent "succeeded" (Some (Js.num 200)) "cus_999")
              (inject_Z 200) "cus_999") as (B & _);
    try reflexivity; try discriminate.
  exact B.
Defined.

(* ================================================================== *)
(** * The portal component *)
(* ================================================================== *)

Section PortalComponent.
Import Client Portal.

(** The amount the portal sends is an integer, whenever it is finite. *)
Lemma cents_cases (amount : string) :
  Js.Number_isFinite (cents amount) = false \/ exists z, cents amount = Js.num z.
Proof.
  unfold cents, Js.Math_round.
  destruct (Js.mul (Js.parseFloat amount) (Js.num 100)) as [| b | q].
  - now left.
  - now left.
  - right. eexists. reflexivity.
Qed.

Lemma handleCreatePaymentIntent_rejects (w : world) (p : Props) (s : state) :
  (negb (Js.Number_isFinite (cents (amountDollars s)))
   || Js.lt (cents (amountDollars s)) (Js.num 50))%bool = true ->
  handleCreatePaymentIntent w p s = (with_payError "Enter at least $0.50" s, [], Ok tt).
Proof.
  intro H. unfold handleCreatePaymentIntent. unfold bind at 1, get. cbv zeta.
  rewrite H. reflexivity.
Qed.

Lemma handleCreatePaymentIntent_sends (w : world) (p : Props) (s : state) :
  (negb (Js.Number_isFinite (cents (amountDollars s)))
   || Js.lt (cents (amountDollars s)) (Js.num 50))%bool = false ->
  trace_of (handleCreatePaymentIntent w p s) =
    [FetchCreatePaymentIntent (customerId p) (cents (amountDollars s))
       (currency (customer p))].
Proof.
  intro H. unfold handleCreatePaymentIntent. unfold bind at 1, get. cbv zeta.
  rewrite H.
  unfold setPayError, setPayLoading, setClientSecret. run_eff.
  destruct (fetch_create_payment_intent w _ _ _) as [[o [data|e]]|e];
    [destruct o| |]; reflexivity.
Qed.

Lemma handleConfirmPayment_trace (w : world) (p : Props) (s : state) :
  trace_of (handleConfirmPayment w p s) =
    match clientSecret s with
    | None => []
    | Some secret =>
        if (negb (stripeRef s) || negb (elementsRef s) || String.eqb secret "")%bool
        then []
        else
          ElementsSubmit ::
          match elements_submit w with
          | Js.Fulfilled None =>
              ConfirmPayment secret (return_url (customerId p) secret) ::
              match confirmPayment w secret (return_url (customerId p) secret) with
              | Js.Fulfilled None =>
                  FetchApplyCredit (customerId p) (cents (amountDollars s))
                    (currency (customer p)) ::
                  match fetch_apply_credit w (customerId p) (cents (amountDollars s))
                          (currency (customer p)) with
                  | Js.Fulfilled res => if ok res then [OnBalanceUpdated] else []
                  | Js.Rejected _ => []
                  end
              | _ => []
              end
          | _ => []
          end
    end.
Proof.
  unfold handleConfirmPayment. unfold bind at 1, get. cbv zeta.
  destruct (clientSecret s) as [secret|]; [|reflexivity].
  destruct (negb (stripeRef s) || negb (elementsRef s) || String.eqb secret "")%bool;
    [reflexivity|].
  unfold setPayError, setPayLoading, setClientSecret, setAmountDollars. run_eff.
  destruct (elements_submit w) as [[err|]|e]; try reflexivity.
  destruct (confirmPayment w secret _) as [[err|]|e]; try reflexivity.
  destruct (fetch_apply_credit w _ _ _) as [res|e]; [|reflexivity].
  destruct (ok res); reflexivity.
Qed.


End PortalComponent.

(** C9, where the code departs from it.  Both handlers of the portal
    read the amount field with [Math.round(parseFloat(amountDollars) * 100)].
    "Continue to payment" checks what it gets: an empty field gives NaN,
    the message "Enter at least $0.50" and no request.  "Pay" does not
    check: with an intent in the form and the field empty, the payment is
    confirmed and the apply-credit request then carries NaN, which
    [JSON.stringify] writes as [null]; the route answers 400 without
    recording a credit, and the form shows the route's message. *)
Theorem unparsed_amount_reaches_apply_credit :
  Portal.cents "" = Js.NaN
  /\ Portal.handleCreatePaymentIntent
       (browser (intent "succeeded" None "cus_123") false)
       props_of_alice (typed "" None)
     = (with_payError "Enter at least $0.50" (typed "" None), [], Ok tt)
  /\ trace_of (Portal.handleConfirmPayment
                 (browser (intent "succeeded" None "cus_123") false)
                 props_of_alice (typed "" (Some "pi_1_secret_2")))
     = [Client.ElementsSubmit;
        Client.ConfirmPayment "pi_1_secret_2"
          (Portal.return_url "cus_123" "pi_1_secret_2");
        Client.FetchApplyCredit "cus_123" Js.NaN "usd"]
  /\ Http.post_body "cus_123" Js.NaN "usd"
     = Js.VObject [("customerId", Js.VString "cus_123");
                   ("amount", Js.VNull);
                   ("currency", Js.VString "usd")]
  /\ ApplyCredit.POST accepting_gateway
       (Js.Fulfilled (Http.post_body "cus_123" Js.NaN "usd")) tt
     = (tt, [],
        Ok (Server.json_error
              "Amount must be an integer in cents between 1 and 99999999" 400))
  /\ Portal.payError
       (state_of (Portal.handleConfirmPayment
                    (Http.served accepting_gateway
                       (browser (intent "succeeded" None "cus_123") false))
                    props_of_alice (typed "" (Some "pi_1_secret_2"))))
     = Some "Amount must be an integer in cents between 1 and 99999999".
Proof.
  split; [vm_compute; reflexivity|].
  split; [apply handleCreatePaymentIntent_rejects; vm_compute; reflexivity|].
  split; [vm_compute; reflexivity|].
  split; [reflexivity|].
  split; [reflexivity|].
  vm_compute. reflexivity.
Qed.




(* ================================================================== *)
(** * More of the add-funds routes *)
(* ================================================================== *)

Section RouteShapes.
Import Server.

Lemma lower_code_unit_idempotent (c : ascii) :
  Js.lower_code_unit (Js.lower_code_unit c) = Js.lower_code_unit c.
Proof. destruct c as [[] [] [] [] [] [] [] []]; vm_compute; reflexivity. Qed.

Lemma toLowerCase_idempotent (s : string) :
  Js.toLowerCase (Js.toLowerCase s) = Js.toLowerCase s.
Proof.
  induction s as [|c s IH]; [reflexivity|].
  cbn [Js.toLowerCase]. now rewrite lower_code_unit_idempotent, IH.
Qed.

(** What the amount test of the routes lets through. *)
Lemma amount_check_passes (lo hi : Z) (a : Js.number) :
  (negb (Js.Number_isInteger a) || Js.lt a (Js.num lo) || Js.gt a (Js.num hi))%bool
    = false ->
  integer_between lo hi a.
Proof.
  intro H. apply orb_false_iff in H. destruct H as [H Hhi].
  apply orb_false_iff in H. destruct H as [Hint Hlo].
  apply negb_false_iff in Hint.
  destruct a as [| b | q]; try discriminate.
  exists q. split; [reflexivity|]. split; [now apply Number_isInteger_iff|].
  split.
  - apply Qnot_lt_le. intro L. apply Qltb_lt in L.
    unfold Js.lt, Js.num in Hlo. congruence.
  - apply Qnot_lt_le. intro L. apply Qltb_lt in L.
    unfold Js.gt, Js.lt, Js.num in Hhi. congruence.
Qed.

Lemma integer_between_neg (lo hi : Z) (a : Js.number) :
  integer_between lo hi a -> integer_between (- hi) (- lo) (Js.neg a).
Proof.
  intros (q & -> & [z Hz] & Hlo & Hhi).
  exists (- q)%Q. split; [reflexivity|]. split.
  - exists (- z). rewrite Hz, inject_Z_opp. reflexivity.
  - rewrite !inject_Z_opp. split; lra.
Qed.

(** The apply-credit route, on any request: a 400 before the gateway, a
    throw before the gateway, or one gateway call made from a checked
    request, whose outcome decides the answer. *)
Lemma apply_credit_shape (g : gateway) (request_json : Js.settled Js.value) :
  let run := ApplyCredit.POST g request_json tt in
  (exists msg, run = (tt, [], Ok (json_error msg 400)))
  \/ (exists m, run = (tt, [], Throw (Js.TypeError m)))
  \/ (exists c a cur,
        Js.startsWith c "cus_" = true
        /\ integer_between 1 99999999 a
        /\ String.length cur = 3%nat
        /\ run =
           match createBalanceTransaction g c (Js.neg a) (Js.toLowerCase cur) with
           | Js.Fulfilled _ =>
               (tt, [CreateBalanceTransaction c (Js.neg a) (Js.toLowerCase cur)],
                Ok (json (Js.VObject [("ok", Js.VBool true)])))
           | Js.Rejected e =>
               (tt, [CreateBalanceTransaction c (Js.neg a) (Js.toLowerCase cur);
                     ConsoleError "Apply credit error:" e],
                Ok (json_error "Failed to apply credit" 500))
           end).
Proof.
  cbv zeta.
  destruct request_json as [body | e]; [|left; eexists; reflexivity].
  assert (K : forall fields,
    (exists msg, ApplyCredit.POST g (Js.Fulfilled (Js.VObject fields)) tt
                 = (tt, [], Ok (json_error msg 400)))
    \/ (exists m, ApplyCredit.POST g (Js.Fulfilled (Js.VObject fields)) tt
                  = (tt, [], Throw (Js.TypeError m)))
    \/ (exists c a cur,
          Js.startsWith c "cus_" = true
          /\ integer_between 1 99999999 a
          /\ String.length cur = 3%nat
          /\ ApplyCredit.POST g (Js.Fulfilled (Js.VObject fields)) tt =
             match createBalanceTransaction g c (Js.neg a) (Js.toLowerCase cur) with
             | Js.Fulfilled _ =>
                 (tt, [CreateBalanceTransaction c (Js.neg a) (Js.toLowerCase cur)],
                  Ok (json (Js.VObject [("ok", Js.VBool true)])))
             | Js.Rejected e =>
                 (tt, [CreateBalanceTransaction c (Js.neg a) (Js.toLowerCase cur);
                       ConsoleError "Apply credit error:" e],
                  Ok (json_error "Failed to apply credit" 500))
             end)).
  { intro fields. unfold ApplyCredit.POST, destructure. cbv zeta.
    unfold check_customerId.
    destruct (negb (Js.truthy (Js.lookup "customerId" fields)));
      [left; eexists; reflexivity|].
    destruct (Js.lookup "customerId" fields) as [| | | | c | |];
      try (right; left; eexists; reflexivity).
    destruct (negb (Js.startsWith c "cus_")) eqn:P; [left; eexists; reflexivity|].
    apply negb_false_iff in P.
    unfold check_amount.
    destruct (Js.lookup "amount" fields) as [| | | a | | |];
      try (left; eexists; reflexivity).
    destruct (negb (Js.Number_isInteger a) || Js.lt a (Js.num ApplyCredit.MIN_CENTS)
              || Js.gt a (Js.num ApplyCredit.MAX_CENTS))%bool eqn:A;
      [left; eexists; reflexivity|].
    apply amount_check_passes in A.
    destruct (with_default (Js.lookup "currency" fields) (Js.VString "usd"))
      as [| | | | cur | |]; try (left; eexists; reflexivity).
    destruct (negb (Z.of_nat (String.length cur) =? 3)) eqn:L;
      [left; eexists; reflexivity|].
    apply negb_false_iff, Z.eqb_eq in L.
    right; right. exists c, a, cur.
    split; [exact P|]. split; [exact A|]. split; [lia|].
    run_eff.
    destruct (createBalanceTransaction g c (Js.neg a) (Js.toLowerCase cur));
      reflexivity. }
  destruct body as [| | | | | |fields]; try exact (K []);
    try (right; left; eexists; reflexivity).
  exact (K fields).
Qed.

(** The same for the create-payment-intent route. *)
Lemma create_intent_shape (g : gateway) (request_json : Js.settled Js.value) :
  let run := CreateIntent.POST g request_json tt in
  (exists msg, run = (tt, [], Ok (json_error msg 400)))
  \/ (exists m, run = (tt, [], Throw (Js.TypeError m)))
  \/ (exists c a cur,
        Js.startsWith c "cus_" = true
        /\ integer_between 50 99999999 a
        /\ Js.toLowerCase cur = cur
        /\ run =
           match paymentIntents_create g a cur c with
           | Js.Rejected e =>
               (tt, [PaymentIntentsCreate a cur c true;
                     ConsoleError "Create payment intent error:" e],
                Ok (json_error "Failed to create payment intent" 500))
           | Js.Fulfilled i =>
               match client_secret i with
               | None => (tt, [PaymentIntentsCreate a cur c true],
                          Ok (json_error "Failed to create payment intent" 500))
               | Some secret =>
                   if String.eqb secret "" then
                     (tt, [PaymentIntentsCreate a cur c true],
                      Ok (json_error "Failed to create payment intent" 500))
                   else
                     (tt, [PaymentIntentsCreate a cur c true],
                      Ok (json (Js.VObject [("clientSecret", Js.VString secret)])))
               end
           end).
Proof.
  cbv zeta.
  destruct request_json as [body | e]; [|left; eexists; reflexivity].
  assert (K : forall fields,
    (exists msg, CreateIntent.POST g (Js.Fulfilled (Js.VObject fields)) tt
                 = (tt, [], Ok (json_error msg 400)))
    \/ (exists m, CreateIntent.POST g (Js.Fulfilled (Js.VObject fields)) tt
                  = (tt, [], Throw (Js.TypeError m)))
    \/ (exists c a cur,
          Js.startsWith c "cus_" = true
          /\ integer_between 50 99999999 a
          /\ Js.toLowerCase cur = cur
          /\ CreateIntent.POST g (Js.Fulfilled (Js.VObject fields)) tt =
             match paymentIntents_create g a cur c with
             | Js.Rejected e =>
                 (tt, [PaymentIntentsCreate a cur c true;
                       ConsoleError "Create payment intent error:" e],
                  Ok (json_error "Failed to create payment intent" 500))
             | Js.Fulfilled i =>
                 match client_secret i with
                 | None => (tt, [PaymentIntentsCreate a cur c true],
                            Ok (json_error "Failed to create payment intent" 500))
                 | Some secret =>
                     if String.eqb secret "" then
                       (tt, [PaymentIntentsCreate a cur c true],
                        Ok (json_error "Failed to create payment intent" 500))
                     else
                       (tt, [PaymentIntentsCreate a cur c true],
                        Ok (json (Js.VObject [("clientSecret", Js.VString secret)])))
                 end
             end)).
  { intro fields. unfold CreateIntent.POST, destructure. cbv zeta.
    unfold check_customerId.
    destruct (negb (Js.truthy (Js.lookup "customerId" fields)));
      [left; eexists; reflexivity|].
    destruct (Js.lookup "customerId" fields) as [| | | | c | |];
      try (right; left; eexists; reflexivity).
    destruct (negb (Js.startsWith c "cus_")) eqn:P; [left; eexists; reflexivity|].
    apply negb_false_iff in P.
    unfold check_amount.
    destruct (Js.lookup "amount" fields) as [| | | a | | |];
      try (left; eexists; reflexivity).
    destruct (negb (Js.Number_isInteger a) || Js.lt a (Js.num CreateIntent.MIN_CENTS)
              || Js.gt a (Js.num CreateIntent.MAX_CENTS))%bool eqn:A;
      [left; eexists; reflexivity|].
    apply amount_check_passes in A.
    right; right.
    match goal with
    | |- context [paymentIntents_create g a ?cur c] => exists c, a, cur
    end.
    split; [exact P|]. split; [exact A|]. split.
    - destruct (with_default (Js.lookup "currency" fields) (Js.VString "usd"));
        try reflexivity. apply toLowerCase_idempotent.
    - run_eff.
      destruct (paymentIntents_create g a _ c) as [[[secret|]]|e]; try reflexivity.
      cbn [client_secret]. destruct (String.eqb secret ""); reflexivity. }
  destruct body as [| | | | | |fields]; try exact (K []);
    try (right; left; eexists; reflexivity).
  exact (K fields).
Qed.

End RouteShapes.

(** X1.  Whatever the request, the apply-credit route never posts
    anything but a credit: each balance transaction it asks of the gateway
    is for a customer reference [cus_...], has a negative integer amount of
    -99999999 .. -1 and, for currency, the lower-casing of a code of three
    units; and it asks for one at most. *)
Theorem apply_credit_only_credits
    (g : Server.gateway) (request_json : Js.settled Js.value)
    (customerId : string) (amount : Js.number) (currency : string) :
  let run := ApplyCredit.POST g request_json tt in
  In (Server.CreateBalanceTransaction customerId amount currency) (trace_of run) ->
  Js.startsWith customerId "cus_" = true
  /\ integer_between (-99999999) (-1) amount
  /\ (exists code, String.length code = 3%nat /\ currency = Js.toLowerCase code)
  /\ Js.toLowerCase currency = currency
  /\ List.filter (fun ev => match ev with
                            | Server.CreateBalanceTransaction _ _ _ => true
                            | _ => false
                            end) (trace_of run)
     = [Server.CreateBalanceTransaction customerId amount currency].
Proof.
  intros run Hin. subst run.
  destruct (apply_credit_shape g request_json)
    as [[msg E] | [[m E] | (c & a & cur & Hc & Ha & Hl & E)]];
    rewrite E in Hin |- *; try (destruct Hin).
  assert (Hcall : Server.CreateBalanceTransaction c (Js.neg a) (Js.toLowerCase cur)
                  = Server.CreateBalanceTransaction customerId amount currency).
  { destruct (Server.createBalanceTransaction g c (Js.neg a) (Js.toLowerCase cur));
      cbn in Hin; intuition discriminate. }
  injection Hcall as <- <- <-.
  repeat split.
  - exact Hc.
  - now apply (integer_between_neg 1 99999999).
  - now exists cur.
  - apply toLowerCase_idempotent.
  - destruct (Server.createBalanceTransaction g c (Js.neg a) (Js.toLowerCase cur));
      reflexivity.
Qed.

Lemma apply_credit_only_credits_witness :
  integer_between (-99999999) (-1) (Js.num (-200))
  /\ Js.toLowerCase "usd" = "usd".
Proof.
  destruct (apply_credit_only_credits accepting_gateway
              (Js.Fulfilled (request_body "cus_123" (Js.num 200) "USD"))
              "cus_123" (Js.num (-200)) "usd") as (_ & A & _ & B & _).
  - simpl. left. reflexivity.
  - split; [exact A | exact B].
Defined.

(** X2.  Whatever the request, every payment intent the
    create-payment-intent route asks of the gateway is for a customer
    reference [cus_...] and an integer amount of 50 .. 99999999, in a
    lower-case currency, with automatic payment methods enabled; and it
    asks for one at most. *)
Theorem create_intent_only_valid_intents
    (g : Server.gateway) (request_json : Js.settled Js.value)
    (amount : Js.number) (currency customer : string) (apm : bool) :
  let run := CreateIntent.POST g request_json tt in
  In (Server.PaymentIntentsCreate amount currency customer apm) (trace_of run) ->
  Js.startsWith customer "cus_" = true
  /\ integer_between 50 99999999 amount
  /\ Js.toLowerCase currency = currency
  /\ apm = true
  /\ List.filter (fun ev => match ev with
                            | Server.PaymentIntentsCreate _ _ _ _ => true
                            | _ => false
                            end) (trace_of run)
     = [Server.PaymentIntentsCreate amount currency customer apm].
Proof.
  intros run Hin. subst run.
  destruct (create_intent_shape g request_json)
    as [[msg E] | [[m E] | (c & a & cur & Hc & Ha & Hl & E)]];
    rewrite E in Hin |- *; try (destruct Hin).
  assert (Hcall : Server.PaymentIntentsCreate a cur c true
                  = Server.PaymentIntentsCreate amount currency customer apm).
  { destruct (Server.paymentIntents_create g a cur c) as [[[secret|]]|e];
      cbn [Server.client_secret] in Hin; try destruct (String.eqb secret "");
      cbn in Hin; intuition discriminate. }
  injection Hcall as <- <- <- <-.
  repeat split; try assumption.
  destruct (Server.paymentIntents_create g a cur c) as [[[secret|]]|e];
    cbn [Server.client_secret]; try destruct (String.eqb secret ""); reflexivity.
Qed.

Lemma create_intent_only_valid_intents_witness :
  integer_between 50 99999999 (Js.num 500) /\ Js.toLowerCase "eur" = "eur".
Proof.
  destruct (create_intent_only_valid_intents accepting_gateway
              (Js.Fulfilled (request_body "cus_123" (Js.num 500) "EUR"))
              (Js.num 500) "eur" "cus_123" true) as (_ & A & B & _).
  - simpl. left. reflexivity.
  - split; [exact A | exact B].
Defined.

(** X3.  An answer of the apply-credit route has status 200, 400 or 500.
    It is 400 exactly when the gateway was not called; it is 200, with the
    body [{ ok: true }], exactly when the one gateway call was made and
    accepted; a 500 carries the fixed message. *)
Theorem apply_credit_acknowledges_what_the_gateway_accepted
    (g : Server.gateway) (request_json : Js.settled Js.value) (res : Server.response) :
  let run := ApplyCredit.POST g request_json tt in
  result_of run = Ok res ->
  (Server.status res = 200 \/ Server.status res = 400 \/ Server.status res = 500)
  /\ (Server.status res = 400 <-> trace_of run = [])
  /\ (Server.status res = 200 <->
      exists c a cur,
        trace_of run = [Server.CreateBalanceTransaction c a cur]
        /\ Server.createBalanceTransaction g c a cur = Js.Fulfilled tt)
  /\ (Server.status res = 200 ->
      Server.body res = Js.VObject [("ok", Js.VBool true)])
  /\ (Server.status res = 500 ->
      Server.body res = Js.VObject [("error", Js.VString "Failed to apply credit")]).
Proof.
  intros run Hres. subst run.
  destruct (apply_credit_shape g request_json)
    as [[msg E] | [[m E] | (c & a & cur & Hc & Ha & Hl & E)]];
    rewrite E in Hres |- *; cbn [result_of trace_of fst snd] in *.
  - injection Hres as <-. cbn [Server.status Server.body Server.json_error].
    repeat split; try discriminate; try tauto.
    intros (c & a & cur & H & _). discriminate.
  - discriminate.
  - destruct (Server.createBalanceTransaction g c (Js.neg a) (Js.toLowerCase cur))
      as [[]|e] eqn:G; cbn [result_of trace_of fst snd] in *;
      injection Hres as <-; cbn [Server.status Server.body Server.json_error Server.json].
    + repeat split; try discriminate; try tauto.
      intros _. exists c, (Js.neg a), (Js.toLowerCase cur). now split.
    + repeat split; try discriminate; try tauto.
      intros (c' & a' & cur' & H & _). discriminate.
Qed.

Lemma apply_credit_acknowledges_what_the_gateway_accepted_witness :
  Server.status {| Server.status := 500;
                   Server.body := Js.VObject
                     [("error", Js.VString "Failed to apply credit")] |} = 500
  /\ trace_of (ApplyCredit.POST (failing_gateway (Js.Error "rate limited"))
                 (Js.Fulfilled (request_body "cus_123" (Js.num 200) "usd")) tt) <> [].
Proof.
  destruct (apply_credit_acknowledges_what_the_gateway_accepted
              (failing_gateway (Js.Error "rate limited"))
              (Js.Fulfilled (request_body "cus_123" (Js.num 200) "usd"))
              {| Server.status := 500;
                 Server.body := Js.VObject
                   [("error", Js.VString "Failed to apply credit")] |})
    as (_ & A & _); [reflexivity|].
  split; [reflexivity|]. intro H. apply A in H. discriminate H.
Defined.

(** X4.  An answer of the create-payment-intent route has status 200, 400
    or 500.  It is 400 exactly when the gateway was not called; it is 200
    exactly when the gateway resolved an intent with a confirmation secret
    that is not empty, and then the body is that secret and nothing else. *)
Theorem create_intent_returns_the_gateway_secret
    (g : Server.gateway) (request_json : Js.settled Js.value) (res : Server.response) :
  let run := CreateIntent.POST g request_json tt in
  result_of run = Ok res ->
  (Server.status res = 200 \/ Server.status res = 400 \/ Server.status res = 500)
  /\ (Server.status res = 400 <-> trace_of run = [])
  /\ (Server.status res = 200 <->
      exists a cur c secret,
        trace_of run = [Server.PaymentIntentsCreate a cur c true]
        /\ Server.paymentIntents_create g a cur c
           = Js.Fulfilled {| Server.client_secret := Some secret |}
        /\ secret <> ""
        /\ Server.body res = Js.VObject [("clientSecret", Js.VString secret)]).
Proof.
  intros run Hres. subst run.
  destruct (create_intent_shape g request_json)
    as [[msg E] | [[m E] | (c & a & cur & Hc & Ha & Hl & E)]];
    rewrite E in Hres |- *; cbn [result_of trace_of fst snd] in *.
  - injection Hres as <-. cbn [Server.status Server.body Server.json_error].
    repeat split; try discriminate; try tauto.
    intros (a & cur & c & secret & H & _). discriminate.
  - discriminate.
  - destruct (Server.paymentIntents_create g a cur c) as [[[secret|]]|e] eqn:G;
      cbn [Server.client_secret] in *.
    + destruct (String.eqb_spec secret "") as [-> | Hne];
        cbn [result_of trace_of fst snd] in *; injection Hres as <-;
        cbn [Server.status Server.body Server.json_error Server.json].
      * repeat split; try discriminate; try tauto.
        intros (a' & cur' & c' & secret' & H & G' & Hne' & _).
        injection H as <- <- <-. rewrite G in G'. injection G' as <-.
        exfalso. now apply Hne'.
      * repeat split; try discriminate; try tauto.
        intros _. exists a, cur, c, secret. repeat split; assumption.
    + cbn [result_of trace_of fst snd] in *; injection Hres as <-;
        cbn [Server.status Server.body Server.json_error Server.json].
      repeat split; try discriminate; try tauto.
      intros (a' & cur' & c' & secret' & H & G' & _).
      injection H as <- <- <-. rewrite G in G'. discriminate.
    + cbn [result_of trace_of fst snd] in *; injection Hres as <-;
        cbn [Server.status Server.body Server.json_error Server.json].
      repeat split; try discriminate; try tauto.
      intros (a' & cur' & c' & secret' & H & _). discriminate.
Qed.

Lemma create_intent_returns_the_gateway_secret_witness :
  exists a cur c secret,
    trace_of (CreateIntent.POST accepting_gateway
                (Js.Fulfilled (request_body "cus_123" (Js.num 500) "usd")) tt)
    = [Server.PaymentIntentsCreate a cur c true]
    /\ secret = "pi_1_secret_2".
Proof.
  destruct (create_intent_returns_the_gateway_secret accepting_gateway
              (Js.Fulfilled (request_body "cus_123" (Js.num 500) "usd"))
              {| Server.status := 200;
                 Server.body := Js.VObject
                   [("clientSecret", Js.VString "pi_1_secret_2")] |})
    as (_ & _ & A); [reflexivity|].
  destruct A as [A _]. destruct (A eq_refl) as (a & cur & c & secret & T & G & _ & B).
  exists a, cur, c, secret. split; [exact T|].
  cbn in B. now injection B as <-.
Defined.

Section RouteGuards.
Import Server.

(** The two guards the routes share: only they can throw. *)
Lemma guard_throws_iff (body : Js.value)
    (k : list (string * Js.value) -> string -> handler) :
  (forall fields c, exists t r, k fields c tt = (tt, t, Ok r)) ->
  (exists e,
     result_of (destructure body
                  (fun fields =>
                     check_customerId (Js.lookup "customerId" fields) (k fields)) tt)
     = Throw e)
  <-> crashing_body body.
Proof.
  intro Hk. unfold crashing_body, destructure, check_customerId.
  assert (P : forall fields,
    (exists e,
       result_of ((if negb (Js.truthy (Js.lookup "customerId" fields))
                   then ret (json_error "Valid customerId (cus_...) is required" 400)
                   else match Js.lookup "customerId" fields with
                        | Js.VString c =>
                            if negb (Js.startsWith c "cus_")
                            then ret (json_error "Valid customerId (cus_...) is required" 400)
                            else k fields c
                        | _ => throw (Js.TypeError "customerId.startsWith is not a function")
                        end) tt) = Throw e)
    <-> (Js.truthy (Js.lookup "customerId" fields) = true
         /\ forall c, Js.lookup "customerId" fields <> Js.VString c)).
  { intro fields.
    destruct (Js.truthy (Js.lookup "customerId" fields)) eqn:T; cbn [negb].
    - destruct (Js.lookup "customerId" fields) as [| | | | c | |] eqn:L;
        try (split; [intros _; split; [reflexivity | discriminate]
                    | intros _; eexists; reflexivity]).
      split.
      + intros [e H]. exfalso.
        destruct (negb (Js.startsWith c "cus_")); [discriminate|].
        destruct (Hk fields c) as (t & r & E). rewrite E in H. discriminate.
      + intros [_ H]. exfalso. now apply (H c).
    - split; [intros [e H]; discriminate | intros [H _]; discriminate]. }
  destruct body as [| | | | | |fields]; cbn [customerId_of].
  - split; [intros _; right; now left | intros _; eexists; reflexivity].
  - split; [intros _; now left | intros _; eexists; reflexivity].
  - rewrite (P []). cbn. intuition discriminate.
  - rewrite (P []). cbn. intuition discriminate.
  - rewrite (P []). cbn. intuition discriminate.
  - rewrite (P []). cbn. intuition discriminate.
  - rewrite (P fields). intuition discriminate.
Qed.

End RouteGuards.

(** X5.  Each add-funds route throws, instead of answering, on exactly
    two kinds of body: [null], and a [customerId] that is truthy and not a
    string; it has not called the gateway when it does. *)
Theorem routes_throw_on_untyped_bodies
    (g : Server.gateway) (request_json : Js.settled Js.value) :
  ((exists e, result_of (ApplyCredit.POST g request_json tt) = Throw e)
   <-> exists body, request_json = Js.Fulfilled body /\ crashing_body body)
  /\ ((exists e, result_of (CreateIntent.POST g request_json tt) = Throw e)
      <-> exists body, request_json = Js.Fulfilled body /\ crashing_body body)
  /\ (forall e, result_of (ApplyCredit.POST g request_json tt) = Throw e ->
      trace_of (ApplyCredit.POST g request_json tt) = [])
  /\ (forall e, result_of (CreateIntent.POST g request_json tt) = Throw e ->
      trace_of (CreateIntent.POST g request_json tt) = []).
Proof.
  split; [|split; [|split]].
  - destruct request_json as [body | e0].
    + unfold ApplyCredit.POST. cbv zeta.
      rewrite guard_throws_iff.
      * split; [intro H; now exists body | intros (b & E & H); now injection E as ->].
      * intros fields c. unfold Server.check_amount.
        destruct (Js.lookup "amount" fields) as [| | | a | | |];
          try (eexists; eexists; reflexivity).
        destruct (negb _ || _ || _)%bool; [eexists; eexists; reflexivity|].
        destruct (Server.with_default _ _) as [| | | | cur | |];
          try (eexists; eexists; reflexivity).
        destruct (negb _); [eexists; eexists; reflexivity|].
        run_eff.
        destruct (Server.createBalanceTransaction g c _ _);
          eexists; eexists; reflexivity.
    + split; [intros [e H]; discriminate | intros (b & E & _); discriminate].
  - destruct request_json as [body | e0].
    + unfold CreateIntent.POST. cbv zeta.
      rewrite guard_throws_iff.
      * split; [intro H; now exists body | intros (b & E & H); now injection E as ->].
      * intros fields c. unfold Server.check_amount.
        destruct (Js.lookup "amount" fields) as [| | | a | | |];
          try (eexists; eexists; reflexivity).
        destruct (negb _ || _ || _)%bool; [eexists; eexists; reflexivity|].
        run_eff.
        destruct (Server.paymentIntents_create g a _ c) as [[[secret|]]|e];
          cbn [Server.client_secret]; try destruct (String.eqb secret "");
          eexists; eexists; reflexivity.
    + split; [intros [e H]; discriminate | intros (b & E & _); discriminate].
  - intros e H.
    destruct (apply_credit_shape g request_json)
      as [[msg E] | [[m E] | (c & a & cur & _ & _ & _ & E)]];
      rewrite E in H |- *; try reflexivity.
    destruct (Server.createBalanceTransaction g c _ _); discriminate.
  - intros e H.
    destruct (create_intent_shape g request_json)
      as [[msg E] | [[m E] | (c & a & cur & _ & _ & _ & E)]];
      rewrite E in H |- *; try reflexivity.
    destruct (Server.paymentIntents_create g a cur c) as [[[secret|]]|e'];
      cbn [Server.client_secret] in H; try destruct (String.eqb secret "");
      discriminate.
Qed.

(** X6.  For a valid customer reference and amount, the
    create-payment-intent route always goes to the gateway, whatever the
    body's [currency] holds: a string is put in lower case and passed on
    unchecked, anything else (absent, [null], a number) becomes "usd". *)
Theorem create_intent_takes_any_currency
    (g : Server.gateway) (fields : list (string * Js.value))
    (customerId : string) (amount : Z) :
  Js.lookup "customerId" fields = Js.VString customerId ->
  Js.startsWith customerId "cus_" = true ->
  Js.lookup "amount" fields = Js.VNumber (Js.num amount) ->
  50 <= amount <= 99999999 ->
  exists rest,
    trace_of (CreateIntent.POST g (Js.Fulfilled (Js.VObject fields)) tt) =
      Server.PaymentIntentsCreate (Js.num amount)
        (intent_currency (Js.lookup "currency" fields)) customerId true :: rest.
Proof.
  intros Hc Hp Ha Hr.
  unfold CreateIntent.POST, Server.destructure. cbv zeta.
  rewrite Hc, Ha, check_customerId_ok by assumption.
  rewrite check_amount_ok
    by (unfold CreateIntent.MIN_CENTS, CreateIntent.MAX_CENTS; lia).
  replace (match Server.with_default (Js.lookup "currency" fields) (Js.VString "usd") with
           | Js.VString c => Js.toLowerCase c
           | _ => "usd"
           end) with (intent_currency (Js.lookup "currency" fields))
    by (destruct (Js.lookup "currency" fields); reflexivity).
  run_eff.
  destruct (Server.paymentIntents_create g _ _ _) as [[[secret|]]|e];
    cbn [Server.client_secret]; try destruct (String.eqb secret "");
    eexists; reflexivity.
Qed.

Lemma create_intent_takes_any_currency_witness :
  exists rest,
    trace_of (CreateIntent.POST accepting_gateway
                (Js.Fulfilled (Js.VObject [("customerId", Js.VString "cus_123");
                                           ("amount", Js.VNumber (Js.num 500));
                                           ("currency", Js.VNull)])) tt) =
      Server.PaymentIntentsCreate (Js.num 500) "usd" "cus_123" true :: rest.
Proof.
  apply (create_intent_takes_any_currency accepting_gateway
           [("customerId", Js.VString "cus_123");
            ("amount", Js.VNumber (Js.num 500));
            ("currency", Js.VNull)] "cus_123" 500); try reflexivity. lia.
Defined.

(** X7.  For a valid customer reference and amount, the apply-credit
    route takes "usd" when the body has no [currency], and answers 400
    "Valid 3-letter currency code is required", without calling the gateway,
    when [currency] is there and is not a string of length 3. *)
Theorem apply_credit_checks_currency
    (g : Server.gateway) (fields : list (string * Js.value))
    (customerId : string) (amount : Z) :
  Js.lookup "customerId" fields = Js.VString customerId ->
  Js.startsWith customerId "cus_" = true ->
  Js.lookup "amount" fields = Js.VNumber (Js.num amount) ->
  1 <= amount <= 99999999 ->
  let run := ApplyCredit.POST g (Js.Fulfilled (Js.VObject fields)) tt in
  (Js.lookup "currency" fields = Js.VUndefined ->
   exists rest,
     trace_of run =
       Server.CreateBalanceTransaction customerId (Js.num (- amount)) "usd" :: rest)
  /\ (Js.lookup "currency" fields <> Js.VUndefined ->
      (forall cur, Js.lookup "currency" fields = Js.VString cur ->
                   String.length cur <> 3%nat) ->
      run = (tt, [],
             Ok (Server.json_error "Valid 3-letter currency code is required" 400))).
Proof.
  intros Hc Hp Ha Hr run. subst run.
  unfold ApplyCredit.POST, Server.destructure. cbv zeta.
  rewrite Hc, Ha, check_customerId_ok by assumption.
  rewrite check_amount_ok
    by (unfold ApplyCredit.MIN_CENTS, ApplyCredit.MAX_CENTS; lia).
  split.
  - intros ->. cbn [Server.with_default]. rewrite neg_num.
    change (negb (Z.of_nat (String.length "usd") =? 3)) with false. cbv iota.
    change (Js.toLowerCase "usd") with "usd".
    run_eff.
    destruct (Server.createBalanceTransaction g customerId (Js.num (- amount)) "usd");
      eexists; reflexivity.
  - intros Hdef Hlen.
    destruct (Js.lookup "currency" fields) as [| | | | cur | |];
      try reflexivity; [congruence|].
    cbn [Server.with_default].
    specialize (Hlen cur eq_refl).
    replace (negb (Z.of_nat (String.length cur) =? 3)) with true; [reflexivity|].
    symmetry. apply negb_true_iff, Z.eqb_neq. lia.
Qed.

Lemma apply_credit_checks_currency_witness :
  ApplyCredit.POST accepting_gateway
    (Js.Fulfilled (request_body "cus_123" (Js.num 200) "dollars")) tt
  = (tt, [], Ok (Server.json_error "Valid 3-letter currency code is required" 400))
  /\ exists rest,
       trace_of (ApplyCredit.POST accepting_gateway
                   (Js.Fulfilled (Js.VObject [("customerId", Js.VString "cus_123");
                                              ("amount", Js.VNumber (Js.num 200))])) tt) =
         Server.CreateBalanceTransaction "cus_123" (Js.num (-200)) "usd" :: rest.
Proof.
  split.
  - apply (apply_credit_checks_currency accepting_gateway
             [("customerId", Js.VString "cus_123");
              ("amount", Js.VNumber (Js.num 200));
              ("currency", Js.VString "dollars")] "cus_123" 200);
      try reflexivity; try lia; try discriminate.
    intros cur H. injection H as <-. discriminate.
  - apply (apply_credit_checks_currency accepting_gateway
             [("customerId", Js.VString "cus_123");
              ("amount", Js.VNumber (Js.num 200))] "cus_123" 200);
      try reflexivity; lia.
Defined.

(* ================================================================== *)
(** * The customer route *)
(* ================================================================== *)

Section CustomerLookup.
Import CustomerRoute.

(** The customer route, call by call. *)
Lemma customer_route_run (retrieve : string -> Js.settled StripeCustomer)
    (searchParams : list (string * string)) :
  GET retrieve searchParams tt =
    match Client.URLSearchParams_get "customerId" searchParams with
    | None =>
        (tt, [], Ok (Server.json_error "Valid customerId (cus_...) is required" 400))
    | Some c =>
        if (String.eqb c "" || negb (Js.startsWith c "cus_"))%bool then
          (tt, [], Ok (Server.json_error "Valid customerId (cus_...) is required" 400))
        else
          match retrieve c with
          | Js.Fulfilled customer =>
              (tt, [CustomersRetrieve c],
               Ok (if deleted customer
                   then Server.json_error "Customer not found" 404
                   else Server.json (customer_json customer)))
          | Js.Rejected e =>
              (tt, [CustomersRetrieve c; ConsoleError "Customer fetch error:" e],
               Ok (Server.json_error "Failed to fetch customer" 500))
          end
    end.
Proof.
  unfold GET.
  destruct (Client.URLSearchParams_get "customerId" searchParams) as [c|];
    [|reflexivity].
  destruct (String.eqb c "" || negb (Js.startsWith c "cus_"))%bool; [reflexivity|].
  run_eff.
  destruct (retrieve c) as [customer|e]; [destruct (deleted customer)|]; reflexivity.
Qed.

Lemma address_json_read (a : StripeAddress) :
  match address_json a with
  | Js.VObject fields =>
      {| Client.line1 := Http.string_field "line1" (Js.VObject fields);
         Client.line2 := Http.string_field "line2" (Js.VObject fields);
         Client.city := Http.string_field "city" (Js.VObject fields);
         Client.state := Http.string_field "state" (Js.VObject fields);
         Client.postal_code := Http.string_field "postal_code" (Js.VObject fields);
         Client.country := Http.string_field "country" (Js.VObject fields) |}
      = address_of a
  | _ => False
  end.
Proof.
  destruct a as [[l1|] [l2|] [ci|] [st|] [pc|] [co|]]; reflexivity.
Qed.

(** What the route writes for a customer, read back as a profile. *)
Lemma customer_json_read (c : StripeCustomer) :
  (forall b, balance c = Some b -> Js.Number_isFinite b = true) ->
  Http.CustomerData_of (customer_json c) = Some (profile_of c).
Proof.
  intro Hb. destruct c as [i d e n a cur b]. cbn [balance] in Hb.
  assert (Hn : json_number (Js.nullish b (Js.num 0))
               = Js.VNumber (Js.nullish b (Js.num 0))).
  { destruct b as [[| |q]|]; try reflexivity; specialize (Hb _ eq_refl); discriminate. }
  unfold customer_json, profile_of.
  cbn [id email name address currency balance]. rewrite Hn.
  destruct a as [a|].
  - pose proof (address_json_read a) as Ha.
    destruct (address_json a) as [| | | | | |fields] eqn:Ea; try contradiction.
    cbn [option_map]. rewrite <- Ha.
    destruct e as [e|], n as [n|]; reflexivity.
  - destruct e as [e|], n as [n|]; reflexivity.
Qed.

End CustomerLookup.

(** X8.  The customer route answers every request, with status 200, 400,
    404 or 500.  It is 400 exactly when the gateway was not asked, which is
    when the query has no [customerId] starting with "cus_"; the gateway is
    asked once at most, for the reference of the query; a deleted customer
    is answered 404 and a gateway failure 500, each with a fixed message. *)
Theorem customer_route_always_answers
    (retrieve : string -> Js.settled CustomerRoute.StripeCustomer)
    (searchParams : list (string * string)) :
  let run := CustomerRoute.GET retrieve searchParams tt in
  exists res,
    result_of run = Ok res
    /\ (Server.status res = 200 \/ Server.status res = 400
        \/ Server.status res = 404 \/ Server.status res = 500)
    /\ (Server.status res = 400 <-> trace_of run = [])
    /\ (trace_of run = [] <->
        forall c, Client.URLSearchParams_get "customerId" searchParams = Some c ->
                  Js.startsWith c "cus_" = false)
    /\ (forall c, In (CustomerRoute.CustomersRetrieve c) (trace_of run) ->
          Client.URLSearchParams_get "customerId" searchParams = Some c
          /\ List.filter (fun ev => match ev with
                                    | CustomerRoute.CustomersRetrieve _ => true
                                    | _ => false
                                    end) (trace_of run)
             = [CustomerRoute.CustomersRetrieve c])
    /\ (Server.status res = 404 ->
        Server.body res = Js.VObject [("error", Js.VString "Customer not found")])
    /\ (Server.status res = 500 ->
        Server.body res = Js.VObject [("error", Js.VString "Failed to fetch customer")]).
Proof.
  cbv zeta. rewrite customer_route_run.
  assert (Ans : forall o : option string,
    (forall c, o = Some c -> Js.startsWith c "cus_" = false) ->
    exists res,
      result_of (tt, @nil CustomerRoute.event,
                 Ok (Server.json_error "Valid customerId (cus_...) is required" 400))
        = Ok res
      /\ (Server.status res = 200 \/ Server.status res = 400
          \/ Server.status res = 404 \/ Server.status res = 500)
      /\ (Server.status res = 400 <-> @nil CustomerRoute.event = [])
      /\ (@nil CustomerRoute.event = [] <->
          forall c, o = Some c -> Js.startsWith c "cus_" = false)
      /\ (forall c, In (CustomerRoute.CustomersRetrieve c) [] ->
            o = Some c
            /\ @nil CustomerRoute.event = [CustomerRoute.CustomersRetrieve c])
      /\ (Server.status res = 404 ->
          Server.body res = Js.VObject [("error", Js.VString "Customer not found")])
      /\ (Server.status res = 500 ->
          Server.body res = Js.VObject [("error", Js.VString "Failed to fetch customer")])).
  { intros o Ho. eexists. split; [reflexivity|].
    cbn [Server.status Server.body Server.json_error].
    split; [right; left; reflexivity|].
    split; [split; reflexivity|].
    split; [split; [intros _; exact Ho | reflexivity]|].
    split; [intros c []|]. split; discriminate. }
  destruct (Client.URLSearchParams_get "customerId" searchParams) as [c|].
  - destruct (String.eqb_spec c "") as [-> | Hne]; cbn [orb].
    + apply (Ans (Some "")). intros c H. now injection H as <-.
    + destruct (Js.startsWith c "cus_") eqn:P; cbn [negb].
      * destruct (retrieve c) as [customer|e];
          [destruct (CustomerRoute.deleted customer)|];
          (eexists; split; [reflexivity|]);
          cbn [Server.status Server.body Server.json_error Server.json
               trace_of fst snd];
          (split; [first [ left; reflexivity | right; right; left; reflexivity
                         | right; right; right; reflexivity ]|]);
          (split; [split; discriminate|]);
          (split; [split; [discriminate
                          | intro H; specialize (H c eq_refl); congruence]|]);
          (split; [intros c' Hin; cbn in Hin;
                   assert (c' = c) by (intuition (try discriminate; congruence));
                   subst c'; split; reflexivity|]);
          split; intro; first [discriminate | reflexivity].
      * apply (Ans (Some c)). intros c' H. now injection H as <-.
  - apply (Ans None). discriminate.
Qed.

(** X9.  What the customer route writes for a customer that is not
    deleted, read back through the type [CustomerData], is the gateway's
    customer, with the balance 0 and the currency "usd" when the gateway has
    none, and with the optional fields (email, name, address and its lines)
    there exactly when the gateway has them. *)
Theorem customer_profile_round_trip
    (retrieve : string -> Js.settled CustomerRoute.StripeCustomer)
    (customerId : string) (customer : CustomerRoute.StripeCustomer) :
  Js.startsWith customerId "cus_" = true ->
  retrieve customerId = Js.Fulfilled customer ->
  CustomerRoute.deleted customer = false ->
  (forall b, CustomerRoute.balance customer = Some b -> Js.Number_isFinite b = true) ->
  exists res,
    CustomerRoute.GET retrieve [("customerId", customerId)] tt
      = (tt, [CustomerRoute.CustomersRetrieve customerId], Ok res)
    /\ Server.status res = 200
    /\ Http.CustomerData_of (Server.body res) = Some (profile_of customer).
Proof.
  intros Hp Hr Hd Hb. rewrite customer_route_run.
  cbn [Client.URLSearchParams_get]. rewrite String.eqb_refl.
  rewrite (startsWith_nonempty customerId "cus_"), Hp, Hr, Hd
    by (assumption || discriminate).
  cbn [orb negb]. eexists. split; [reflexivity|]. split; [reflexivity|].
  now apply customer_json_read.
Qed.

Lemma customer_profile_round_trip_witness :
  exists res,
    CustomerRoute.GET retrieve_alice [("customerId", "cus_123")] tt
      = (tt, [CustomerRoute.CustomersRetrieve "cus_123"], Ok res)
    /\ Server.status res = 200
    /\ Http.CustomerData_of (Server.body res)
       = Some {| Client.id := "cus_123"; Client.email := None;
                 Client.name := Some "Alice"; Client.address := None;
                 Client.balance := Js.num 0; Client.currency := "usd" |}.
Proof.
  apply (customer_profile_round_trip retrieve_alice "cus_123" stripe_alice);
    try reflexivity. intros b H. discriminate H.
Defined.

(* ================================================================== *)
(** * More of the customer page *)
(* ================================================================== *)

Section PageAndRoute.
Import Client Page.

Lemma get_customer_run
    (retrieve : string -> Js.settled CustomerRoute.StripeCustomer) (slug : string) :
  slug <> "" ->
  Http.get_customer retrieve slug =
    let failure msg :=
      Js.Fulfilled (CustomerNotOk (Js.Fulfilled
        {| body_error := Some msg; body_clientSecret := None |})) in
    if Js.startsWith slug "cus_" then
      match retrieve slug with
      | Js.Fulfilled c =>
          if CustomerRoute.deleted c then failure "Customer not found"
          else
            match Http.CustomerData_of (CustomerRoute.customer_json c) with
            | Some data => Js.Fulfilled (CustomerOk (Js.Fulfilled data))
            | None =>
                Js.Fulfilled
                  (CustomerOk (Js.Rejected (Js.TypeError "not a customer profile")))
            end
      | Js.Rejected _ => failure "Failed to fetch customer"
      end
    else failure "Valid customerId (cus_...) is required".
Proof.
  intro Hs. apply String.eqb_neq in Hs.
  unfold Http.get_customer. rewrite customer_route_run.
  cbn [URLSearchParams_get]. rewrite String.eqb_refl, Hs. cbn [orb]. cbv zeta.
  destruct (Js.startsWith slug "cus_"); cbn [negb]; [|reflexivity].
  destruct (retrieve slug) as [c|e]; [|reflexivity].
  destruct (CustomerRoute.deleted c); reflexivity.
Qed.

(** The page's state after a load: it has stopped loading, and holds a
    profile and no error, or an error and no profile. *)
Lemma mount_effect_settles (w : world) (slug : string) (st : state) :
  slug <> "" ->
  let s' := state_of (mount_effect w slug st) in
  loading s' = false
  /\ ((exists data, customer s' = Some data /\ error s' = None)
      \/ (exists msg, customer s' = None /\ error s' = Some msg)).
Proof.
  intro Hs. cbv zeta.
  assert (F : forall st0,
    loading (fetched w slug st0) = false
    /\ ((exists data, customer (fetched w slug st0) = Some data
                      /\ error (fetched w slug st0) = None)
        \/ (exists msg, customer (fetched w slug st0) = None
                        /\ error (fetched w slug st0) = Some msg))).
  { intro st0. unfold fetched.
    destruct (fetch_customer w slug) as [[[data|e]|j]|e]; cbn;
      (split; [reflexivity|]);
      first [ left; eexists; split; reflexivity
            | right; eexists; split; reflexivity ]. }
  destruct (present (secret_of st)) eqn:Hp.
  - destruct (present_secret st Hp) as (secret & Hsec & Hne).
    rewrite (mount_effect_redirect w slug secret st Hs Hsec Hne).
    destruct (processPaymentRedirect w slug secret (reconciling slug st))
      as [[s1 t1] [[]|e]]; cbn [state_of fst].
    + apply F.
    + cbn. split; [reflexivity|]. right. eexists. split; reflexivity.
  - rewrite mount_effect_plain by assumption. apply F.
Qed.

Lemma mount_effect_returns (w : world) (slug : string) (st : state) :
  result_of (mount_effect w slug st) = Ok tt.
Proof.
  destruct (String.eqb_spec slug "") as [-> | Hs]; [reflexivity|].
  destruct (present (secret_of st)) eqn:Hp.
  - destruct (present_secret st Hp) as (secret & Hsec & Hne).
    rewrite (mount_effect_redirect w slug secret st Hs Hsec Hne).
    destruct (processPaymentRedirect w slug secret (reconciling slug st))
      as [[s1 t1] [[]|e]]; reflexivity.
  - rewrite mount_effect_plain by assumption. reflexivity.
Qed.

Lemma processPaymentRedirect_ignores_amount (a : option Js.number) (w : world)
    (customerId clientSecret : string) (st : state) (i : PaymentIntent) (r : Js.number) :
  retrievePaymentIntent w clientSecret = Js.Fulfilled (Some i) ->
  pi_amount_received i = Some r ->
  processPaymentRedirect (with_intent_amount a w) customerId clientSecret st =
  processPaymentRedirect w customerId clientSecret st.
Proof.
  intros Hr Hrec. rewrite !processPaymentRedirect_run.
  cbn [with_intent_amount loadStripe retrievePaymentIntent fetch_apply_credit].
  rewrite Hr.
  unfold resolved_amount, resolved_currency.
  cbn [pi_status pi_amount pi_amount_received pi_currency]. rewrite Hrec.
  reflexivity.
Qed.

End PageAndRoute.

(** X10.  The page of a customer, served by the customer route: with a
    reference that does not start with "cus_" it shows the route's
    "Valid customerId (cus_...) is required" and the gateway is not asked;
    for a customer the gateway has it shows the portal with the gateway's
    profile (balance 0 and currency "usd" when the gateway has none); for a
    deleted customer "Customer not found"; when the gateway fails
    "Failed to fetch customer". *)
Theorem page_shows_what_the_gateway_holds
    (retrieve : string -> Js.settled CustomerRoute.StripeCustomer)
    (w : Client.world) (slug : string) (st : Page.state) :
  slug <> "" -> Client.present (secret_of st) = false ->
  let shown :=
    Page.render slug
      (state_of (Page.mount_effect (Http.with_customer_route retrieve w) slug st)) in
  (Js.startsWith slug "cus_" = false ->
   shown = Page.ErrorMessage "Valid customerId (cus_...) is required"
   /\ trace_of (CustomerRoute.GET retrieve [("customerId", slug)] tt) = [])
  /\ (forall c,
       Js.startsWith slug "cus_" = true -> retrieve slug = Js.Fulfilled c ->
       CustomerRoute.deleted c = false ->
       (forall b, CustomerRoute.balance c = Some b -> Js.Number_isFinite b = true) ->
       shown = Page.Portal (profile_of c) slug)
  /\ (forall c,
       Js.startsWith slug "cus_" = true -> retrieve slug = Js.Fulfilled c ->
       CustomerRoute.deleted c = true ->
       shown = Page.ErrorMessage "Customer not found")
  /\ (forall e,
       Js.startsWith slug "cus_" = true -> retrieve slug = Js.Rejected e ->
       shown = Page.ErrorMessage "Failed to fetch customer").
Proof.
  intros Hs Hp shown. subst shown.
  rewrite mount_effect_plain by assumption. cbn [state_of fst].
  pose proof (String.eqb_neq slug "") as [_ Hs']. specialize (Hs' Hs).
  unfold fetched, Page.render. rewrite Hs'.
  cbn [Http.with_customer_route Client.fetch_customer].
  rewrite get_customer_run by assumption. cbv zeta.
  split; [|split; [|split]].
  - intro P. rewrite P. split; [reflexivity|].
    rewrite customer_route_run. cbn [Client.URLSearchParams_get].
    rewrite String.eqb_refl, Hs', P. reflexivity.
  - intros c P R D B. rewrite P, R, D, (customer_json_read c B). reflexivity.
  - intros c P R D. rewrite P, R, D. reflexivity.
  - intros e P R. rewrite P, R. reflexivity.
Qed.

Lemma page_shows_what_the_gateway_holds_witness :
  Page.render "cus_123"
    (state_of (Page.mount_effect
                 (Http.with_customer_route retrieve_alice
                    (browser (intent "succeeded" None "cus_123") true))
                 "cus_123"
                 (Page.initial {| Client.pathname := "/customers/cus_123";
                                  Client.search := [] |})))
  = Page.Portal {| Client.id := "cus_123"; Client.email := None;
                   Client.name := Some "Alice"; Client.address := None;
                   Client.balance := Js.num 0; Client.currency := "usd" |} "cus_123"
  /\ Page.render "abc"
       (state_of (Page.mount_effect
                    (Http.with_customer_route retrieve_alice
                       (browser (intent "succeeded" None "cus_123") true))
                    "abc"
                    (Page.initial {| Client.pathname := "/customers/abc";
                                     Client.search := [] |})))
     = Page.ErrorMessage "Valid customerId (cus_...) is required".
Proof.
  split.
  - destruct (page_shows_what_the_gateway_holds retrieve_alice
                (browser (intent "succeeded" None "cus_123") true) "cus_123"
                (Page.initial {| Client.pathname := "/customers/cus_123";
                                 Client.search := [] |}))
      as (_ & A & _); [discriminate | reflexivity |].
    apply (A stripe_alice); try reflexivity. intros b H. discriminate H.
  - destruct (page_shows_what_the_gateway_holds retrieve_alice
                (browser (intent "succeeded" None "cus_123") true) "abc"
                (Page.initial {| Client.pathname := "/customers/abc";
                                 Client.search := [] |}))
      as (A & _); [discriminate | reflexivity |].
    apply A. reflexivity.
Defined.

(** X11.  A page load never throws and never leaves the page on
    "Loading...": afterwards the page holds either a profile and no error,
    and shows the portal, or an error message and no profile, and shows
    that message. *)
Theorem page_load_settles
    (w : Client.world) (slug : string) (st : Page.state) :
  slug <> "" ->
  let s' := state_of (Page.mount_effect w slug st) in
  result_of (Page.mount_effect w slug st) = Ok tt
  /\ Page.loading s' = false
  /\ ((exists data,
         Page.customer s' = Some data /\ Page.error s' = None
         /\ Page.render slug s' = Page.Portal data slug)
      \/ (exists msg,
            Page.customer s' = None /\ Page.error s' = Some msg
            /\ Page.render slug s' = Page.ErrorMessage msg)).
Proof.
  intros Hs s'. subst s'.
  pose proof (String.eqb_neq slug "") as [_ Hs']. specialize (Hs' Hs).
  destruct (mount_effect_settles w slug st Hs) as (L & [(d & C & E) | (m & C & E)]).
  - split; [apply mount_effect_returns|]. split; [exact L|].
    left. exists d. repeat split; try assumption.
    unfold Page.render. rewrite Hs', L, C, E. reflexivity.
  - split; [apply mount_effect_returns|]. split; [exact L|].
    right. exists m. repeat split; try assumption.
    unfold Page.render. rewrite Hs', L, C, E. reflexivity.
Qed.

Lemma page_load_settles_witness :
  Page.loading
    (state_of (Page.mount_effect
                 (browser (intent "succeeded" (Some (Js.num 200)) "cus_123") false)
                 "cus_123" (returning "cus_123" "pi_1_secret_2"))) = false.
Proof.
  apply (page_load_settles
           (browser (intent "succeeded" (Some (Js.num 200)) "cus_123") false)
           "cus_123" (returning "cus_123" "pi_1_secret_2")).
  discriminate.
Defined.

(** X12.  On return from a redirect, when Stripe's library does not load
    (it resolves [null]) or no payment intent comes back for the secret, the
    page applies no credit and reports nothing of it: it strips the secret
    and goes on to fetch the profile.  As the secret is gone from the
    address, loading the page again applies no credit either. *)
Theorem unavailable_stripe_drops_the_credit
    (w : Client.world) (slug secret : string) (st : Page.state) :
  slug <> "" -> secret_of st = Some secret -> secret <> "" ->
  Client.loadStripe w = Js.Fulfilled false
  \/ (Client.loadStripe w = Js.Fulfilled true
      /\ Client.retrievePaymentIntent w secret = Js.Fulfilled None) ->
  let run := Page.mount_effect w slug st in
  Client.apply_credit_calls (trace_of run) = 0%nat
  /\ state_of run = fetched w slug (reconciling slug st)
  /\ (exists calls,
        trace_of run = Client.ReplaceState (stripped slug) :: calls
                       ++ [Client.FetchCustomer slug])
  /\ (forall w',
        Client.apply_credit_calls
          (trace_of (Page.mount_effect w' slug (state_of run))) = 0%nat).
Proof.
  intros Hs Hsec Hne Hstripe run. subst run.
  assert (Hp : Client.present
                 (secret_of (state_of (Page.mount_effect w slug st))) = false)
    by now apply no_secret_after_effect.
  split; [|split; [|split]].
  4: { intro w'. rewrite mount_effect_plain by assumption. reflexivity. }
  all: rewrite (mount_effect_redirect w slug secret st Hs Hsec Hne);
    rewrite processPaymentRedirect_run;
    destruct Hstripe as [-> | [-> ->]]; cbv zeta; try reflexivity.
  - exists [Client.LoadStripe]. reflexivity.
  - exists [Client.LoadStripe; Client.RetrievePaymentIntent secret]. reflexivity.
Qed.

Lemma unavailable_stripe_drops_the_credit_witness :
  Client.apply_credit_calls
    (trace_of (Page.mount_effect
                 (with_intent_customer None
                    {| Client.loadStripe := Js.Fulfilled false;
                       Client.retrievePaymentIntent := fun _ => Js.Fulfilled None;
                       Client.fetch_customer := fun _ =>
                         Js.Fulfilled (Client.CustomerOk (Js.Fulfilled alice));
                       Client.fetch_apply_credit := fun _ _ _ =>
                         Js.Rejected (Js.Error "offline");
                       Client.fetch_create_payment_intent := fun _ _ _ =>
                         Js.Rejected (Js.Error "offline");
                       Client.elements_submit := Js.Fulfilled None;
                       Client.confirmPayment := fun _ _ => Js.Fulfilled None |})
                 "cus_123" (returning "cus_123" "pi_1_secret_2"))) = 0%nat.
Proof.
  refine (proj1 (unavailable_stripe_drops_the_credit _ "cus_123" "pi_1_secret_2"
                   (returning "cus_123" "pi_1_secret_2") _ _ _ _)).
  - discriminate.
  - reflexivity.
  - discriminate.
  - left. reflexivity.
Defined.

(** X13.  When the retrieved intent has an [amount_received], even 0, the
    reconciliation handler never falls back on the intent's [amount]: its
    run is the same whatever [amount] is, and with an [amount_received]
    below 1 it applies no credit. *)
Theorem amount_received_shadows_amount
    (w : Client.world) (customerId secret : string) (st : Page.state)
    (i : Client.PaymentIntent) (received : Js.number) :
  Client.retrievePaymentIntent w secret = Js.Fulfilled (Some i) ->
  Client.pi_amount_received i = Some received ->
  (forall requested,
     Page.processPaymentRedirect (with_intent_amount requested w) customerId secret st
     = Page.processPaymentRedirect w customerId secret st)
  /\ ((exists q, received = Js.Finite q /\ (q < 1)%Q) ->
      Client.apply_credit_calls
        (trace_of (Page.processPaymentRedirect w customerId secret st)) = 0%nat).
Proof.
  intros Hr Hrec. split.
  - intro requested.
    now apply (processPaymentRedirect_ignores_amount requested w customerId secret st
                 i received).
  - intros (q & -> & Hq).
    rewrite processPaymentRedirect_run.
    destruct (Client.loadStripe w) as [[|]|e]; try reflexivity. cbv zeta.
    rewrite Hr.
    replace (Js.lt (Page.resolved_amount i) (Js.num 1)) with true.
    + rewrite orb_true_r. reflexivity.
    + symmetry. unfold Page.resolved_amount. rewrite Hrec. cbn [Js.nullish].
      now apply Qltb_lt.
Qed.

Lemma amount_received_shadows_amount_witness :
  Client.apply_credit_calls
    (trace_of (Page.processPaymentRedirect
                 (browser (intent "succeeded" (Some (Js.num 0)) "cus_123") true)
                 "cus_123" "pi_1_secret_2" (returning "cus_123" "pi_1_secret_2")))
  = 0%nat.
Proof.
  refine (proj2 (amount_received_shadows_amount
                   (browser (intent "succeeded" (Some (Js.num 0)) "cus_123") true)
                   "cus_123" "pi_1_secret_2" (returning "cus_123" "pi_1_secret_2")
                   (intent "succeeded" (Some (Js.num 0)) "cus_123") (Js.num 0)
                   eq_refl eq_refl) _).
  exists (inject_Z 0). split; reflexivity.
Defined.

(* ================================================================== *)
(** * More of the portal component *)
(* ================================================================== *)

Section PortalRuns.
Import Client Portal.

(** Unfolds a handler of the portal down to the answers of the outside. *)
Ltac run_portal :=
  unfold setPayError, setPayLoading, setClientSecret, setAmountDollars; run_eff.

Lemma handleConfirmPayment_credit (w : world) (p : Props) (s : state)
    (c : string) (a : Js.number) (cur : string) :
  In (FetchApplyCredit c a cur) (trace_of (handleConfirmPayment w p s)) ->
  c = customerId p /\ a = cents (amountDollars s) /\ cur = currency (customer p)
  /\ exists secret, clientSecret s = Some secret.
Proof.
  rewrite handleConfirmPayment_trace.
  destruct (clientSecret s) as [secret|]; [|intros []].
  intro Hin.
  assert (E : FetchApplyCredit (customerId p) (cents (amountDollars s))
                (currency (customer p)) = FetchApplyCredit c a cur).
  { destruct (negb _ || _ || _)%bool; [destruct Hin|].
    destruct (elements_submit w) as [[err|]|e];
      [ | destruct (confirmPayment w secret _) as [[err|]|e];
          [ | destruct (fetch_apply_credit w _ _ _) as [res|e];
              [destruct (ok res)|] | ] | ];
      cbn [In] in Hin; intuition (try discriminate; congruence). }
  injection E as <- <- <-. repeat split. now exists secret.
Qed.

(** What [handleCreatePaymentIntent] leaves behind. *)
Lemma handleCreatePaymentIntent_state (w : world) (p : Props) (s : state) :
  let run := handleCreatePaymentIntent w p s in
  result_of run = Ok tt
  /\ amountDollars (state_of run) = amountDollars s
  /\ stripeRef (state_of run) = stripeRef s
  /\ elementsRef (state_of run) = elementsRef s
  /\ (trace_of run = [] -> clientSecret (state_of run) = clientSecret s).
Proof.
  cbv zeta.
  destruct (negb (Js.Number_isFinite (cents (amountDollars s)))
            || Js.lt (cents (amountDollars s)) (Js.num 50))%bool eqn:G.
  - rewrite handleCreatePaymentIntent_rejects by exact G. repeat split.
  - unfold handleCreatePaymentIntent. run_portal. rewrite G.
    destruct (fetch_create_payment_intent w _ _ _) as [[o [data|e]]|e];
      [destruct o| |];
      cbn [state_of trace_of result_of fst snd app
           amountDollars stripeRef elementsRef clientSecret];
      do 4 (split; [reflexivity|]); intro T; discriminate T.
Qed.

(** The payment element's effect touches the two refs only. *)
Lemma payment_element_state (w : world) (env : PaymentElement.surroundings) (s : state) :
  let run := PaymentElement.mount_effect w env s in
  result_of run = Ok tt
  /\ amountDollars (state_of run) = amountDollars s
  /\ clientSecret (state_of run) = clientSecret s
  /\ payError (state_of run) = payError s
  /\ payLoading (state_of run) = payLoading s
  /\ (state_of run = s \/ state_of run = with_refs s).
Proof.
  cbv zeta. unfold PaymentElement.mount_effect.
  unfold PaymentElement.setStripeRef, PaymentElement.setElementsRef. run_eff.
  assert (Same : forall t : list PaymentElement.event,
            result_of (s, t, Ok tt) = Ok tt
            /\ amountDollars (state_of (s, t, Ok tt)) = amountDollars s
            /\ clientSecret (state_of (s, t, Ok tt)) = clientSecret s
            /\ payError (state_of (s, t, Ok tt)) = payError s
            /\ payLoading (state_of (s, t, Ok tt)) = payLoading s
            /\ (state_of (s, t, Ok tt) = s \/ state_of (s, t, Ok tt) = with_refs s)).
  { intro t. do 5 (split; [reflexivity|]). now left. }
  destruct (clientSecret s) as [secret|] eqn:C; [|apply Same].
  destruct (String.eqb secret "" || negb (PaymentElement.container env)
            || String.eqb (PaymentElement.PUBLISHABLE_KEY env) "")%bool;
    [apply Same|].
  destruct (loadStripe w) as [[|]|e]; [ | apply Same | apply Same ].
  destruct (negb true || negb (PaymentElement.mounted_after_load env)
            || negb (PaymentElement.container_after_load env))%bool;
    [apply Same|].
  cbn [state_of result_of fst snd
       amountDollars clientSecret payError payLoading stripeRef elementsRef].
  unfold with_refs. rewrite ?C.
  do 5 (split; [reflexivity|]). right. reflexivity.
Qed.

End PortalRuns.

(** X14.  A confirmation calls the outside in one fixed order: the
    payment details are submitted, then the payment is confirmed, with the
    return address of this customer and this secret, then the credit is
    applied, then the balance is refreshed; it may stop after any of them,
    but skips none and puts nothing between two of them. *)
Theorem confirmation_calls_in_order
    (w : Client.world) (p : Portal.Props) (s : Portal.state) :
  (Portal.clientSecret s = None ->
   trace_of (Portal.handleConfirmPayment w p s) = [])
  /\ (forall secret, Portal.clientSecret s = Some secret ->
      exists rest,
        confirmation_calls p s secret
        = trace_of (Portal.handleConfirmPayment w p s) ++ rest).
Proof.
  rewrite handleConfirmPayment_trace. split.
  - intros ->. reflexivity.
  - intros secret ->. unfold confirmation_calls.
    destruct (negb _ || _ || _)%bool; [eexists; reflexivity|].
    destruct (Client.elements_submit w) as [[err|]|e];
      [ | destruct (Client.confirmPayment w secret _) as [[err|]|e];
          [ | destruct (Client.fetch_apply_credit w _ _ _) as [res|e];
              [destruct (Client.ok res)|] | ] | ];
      cbn [app]; eexists; reflexivity.
Qed.

Lemma confirmation_calls_in_order_witness :
  exists rest,
    confirmation_calls props_of_alice (typed "2.00" (Some "pi_1_secret_2"))
      "pi_1_secret_2"
    = trace_of (Portal.handleConfirmPayment
                  (browser (intent "succeeded" None "cus_123") false)
                  props_of_alice (typed "2.00" (Some "pi_1_secret_2"))) ++ rest.
Proof.
  apply (confirmation_calls_in_order
           (browser (intent "succeeded" None "cus_123") false)
           props_of_alice (typed "2.00" (Some "pi_1_secret_2"))).
  reflexivity.
Defined.

(** X15.  A confirmation never throws and leaves the two handles alone.
    When it stops before its first call nothing changes at all; otherwise
    it ends with [payLoading] off and in one of two ways: the balance was
    refreshed, and then the form is reset (no secret, empty amount, no
    message); or it was not, and then the secret and the amount are kept
    and a message is shown. *)
Theorem confirmation_resets_or_reports
    (w : Client.world) (p : Portal.Props) (s : Portal.state) :
  let run := Portal.handleConfirmPayment w p s in
  result_of run = Ok tt
  /\ Portal.stripeRef (state_of run) = Portal.stripeRef s
  /\ Portal.elementsRef (state_of run) = Portal.elementsRef s
  /\ (trace_of run = [] -> state_of run = s)
  /\ (trace_of run <> [] -> Portal.payLoading (state_of run) = false)
  /\ (In Client.OnBalanceUpdated (trace_of run) ->
      Portal.clientSecret (state_of run) = None
      /\ Portal.amountDollars (state_of run) = ""
      /\ Portal.payError (state_of run) = None)
  /\ (trace_of run <> [] -> ~ In Client.OnBalanceUpdated (trace_of run) ->
      Portal.clientSecret (state_of run) = Portal.clientSecret s
      /\ Portal.amountDollars (state_of run) = Portal.amountDollars s
      /\ exists msg, Portal.payError (state_of run) = Some msg).
Proof.
  cbv zeta. unfold Portal.handleConfirmPayment.
  unfold Portal.setPayError, Portal.setPayLoading, Portal.setClientSecret,
    Portal.setAmountDollars.
  run_eff.
  destruct (Portal.clientSecret s) as [secret|] eqn:C.
  2: { cbn [state_of trace_of result_of fst snd In].
       repeat split; intros; try reflexivity; try contradiction; congruence. }
  destruct (negb _ || _ || _)%bool.
  { cbn [state_of trace_of result_of fst snd In].
    repeat split; intros; try reflexivity; try contradiction; congruence. }
  destruct (Client.elements_submit w) as [[err|]|e];
    [ | destruct (Client.confirmPayment w secret _) as [[err|]|e];
        [ | destruct (Client.fetch_apply_credit w _ _ _) as [res|e];
            [destruct (Client.ok res)|] | ] | ];
    cbn [state_of trace_of result_of fst snd app In negb
         Portal.amountDollars Portal.clientSecret Portal.payLoading
         Portal.payError Portal.stripeRef Portal.elementsRef];
    (split; [reflexivity|]); (split; [reflexivity|]); (split; [reflexivity|]);
    (split; [discriminate|]); (split; [reflexivity|]);
    (split; [intro H | intros _ H]);
    try (exfalso; intuition discriminate);
    try (repeat split; try reflexivity; try assumption; eexists; reflexivity).
Qed.

Lemma confirmation_resets_or_reports_witness :
  let run := Portal.handleConfirmPayment
               (browser (intent "succeeded" None "cus_123") true)
               props_of_alice (typed "2.00" (Some "pi_1_secret_2")) in
  Portal.clientSecret (state_of run) = None
  /\ Portal.amountDollars (state_of run) = ""
  /\ Portal.payError (state_of run) = None.
Proof.
  apply (confirmation_resets_or_reports
           (browser (intent "succeeded" None "cus_123") true)
           props_of_alice (typed "2.00" (Some "pi_1_secret_2"))).
  vm_compute. do 3 right. left. reflexivity.
Defined.

(** X16.  Creating an intent never throws and touches neither the typed
    amount nor the two handles.  When it makes no call, it shows
    "Enter at least $0.50" and keeps the secret; when it calls the route it
    ends with [payLoading] off, and either the route answered ok with a JSON
    body, whose [clientSecret] becomes the form's and no message is shown,
    or the secret is kept and a message is shown. *)
Theorem intent_creation_sets_secret_or_reports
    (w : Client.world) (p : Portal.Props) (s : Portal.state) :
  let run := Portal.handleCreatePaymentIntent w p s in
  let answer :=
    Client.fetch_create_payment_intent w (Portal.customerId p)
      (Portal.cents (Portal.amountDollars s)) (Client.currency (Portal.customer p)) in
  result_of run = Ok tt
  /\ Portal.amountDollars (state_of run) = Portal.amountDollars s
  /\ Portal.stripeRef (state_of run) = Portal.stripeRef s
  /\ Portal.elementsRef (state_of run) = Portal.elementsRef s
  /\ (trace_of run = [] ->
      Portal.clientSecret (state_of run) = Portal.clientSecret s
      /\ Portal.payLoading (state_of run) = Portal.payLoading s
      /\ Portal.payError (state_of run) = Some "Enter at least $0.50")
  /\ (trace_of run <> [] ->
      Portal.payLoading (state_of run) = false
      /\ ((exists data,
             answer = Js.Fulfilled {| Client.ok := true;
                                      Client.json := Js.Fulfilled data |}
             /\ Portal.clientSecret (state_of run) = Client.body_clientSecret data
             /\ Portal.payError (state_of run) = None)
          \/ (Portal.clientSecret (state_of run) = Portal.clientSecret s
              /\ exists msg, Portal.payError (state_of run) = Some msg))).
Proof.
  cbv zeta.
  destruct (negb (Js.Number_isFinite (Portal.cents (Portal.amountDollars s)))
            || Js.lt (Portal.cents (Portal.amountDollars s)) (Js.num 50))%bool eqn:G.
  - rewrite handleCreatePaymentIntent_rejects by exact G.
    cbn [state_of trace_of result_of fst snd].
    repeat split; intros; try reflexivity; congruence.
  - unfold Portal.handleCreatePaymentIntent.
    unfold Portal.setPayError, Portal.setPayLoading, Portal.setClientSecret.
    run_eff. rewrite G.
    destruct (Client.fetch_create_payment_intent w _ _ _) as [[o [data|e]]|e];
      [destruct o| |];
      cbn [state_of trace_of result_of fst snd app negb
           Client.ok Client.json
           Portal.amountDollars Portal.clientSecret Portal.payLoading
           Portal.payError Portal.stripeRef Portal.elementsRef];
      do 4 (split; [reflexivity|]); (split; [discriminate|]);
      intros _; (split; [reflexivity|]).
    + left. exists data. repeat split.
    + right. split; [reflexivity|]. eexists; reflexivity.
    + right. split; [reflexivity|]. eexists; reflexivity.
    + right. split; [reflexivity|]. eexists; reflexivity.
Qed.

Lemma intent_creation_sets_secret_or_reports_witness :
  let run := Portal.handleCreatePaymentIntent
               (browser (intent "succeeded" None "cus_123") true)
               props_of_alice (fresh_form "0.30") in
  Portal.clientSecret (state_of run) = None
  /\ Portal.payLoading (state_of run) = false
  /\ Portal.payError (state_of run) = Some "Enter at least $0.50".
Proof.
  apply (intent_creation_sets_secret_or_reports
           (browser (intent "succeeded" None "cus_123") true)
           props_of_alice (fresh_form "0.30")).
  vm_compute. reflexivity.
Defined.

Section PortalFlow.
Import Client Portal.

(** The run of the payment element's effect. *)
Lemma payment_element_run (w : world) (env : PaymentElement.surroundings) (s : state) :
  PaymentElement.mount_effect w env s =
    match clientSecret s with
    | None => (s, [], Ok tt)
    | Some secret =>
        if (String.eqb secret "" || negb (PaymentElement.container env)
            || String.eqb (PaymentElement.PUBLISHABLE_KEY env) "")%bool
        then (s, [], Ok tt)
        else
          match loadStripe w with
          | Js.Fulfilled true =>
              if (negb (PaymentElement.mounted_after_load env)
                  || negb (PaymentElement.container_after_load env))%bool
              then (s, [PaymentElement.Browser LoadStripe], Ok tt)
              else (with_refs s, mounting_calls secret, Ok tt)
          | _ => (s, [PaymentElement.Browser LoadStripe], Ok tt)
          end
    end.
Proof.
  unfold PaymentElement.mount_effect.
  unfold PaymentElement.setStripeRef, PaymentElement.setElementsRef. run_eff.
  destruct (clientSecret s) as [secret|] eqn:C; [|reflexivity].
  destruct (String.eqb secret "" || negb (PaymentElement.container env)
            || String.eqb (PaymentElement.PUBLISHABLE_KEY env) "")%bool;
    [reflexivity|].
  destruct (loadStripe w) as [[|]|e]; try reflexivity.
  cbn [negb orb].
  destruct (negb (PaymentElement.mounted_after_load env)
            || negb (PaymentElement.container_after_load env))%bool;
    [reflexivity|].
  unfold with_refs, mounting_calls. rewrite C. reflexivity.
Qed.

(** A secret that appears in the form came with an ok answer of the route. *)
Lemma handleCreatePaymentIntent_secret (w : world) (p : Props) (s : state)
    (secret : string) :
  clientSecret s = None ->
  clientSecret (state_of (handleCreatePaymentIntent w p s)) = Some secret ->
  (negb (Js.Number_isFinite (cents (amountDollars s)))
   || Js.lt (cents (amountDollars s)) (Js.num 50))%bool = false
  /\ exists data,
      fetch_create_payment_intent w (customerId p) (cents (amountDollars s))
        (currency (customer p))
      = Js.Fulfilled {| ok := true; json := Js.Fulfilled data |}
      /\ body_clientSecret data = Some secret.
Proof.
  intros N H.
  destruct (negb (Js.Number_isFinite (cents (amountDollars s)))
            || Js.lt (cents (amountDollars s)) (Js.num 50))%bool eqn:G.
  - rewrite handleCreatePaymentIntent_rejects in H by exact G.
    unfold with_payError in H. cbn [state_of fst clientSecret] in H. congruence.
  - split; [reflexivity|]. revert H.
    unfold handleCreatePaymentIntent.
    unfold setPayError, setPayLoading, setClientSecret. run_eff. rewrite G.
    destruct (fetch_create_payment_intent w _ _ _) as [[o [data|e]]|e];
      [destruct o| |];
      cbn [state_of fst snd negb ok json clientSecret]; intro H;
      try congruence.
    exists data. split; [reflexivity|exact H].
Qed.

End PortalFlow.

(** X17.  The payment element's effect never throws.  When the form
    holds a non-empty secret, the container is rendered before and after
    Stripe loads, the key is configured and [loadStripe] resolves a handle,
    it mounts the element for that secret and fills both refs; in every
    other case it changes nothing and calls at most [loadStripe]. *)
Theorem payment_element_mounts_when_ready
    (w : Client.world) (env : PaymentElement.surroundings) (s : Portal.state) :
  let run := PaymentElement.mount_effect w env s in
  result_of run = Ok tt
  /\ (forall secret, ready w env s secret ->
      state_of run = with_refs s /\ trace_of run = mounting_calls secret)
  /\ ((forall secret, ~ ready w env s secret) ->
      state_of run = s
      /\ (trace_of run = []
          \/ trace_of run = [PaymentElement.Browser Client.LoadStripe])).
Proof.
  cbv zeta. rewrite payment_element_run. unfold ready, mountable.
  split; [|split].
  - destruct (Portal.clientSecret s) as [secret|]; [|reflexivity].
    destruct (_ || _ || _)%bool; [reflexivity|].
    destruct (Client.loadStripe w) as [[|]|e]; try reflexivity.
    destruct (_ || _)%bool; reflexivity.
  - intros secret (-> & Hs & Hm & ->).
    apply String.eqb_neq in Hs. rewrite Hs.
    destruct (PaymentElement.container env); [|discriminate Hm].
    destruct (String.eqb (PaymentElement.PUBLISHABLE_KEY env) "");
      [discriminate Hm|].
    destruct (PaymentElement.mounted_after_load env); [|discriminate Hm].
    destruct (PaymentElement.container_after_load env); [|discriminate Hm].
    split; reflexivity.
  - intro Hn.
    destruct (Portal.clientSecret s) as [secret|]; [|split; [reflexivity|now left]].
    specialize (Hn secret).
    destruct (String.eqb secret "") eqn:Hs; [split; [reflexivity|now left]|].
    apply String.eqb_neq in Hs.
    destruct (PaymentElement.container env); [|split; [reflexivity|now left]].
    destruct (String.eqb (PaymentElement.PUBLISHABLE_KEY env) "");
      [split; [reflexivity|now left]|].
    cbn [negb orb andb] in *.
    destruct (Client.loadStripe w) as [[|]|e];
      [|split; [reflexivity|now right]|split; [reflexivity|now right]].
    destruct (PaymentElement.mounted_after_load env);
      [|split; [reflexivity|now right]].
    destruct (PaymentElement.container_after_load env);
      [|split; [reflexivity|now right]].
    exfalso. apply Hn. repeat split. exact Hs.
Qed.

Lemma payment_element_mounts_when_ready_witness :
  let run := PaymentElement.mount_effect
               (browser (intent "succeeded" None "cus_123") true) rendered_form
               (with_intent_secret "pi_1_secret_2" (fresh_form "2.00")) in
  state_of run = with_refs (with_intent_secret "pi_1_secret_2" (fresh_form "2.00"))
  /\ trace_of run = mounting_calls "pi_1_secret_2".
Proof.
  apply (payment_element_mounts_when_ready
           (browser (intent "succeeded" None "cus_123") true) rendered_form
           (with_intent_secret "pi_1_secret_2" (fresh_form "2.00"))).
  repeat split. discriminate.
Defined.

(** X18.  On a form that holds no secret and no Stripe handle, follow
    "Continue to payment", the payment element's effect and "Pay".  If
    the last step asks for a credit, then the first step asked the route
    for an intent of the same customer, amount and currency, the amount
    being an integer of at least 50; the route answered ok with a secret;
    the element was mounted for that secret; and the payment confirmed
    before the credit is the one of that secret. *)
Theorem synchronous_credit_follows_the_intent
    (w : Client.world) (env : PaymentElement.surroundings) (p : Portal.Props)
    (s : Portal.state) (c : string) (a : Js.number) (cur : string) :
  let created := Portal.handleCreatePaymentIntent w p s in
  let mounted := PaymentElement.mount_effect w env (state_of created) in
  let confirmed := Portal.handleConfirmPayment w p (state_of mounted) in
  Portal.clientSecret s = None ->
  Portal.stripeRef s = false ->
  In (Client.FetchApplyCredit c a cur) (trace_of confirmed) ->
  trace_of created = [Client.FetchCreatePaymentIntent c a cur]
  /\ (exists z, a = Js.num z /\ 50 <= z)
  /\ exists secret data,
      Client.fetch_create_payment_intent w c a cur
      = Js.Fulfilled {| Client.ok := true; Client.json := Js.Fulfilled data |}
      /\ Client.body_clientSecret data = Some secret
      /\ trace_of mounted = mounting_calls secret
      /\ In (Client.ConfirmPayment secret (Portal.return_url c secret))
            (trace_of confirmed).
Proof.
  cbv zeta. intros N R Hin.
  pose proof (handleCreatePaymentIntent_state w p s) as (_ & A1 & R1 & _ & _).
  pose proof (payment_element_state w env
                (state_of (Portal.handleCreatePaymentIntent w p s)))
    as (_ & A2 & C2 & _ & _ & _).
  cbv zeta in A1, R1, A2, C2.
  destruct (handleConfirmPayment_credit _ _ _ _ _ _ Hin) as (-> & -> & -> & secret & Cs).
  rewrite A2, A1. rewrite C2 in Cs.
  destruct (handleCreatePaymentIntent_secret w p s secret N Cs) as (G & data & F & B).
  split; [now apply handleCreatePaymentIntent_sends|].
  split.
  { destruct (cents_cases (Portal.amountDollars s)) as [Z|[z Z]];
      rewrite Z in G; [discriminate G|].
    exists z. split; [exact Z|].
    cbn [Js.Number_isFinite Js.num negb orb] in G.
    rewrite lt_num in G. now apply Z.ltb_ge. }
  exists secret, data. split; [exact F|]. split; [exact B|].
  rewrite handleConfirmPayment_trace in Hin |- *.
  rewrite payment_element_run in Hin |- *.
  rewrite Cs in Hin |- *.
  destruct (String.eqb secret "" || negb (PaymentElement.container env)
            || String.eqb (PaymentElement.PUBLISHABLE_KEY env) "")%bool.
  { exfalso. revert Hin. cbn [state_of fst]. rewrite Cs, R1, R.
    cbn [negb orb]. intros []. }
  destruct (Client.loadStripe w) as [[|]|e].
  2,3: exfalso; revert Hin; cbn [state_of fst]; rewrite Cs, R1, R;
       cbn [negb orb]; intros [].
  destruct (negb (PaymentElement.mounted_after_load env)
            || negb (PaymentElement.container_after_load env))%bool.
  { exfalso. revert Hin. cbn [state_of fst]. rewrite Cs, R1, R.
    cbn [negb orb]. intros []. }
  split; [reflexivity|].
  revert Hin. cbn [state_of trace_of fst snd]. unfold with_refs.
  cbn [Portal.clientSecret Portal.stripeRef Portal.elementsRef
       Portal.amountDollars negb orb].
  rewrite Cs.
  destruct (String.eqb secret ""); [intros []|].
  destruct (Client.elements_submit w) as [[err|]|e];
    [ | destruct (Client.confirmPayment w secret _) as [[err|]|e];
        [ | destruct (Client.fetch_apply_credit w _ _ _) as [res|e];
            [destruct (Client.ok res)|] | ] | ];
    intro H;
    first [ now (right; left)
          | exfalso; cbn [In] in H; intuition discriminate ].
Qed.

Lemma synchronous_credit_follows_the_intent_witness :
  exists z, Portal.cents "2.00" = Js.num z /\ 50 <= z.
Proof.
  apply (synchronous_credit_follows_the_intent
           (browser (intent "succeeded" None "cus_123") true) rendered_form
           props_of_alice (fresh_form "2.00") "cus_123" (Portal.cents "2.00") "usd");
    [reflexivity | reflexivity | vm_compute; do 2 right; left; reflexivity].
Defined.

Section PortalAndRoutes.
Import Client Portal.

(** What the form holds after "Continue to payment" has called the route. *)
Lemma handleCreatePaymentIntent_answer (w : world) (p : Props) (s : state) :
  (negb (Js.Number_isFinite (cents (amountDollars s)))
   || Js.lt (cents (amountDollars s)) (Js.num 50))%bool = false ->
  let run := handleCreatePaymentIntent w p s in
  (clientSecret (state_of run), payError (state_of run)) =
    match fetch_create_payment_intent w (customerId p) (cents (amountDollars s))
            (currency (customer p)) with
    | Js.Fulfilled res =>
        match json res with
        | Js.Fulfilled data =>
            if ok res then (body_clientSecret data, None)
            else (clientSecret s,
                  Some (Js.nullish (body_error data) "Failed to create payment"))
        | Js.Rejected e => (clientSecret s, Some (Js.message_or e "Something went wrong"))
        end
    | Js.Rejected e => (clientSecret s, Some (Js.message_or e "Something went wrong"))
    end.
Proof.
  intro G. cbv zeta. unfold handleCreatePaymentIntent.
  unfold setPayError, setPayLoading, setClientSecret. run_eff. rewrite G.
  destruct (fetch_create_payment_intent w _ _ _) as [[o [data|e]]|e];
    [destruct o| |]; reflexivity.
Qed.

(** The create-payment-intent route on the body the portal sends. *)
Lemma create_intent_of_post_body (g : Server.gateway) (c cur : string) (z : Z) :
  Js.startsWith c "cus_" = true ->
  50 <= z ->
  result_of (CreateIntent.POST g (Js.Fulfilled (Http.post_body c (Js.num z) cur)) tt) =
    if 99999999 <? z then
      Ok (Server.json_error
            "Amount must be an integer in cents between 50 and 99999999" 400)
    else
      match Server.paymentIntents_create g (Js.num z) (Js.toLowerCase cur) c with
      | Js.Fulfilled i =>
          match Server.client_secret i with
          | Some secret =>
              if String.eqb secret "" then
                Ok (Server.json_error "Failed to create payment intent" 500)
              else Ok (Server.json (Js.VObject [("clientSecret", Js.VString secret)]))
          | None => Ok (Server.json_error "Failed to create payment intent" 500)
          end
      | Js.Rejected _ => Ok (Server.json_error "Failed to create payment intent" 500)
      end.
Proof.
  intros Hc Hz.
  unfold CreateIntent.POST, Http.post_body, Server.destructure. cbv zeta.
  change (Js.lookup "customerId" _) with (Js.VString c).
  change (Js.lookup "amount" _) with (Js.VNumber (Js.num z)).
  change (Js.lookup "currency" _) with (Js.VString cur).
  rewrite check_customerId_ok by assumption.
  destruct (99999999 <? z) eqn:L.
  - apply Z.ltb_lt in L.
    rewrite check_amount_out_of_range; [reflexivity|].
    right. left. unfold CreateIntent.MAX_CENTS. rewrite <- Zlt_Qlt. exact L.
  - apply Z.ltb_ge in L.
    rewrite check_amount_ok
      by (unfold CreateIntent.MIN_CENTS, CreateIntent.MAX_CENTS; lia).
    cbn [Server.with_default]. run_eff.
    destruct (Server.paymentIntents_create g _ _ _) as [[[secret|]]|e];
      cbn [Server.client_secret]; try destruct (String.eqb secret "");
      reflexivity.
Qed.

End PortalAndRoutes.

(** X19.  The portal on top of the create-payment-intent route, for a
    customer reference starting with cus_ and a typed amount of at least
    50 minor units.  Above 99999999 the form shows the route's message
    "Amount must be an integer in cents between 50 and 99999999" and keeps
    its secret.  Otherwise: a non-empty secret issued by the gateway
    becomes the form's secret, with no message; and when the gateway
    refuses, the form keeps its secret and shows
    "Failed to create payment intent". *)
Theorem portal_holds_the_gateway_secret
    (g : Server.gateway) (w : Client.world) (p : Portal.Props) (s : Portal.state)
    (z : Z) :
  Js.startsWith (Portal.customerId p) "cus_" = true ->
  Portal.cents (Portal.amountDollars s) = Js.num z ->
  50 <= z ->
  let run := Portal.handleCreatePaymentIntent (Http.served g w) p s in
  let issued :=
    Server.paymentIntents_create g (Js.num z)
      (Js.toLowerCase (Client.currency (Portal.customer p))) (Portal.customerId p) in
  (99999999 < z ->
   Portal.clientSecret (state_of run) = Portal.clientSecret s
   /\ Portal.payError (state_of run)
      = Some "Amount must be an integer in cents between 50 and 99999999")
  /\ (z <= 99999999 ->
      forall secret,
        issued = Js.Fulfilled {| Server.client_secret := Some secret |} ->
        secret <> "" ->
        Portal.clientSecret (state_of run) = Some secret
        /\ Portal.payError (state_of run) = None)
  /\ (z <= 99999999 ->
      forall e, issued = Js.Rejected e ->
        Portal.clientSecret (state_of run) = Portal.clientSecret s
        /\ Portal.payError (state_of run) = Some "Failed to create payment intent").
Proof.
  intros Hc Hz Hlo. cbv zeta.
  assert (G : (negb (Js.Number_isFinite (Portal.cents (Portal.amountDollars s)))
               || Js.lt (Portal.cents (Portal.amountDollars s)) (Js.num 50))%bool
              = false).
  { rewrite Hz. cbn [Js.Number_isFinite Js.num negb orb]. rewrite lt_num.
    now apply Z.ltb_ge. }
  pose proof (handleCreatePaymentIntent_answer (Http.served g w) p s G) as A.
  cbv zeta in A. rewrite Hz in A.
  cbn [Http.served Client.fetch_create_payment_intent] in A.
  unfold Http.post_create_payment_intent, Http.answer in A.
  rewrite (create_intent_of_post_body g _ _ z Hc Hlo) in A.
  split; [|split].
  - intro Hhi. apply Z.ltb_lt in Hhi. rewrite Hhi in A.
    cbn in A. now injection A.
  - intros Hhi secret I Hs. apply Z.ltb_ge in Hhi. rewrite Hhi, I in A.
    cbn [Server.client_secret] in A.
    apply String.eqb_neq in Hs. rewrite Hs in A.
    cbn in A. now injection A.
  - intros Hhi e I. apply Z.ltb_ge in Hhi. rewrite Hhi, I in A.
    cbn in A. now injection A.
Qed.

Lemma portal_holds_the_gateway_secret_witness :
  let run := Portal.handleCreatePaymentIntent
               (Http.served accepting_gateway
                  (browser (intent "succeeded" None "cus_123") true))
               props_of_alice (fresh_form "2.00") in
  Portal.clientSecret (state_of run) = Some "pi_1_secret_2"
  /\ Portal.payError (state_of run) = None.
Proof.
  apply (portal_holds_the_gateway_secret accepting_gateway
           (browser (intent "succeeded" None "cus_123") true)
           props_of_alice (fresh_form "2.00") 200);
    try reflexivity; try lia; discriminate.
Defined.

Section RedirectAndRoute.
Import Client.

(** The apply-credit route on the body the page and the portal send. *)
Lemma apply_credit_of_post_body (g : Server.gateway) (c cur : string) (a : Js.number) :
  Js.startsWith c "cus_" = true ->
  Js.Number_isInteger a = true ->
  Js.lt a (Js.num 1) = false ->
  Js.gt a (Js.num 99999999) = false ->
  String.length cur = 3%nat ->
  ApplyCredit.POST g (Js.Fulfilled (Http.post_body c a cur)) tt =
    let call := Server.CreateBalanceTransaction c (Js.neg a) (Js.toLowerCase cur) in
    match Server.createBalanceTransaction g c (Js.neg a) (Js.toLowerCase cur) with
    | Js.Fulfilled _ =>
        (tt, [call], Ok (Server.json (Js.VObject [("ok", Js.VBool true)])))
    | Js.Rejected e =>
        (tt, [call; Server.ConsoleError "Apply credit error:" e],
         Ok (Server.json_error "Failed to apply credit" 500))
    end.
Proof.
  intros Hc Hi Hlo Hhi Hl.
  destruct a as [| |q]; try discriminate Hi.
  unfold ApplyCredit.POST, Http.post_body, Server.destructure. cbv zeta.
  change (Js.lookup "customerId" _) with (Js.VString c).
  change (Js.lookup "amount" _) with (Js.VNumber (Js.Finite q)).
  change (Js.lookup "currency" _) with (Js.VString cur).
  rewrite check_customerId_ok by assumption.
  unfold Server.check_amount, ApplyCredit.MIN_CENTS, ApplyCredit.MAX_CENTS.
  rewrite Hi, Hlo, Hhi. cbn [negb orb Server.with_default]. rewrite Hl.
  cbn [Z.of_nat Pos.of_succ_nat Pos.succ Z.eqb Pos.eqb negb].
  run_eff.
  destruct (Server.createBalanceTransaction g _ _ _) as [u|e]; reflexivity.
Qed.

End RedirectAndRoute.

(** X20.  The page on top of the apply-credit route, for a customer
    reference starting with cus_.  When the redirect handler asks for a
    credit of an integer amount up to 99999999 in a currency of three
    characters, the route passes it on: its first gateway call records
    the negated amount for the customer of the address, in the lower-cased
    currency; and the handler returns normally exactly when the gateway
    accepted that transaction. *)
Theorem redirect_credit_reaches_the_gateway
    (g : Server.gateway) (w : Client.world) (slug secret : string) (st : Page.state)
    (c : string) (a : Js.number) (cur : string) :
  let run := Page.processPaymentRedirect (Http.served g w) slug secret st in
  let recorded :=
    Server.createBalanceTransaction g slug (Js.neg a) (Js.toLowerCase cur) in
  Js.startsWith slug "cus_" = true ->
  In (Client.FetchApplyCredit c a cur) (trace_of run) ->
  Js.Number_isInteger a = true ->
  Js.gt a (Js.num 99999999) = false ->
  String.length cur = 3%nat ->
  (exists rest,
     trace_of (ApplyCredit.POST g (Js.Fulfilled (Http.post_body c a cur)) tt)
     = Server.CreateBalanceTransaction slug (Js.neg a) (Js.toLowerCase cur) :: rest)
  /\ (result_of run = Ok tt <-> exists u, recorded = Js.Fulfilled u).
Proof.
  cbv zeta. intros Hc Hin Hi Hhi Hl. revert Hin.
  rewrite processPaymentRedirect_run.
  cbn [Http.served Client.loadStripe Client.retrievePaymentIntent
       Client.fetch_apply_credit].
  destruct (Client.loadStripe w) as [[|]|e];
    [|intro Hin; exfalso; cbn [trace_of fst snd In] in Hin; intuition discriminate ..].
  cbv zeta.
  destruct (Client.retrievePaymentIntent w secret) as [[i|]|e];
    [|intro Hin; exfalso; cbn [trace_of fst snd In] in Hin; intuition discriminate ..].
  destruct (negb (String.eqb (Client.pi_status i) "succeeded")
            || Js.lt (Page.resolved_amount i) (Js.num 1))%bool eqn:B;
    [intro Hin; exfalso; cbn [trace_of fst snd In] in Hin; intuition discriminate|].
  apply orb_false_iff in B. destruct B as [_ Hlo].
  intro Hin.
  assert (E : Client.FetchApplyCredit slug (Page.resolved_amount i)
                (Page.resolved_currency i) = Client.FetchApplyCredit c a cur).
  { destruct (Http.post_apply_credit g slug _ _) as [res|e];
      cbn [trace_of fst snd In] in Hin; intuition discriminate. }
  injection E as <- Ea Ecur. rewrite Ea, Ecur. clear Hin.
  unfold Http.post_apply_credit, Http.answer.
  rewrite (apply_credit_of_post_body g slug cur a Hc Hi) by (congruence || assumption).
  cbv zeta.
  destruct (Server.createBalanceTransaction g slug (Js.neg a) (Js.toLowerCase cur))
    as [u|e]; cbn.
  - split; [eexists; reflexivity|]. split; [now exists u|reflexivity].
  - split; [eexists; reflexivity|]. split; [discriminate|intros [u U]; discriminate U].
Qed.

Lemma redirect_credit_reaches_the_gateway_witness :
  result_of (Page.processPaymentRedirect
               (Http.served accepting_gateway
                  (browser (intent "succeeded" None "cus_123") true))
               "cus_123" "pi_1_secret_2" (returning "cus_123" "pi_1_secret_2"))
  = Ok tt
  <-> exists u,
        Server.createBalanceTransaction accepting_gateway "cus_123"
          (Js.neg (Js.num 200)) (Js.toLowerCase "usd") = Js.Fulfilled u.
Proof.
  exact (proj2 (redirect_credit_reaches_the_gateway accepting_gateway
                  (browser (intent "succeeded" None "cus_123") true)
                  "cus_123" "pi_1_secret_2" (returning "cus_123" "pi_1_secret_2")
                  "cus_123" (Js.num 200) "usd"
                  eq_refl (or_intror (or_intror (or_introl eq_refl)))
                  eq_refl eq_refl eq_refl)).
Defined.

(* ================================================================== *)
(** * The billing address as the portal prints it *)
(* ================================================================== *)

Section AddressLines.
Import Client PortalView.

Lemma filter_Boolean_nonempty (parts : list (option string)) :
  Forall (fun p => p <> "") (filter_Boolean parts).
Proof.
  induction parts as [|[p|] rest IH]; cbn [filter_Boolean]; auto.
  destruct (String.eqb p "") eqn:E; auto.
  constructor; [now apply String.eqb_neq|exact IH].
Qed.

Lemma filter_Boolean_nil (parts : list (option string)) :
  filter_Boolean parts = [] <-> existsb present parts = false.
Proof.
  induction parts as [|[p|] rest IH]; cbn [filter_Boolean existsb present orb].
  - tauto.
  - destruct (String.eqb p ""); cbn [negb orb]; [exact IH|].
    split; discriminate.
  - exact IH.
Qed.

Lemma join_empty (sep : string) (parts : list string) :
  Forall (fun p => p <> "") parts -> join sep parts = "" -> parts = [].
Proof.
  intros F. destruct parts as [|p rest]; [reflexivity|].
  inversion F as [|? ? Hp _]; subst.
  destruct p as [|a p]; [now elim Hp|].
  destruct rest; cbn; discriminate.
Qed.

Lemma join_head (sep p : string) (rest : list string) :
  exists tail, join sep (p :: rest) = (p ++ tail)%string.
Proof.
  destruct rest as [|q rest].
  - exists "". cbn [join]. induction p as [|a p IH]; cbn; [reflexivity|].
    now rewrite <- IH.
  - eexists. reflexivity.
Qed.

End AddressLines.

(** X21.  [formatAddress] prints nothing exactly when none of the six
    fields of the address holds a non-empty string, and an address with a
    first line prints it first. *)
Theorem formatAddress_prints_what_is_there (addr : Client.Address) :
  (PortalView.formatAddress addr = ""
   <-> existsb Client.present
         [Client.line1 addr; Client.line2 addr; Client.city addr;
          Client.state addr; Client.postal_code addr; Client.country addr] = false)
  /\ (forall first, Client.line1 addr = Some first -> first <> "" ->
      exists rest, PortalView.formatAddress addr = (first ++ rest)%string).
Proof.
  unfold PortalView.formatAddress. cbv zeta. split.
  - set (locality := PortalView.filter_Boolean
                       [Client.city addr; Client.state addr; Client.postal_code addr]).
    assert (L : Client.present (Some (PortalView.join ", " locality)) = false
                <-> existsb Client.present
                      [Client.city addr; Client.state addr; Client.postal_code addr]
                    = false).
    { rewrite <- filter_Boolean_nil. fold locality.
      cbn [Client.present]. rewrite negb_false_iff, String.eqb_eq. split.
      - apply join_empty, filter_Boolean_nonempty.
      - now intros ->. }
    split.
    + intro E. apply join_empty in E; [|apply filter_Boolean_nonempty].
      apply filter_Boolean_nil in E. cbn [existsb] in E.
      repeat (apply orb_false_iff in E; destruct E as [? E]).
      cbn [existsb].
      assert (Loc : existsb Client.present
                      [Client.city addr; Client.state addr; Client.postal_code addr]
                    = false) by now apply L.
      cbn [existsb] in Loc.
      repeat (apply orb_false_iff in Loc; destruct Loc as [? Loc]).
      repeat (apply orb_false_iff; split); assumption.
    + intro E. cbn [existsb] in E.
      repeat (apply orb_false_iff in E; destruct E as [? E]).
      assert (N : PortalView.filter_Boolean
                    [Client.line1 addr; Client.line2 addr;
                     Some (PortalView.join ", " locality); Client.country addr] = []).
      { apply filter_Boolean_nil. cbn [existsb].
        repeat (apply orb_false_iff; split); try assumption; try reflexivity.
        apply L. cbn [existsb].
        repeat (apply orb_false_iff; split); try assumption; reflexivity. }
      now rewrite N.
  - intros first -> Hf. apply String.eqb_neq in Hf.
    cbn [PortalView.filter_Boolean]. rewrite Hf. apply join_head.
Qed.

Lemma formatAddress_prints_what_is_there_witness :
  exists rest,
    PortalView.formatAddress
      {| Client.line1 := Some "1 Main St"; Client.line2 := None;
         Client.city := Some "Springfield"; Client.state := Some "";
         Client.postal_code := Some "12345"; Client.country := Some "US" |}
    = ("1 Main St" ++ rest)%string.
Proof.
  refine (proj2 (formatAddress_prints_what_is_there
                   {| Client.line1 := Some "1 Main St"; Client.line2 := None;
                      Client.city := Some "Springfield"; Client.state := Some "";
                      Client.postal_code := Some "12345";
                      Client.country := Some "US" |})
                "1 Main St" eq_refl _).
  discriminate.
Defined.

(* ================================================================== *)
(** * Typed amounts *)
(* ================================================================== *)

Lemma all_below_spec (k : nat) (f : Z -> bool) :
  all_below k f = true -> forall n, 0 <= n < Z.of_nat k -> f n = true.
Proof.
  induction k as [|k IH]; intros A n Hn; [lia|].
  cbn [all_below] in A. apply andb_true_iff in A. destruct A as [A0 A].
  destruct (Z.eq_dec n (Z.of_nat k)) as [->|Hk]; [exact A0|].
  apply IH; [exact A|lia].
Qed.

(** X22.  An amount below 50.00 typed with two decimals is read as
    exactly that many minor units: rounding undoes the error of the binary
    multiplication by 100.  So "Continue to payment" calls the route for
    such an amount exactly when it is at least 0.50. *)
Theorem typed_amount_is_exact
    (w : Client.world) (p : Portal.Props) (n : Z) :
  0 <= n < 5000 ->
  (exists q, Portal.cents (two_decimals n) = Js.Finite q /\ (q == inject_Z n)%Q)
  /\ (trace_of (Portal.handleCreatePaymentIntent w p (fresh_form (two_decimals n))) = []
      <-> n < 50).
Proof.
  intro Hn.
  assert (A : all_below (Z.to_nat 5000) cents_exact = true)
    by (vm_compute; reflexivity).
  pose proof (all_below_spec (Z.to_nat 5000) cents_exact A n) as E.
  assert (B : cents_exact n = true) by (apply E; rewrite Z2Nat.id; lia).
  clear A E. unfold cents_exact in B.
  destruct (Portal.cents (two_decimals n)) as [| |q] eqn:C; try discriminate B.
  apply Qeq_bool_iff in B.
  split; [exists q; split; [reflexivity|exact B]|].
  destruct (negb (Js.Number_isFinite
                    (Portal.cents (Portal.amountDollars (fresh_form (two_decimals n)))))
            || Js.lt (Portal.cents (Portal.amountDollars (fresh_form (two_decimals n))))
                 (Js.num 50))%bool eqn:G.
  - rewrite handleCreatePaymentIntent_rejects by exact G.
    split; [intros _|reflexivity].
    cbn [fresh_form Portal.amountDollars] in G. rewrite C in G.
    cbn [Js.Number_isFinite negb orb] in G.
    apply Qltb_lt in G. rewrite B in G. rewrite <- Zlt_Qlt in G. exact G.
  - rewrite handleCreatePaymentIntent_sends by exact G.
    split; [discriminate|intro L].
    cbn [fresh_form Portal.amountDollars] in G. rewrite C in G.
    cbn [Js.Number_isFinite negb orb] in G.
    assert (T : Js.lt (Js.Finite q) (Js.num 50) = true).
    { apply Qltb_lt. rewrite B. rewrite <- Zlt_Qlt. exact L. }
    congruence.
Qed.

Lemma typed_amount_is_exact_witness :
  exists q, Portal.cents (two_decimals 29) = Js.Finite q /\ (q == inject_Z 29)%Q.
Proof.
  apply (typed_amount_is_exact (browser (intent "succeeded" None "cus_123") true)
           props_of_alice 29).
  lia.
Defined.

(* ================================================================== *)
(** * The handles of the portal, and the credit of a confirmation *)
(* ================================================================== *)

Section Handles.
Import Client Portal.

(** What [handleConfirmPayment] leaves behind. *)
Lemma handleConfirmPayment_refs (w : world) (p : Props) (s : state) :
  let run := handleConfirmPayment w p s in
  stripeRef (state_of run) = stripeRef s
  /\ elementsRef (state_of run) = elementsRef s.
Proof.
  cbv zeta. unfold handleConfirmPayment.
  unfold setPayError, setPayLoading, setClientSecret, setAmountDollars. run_eff.
  destruct (clientSecret s) as [secret|]; [|split; reflexivity].
  destruct (negb _ || _ || _)%bool; [split; reflexivity|].
  destruct (elements_submit w) as [[err|]|e];
    [ | destruct (confirmPayment w secret _) as [[err|]|e];
        [ | destruct (fetch_apply_credit w _ _ _) as [res|e];
            [destruct (ok res)|] | ] | ];
    split; reflexivity.
Qed.

(** The end of a confirmation whose payment went through. *)
Lemma handleConfirmPayment_paid (w : world) (p : Props) (s : state) (secret : string) :
  clientSecret s = Some secret -> secret <> "" ->
  stripeRef s = true -> elementsRef s = true ->
  elements_submit w = Js.Fulfilled None ->
  confirmPayment w secret (return_url (customerId p) secret) = Js.Fulfilled None ->
  let run := handleConfirmPayment w p s in
  let request :=
    fetch_apply_credit w (customerId p) (cents (amountDollars s))
      (currency (customer p)) in
  let credited :=
    match request with
    | Js.Fulfilled res => ok res
    | Js.Rejected _ => false
    end in
  trace_of run
  = (if credited then confirmation_calls p s secret
     else removelast (confirmation_calls p s secret))
  /\ clientSecret (state_of run) = (if credited then None else Some secret)
  /\ amountDollars (state_of run) = (if credited then "" else amountDollars s)
  /\ payError (state_of run)
     = match request with
       | Js.Fulfilled res =>
           if ok res then None
           else Some (Js.nullish (body_error (or_else (json res) empty_body))
                        "Payment succeeded but failed to add credit. Contact support.")
       | Js.Rejected e => Some (Js.message_or e "Something went wrong")
       end.
Proof.
  intros C Hs R1 R2 Sub Conf. cbv zeta. unfold handleConfirmPayment.
  unfold setPayError, setPayLoading, setClientSecret, setAmountDollars. run_eff.
  apply String.eqb_neq in Hs.
  rewrite C, R1, R2, Hs. cbn [negb orb]. rewrite Sub, Conf.
  unfold confirmation_calls.
  destruct (fetch_apply_credit w _ _ _) as [res|e]; [destruct (ok res)|];
    cbn [state_of trace_of fst snd app negb removelast
         amountDollars clientSecret payError];
    rewrite ?C; repeat split.
Qed.

End Handles.

(** X23.  No step of the portal clears a handle: after "Continue to
    payment", after the payment element's effect, after "Pay" and after
    "Cancel", a ref that held a handle still holds one; the three handlers
    leave the refs as they are, only the effect fills them. *)
Theorem portal_never_clears_a_handle
    (w : Client.world) (env : PaymentElement.surroundings) (p : Portal.Props)
    (s : Portal.state) :
  let kept s' :=
    Portal.stripeRef s' = Portal.stripeRef s
    /\ Portal.elementsRef s' = Portal.elementsRef s in
  let filled s' := Portal.stripeRef s' = true /\ Portal.elementsRef s' = true in
  kept (state_of (Portal.handleCreatePaymentIntent w p s))
  /\ kept (state_of (Portal.handleConfirmPayment w p s))
  /\ kept (state_of (PaymentElement.cancel s))
  /\ (kept (state_of (PaymentElement.mount_effect w env s))
      \/ filled (state_of (PaymentElement.mount_effect w env s))).
Proof.
  cbv zeta. split; [|split; [|split]].
  - pose proof (handleCreatePaymentIntent_state w p s) as (_ & _ & R1 & R2 & _).
    split; assumption.
  - apply handleConfirmPayment_refs.
  - split; reflexivity.
  - pose proof (payment_element_state w env s) as (_ & _ & _ & _ & _ & [E|E]);
      cbv zeta in E; rewrite E.
    + left. split; reflexivity.
    + right. split; reflexivity.
Qed.

(** X24.  "Pay" on top of the apply-credit route, for a customer
    reference starting with cus_, a currency of three characters and a
    typed amount of 1 to 99999999 minor units, when the payment details were
    accepted and the payment confirmed without a redirect.  If the gateway
    accepts the balance transaction of the negated amount, the balance is
    refreshed and the form reset; if it refuses, the balance is not
    refreshed, the form keeps its secret and shows the route's
    "Failed to apply credit". *)
Theorem confirmation_credits_through_the_route
    (g : Server.gateway) (w : Client.world) (p : Portal.Props) (s : Portal.state)
    (secret : string) (z : Z) :
  Js.startsWith (Portal.customerId p) "cus_" = true ->
  String.length (Client.currency (Portal.customer p)) = 3%nat ->
  Portal.clientSecret s = Some secret -> secret <> "" ->
  Portal.stripeRef s = true -> Portal.elementsRef s = true ->
  Portal.cents (Portal.amountDollars s) = Js.num z -> 1 <= z <= 99999999 ->
  Client.elements_submit w = Js.Fulfilled None ->
  Client.confirmPayment w secret (Portal.return_url (Portal.customerId p) secret)
  = Js.Fulfilled None ->
  let run := Portal.handleConfirmPayment (Http.served g w) p s in
  let recorded :=
    Server.createBalanceTransaction g (Portal.customerId p) (Js.num (- z))
      (Js.toLowerCase (Client.currency (Portal.customer p))) in
  ((exists u, recorded = Js.Fulfilled u) ->
   In Client.OnBalanceUpdated (trace_of run)
   /\ Portal.clientSecret (state_of run) = None
   /\ Portal.amountDollars (state_of run) = "")
  /\ (forall e, recorded = Js.Rejected e ->
      ~ In Client.OnBalanceUpdated (trace_of run)
      /\ Portal.clientSecret (state_of run) = Some secret
      /\ Portal.payError (state_of run) = Some "Failed to apply credit").
Proof.
  intros Hc Hl C Hs R1 R2 Hz Hr Sub Conf. cbv zeta.
  pose proof (handleConfirmPayment_paid (Http.served g w) p s secret
                C Hs R1 R2 Sub Conf) as A.
  cbv zeta in A. rewrite Hz in A.
  remember (Portal.handleConfirmPayment (Http.served g w) p s) as run eqn:Erun.
  clear Erun.
  cbn [Http.served Client.fetch_apply_credit] in A.
  unfold Http.post_apply_credit, Http.answer in A.
  rewrite (apply_credit_of_post_body g _ _ (Js.num z) Hc) in A;
    [ | apply Number_isInteger_num
      | rewrite lt_num; apply Z.ltb_ge; lia
      | unfold Js.gt; rewrite lt_num; apply Z.ltb_ge; lia
      | exact Hl ].
  cbv zeta in A. rewrite neg_num in A.
  split.
  - intros [u U]. rewrite U in A. cbn in A. destruct A as (T & Cs & Am & _).
    rewrite T, Cs, Am. split; [|split; reflexivity]. do 3 right. now left.
  - intros e U. rewrite U in A. cbn in A. destruct A as (T & Cs & _ & Pe).
    rewrite T, Cs, Pe. split; [|split; reflexivity].
    unfold confirmation_calls. cbn [removelast In]. intuition discriminate.
Qed.

Lemma confirmation_credits_through_the_route_witness :
  let run := Portal.handleConfirmPayment
               (Http.served accepting_gateway
                  (browser (intent "succeeded" None "cus_123") false))
               props_of_alice (typed "2.00" (Some "pi_1_secret_2")) in
  In Client.OnBalanceUpdated (trace_of run)
  /\ Portal.clientSecret (state_of run) = None
  /\ Portal.amountDollars (state_of run) = "".
Proof.
  apply (confirmation_credits_through_the_route accepting_gateway
           (browser (intent "succeeded" None "cus_123") false)
           props_of_alice (typed "2.00" (Some "pi_1_secret_2"))
           "pi_1_secret_2" 200);
    try reflexivity; try lia; try discriminate.
  exists tt. reflexivity.
Defined.

(* ================================================================== *)
(** * The amount field before an intent is created *)
(* ================================================================== *)

(** X25.  "Continue to payment" reads the amount field with
    [Math.round(parseFloat(amountDollars) * 100)] and asks for an intent
    only when that is a finite number of at least 50: its one request then
    carries that integer; otherwise, and so for "0.30", which reads as 30,
    it sets the message "Enter at least $0.50" and sends nothing.  The
    reading is binary64 arithmetic: "0.29" is 29 and "0.07" is 7 though
    their products with 100 are not integers, "1.005" is 100, a half goes
    up ("0.125" is 13), a text is read up to where the number ends, and a
    text that starts with no number is no amount. *)
Theorem portal_guards_intent_creation
    (w : Client.world) (p : Portal.Props) (s : Portal.state) :
  let amount := Portal.cents (Portal.amountDollars s) in
  let run := Portal.handleCreatePaymentIntent w p s in
  (forall ev, In ev (trace_of run) ->
     exists z, 50 <= z /\ amount = Js.num z
       /\ ev = Client.FetchCreatePaymentIntent (Portal.customerId p) (Js.num z)
                 (Client.currency (Portal.customer p)))
  /\ (Js.Number_isFinite amount = false
      \/ (exists q, amount = Js.Finite q /\ (q < 50)%Q) ->
      run = (with_payError "Enter at least $0.50" s, [], Ok tt))
  /\ (Portal.amountDollars s = "0.30" ->
      amount = Js.num 30
      /\ run = (with_payError "Enter at least $0.50" s, [], Ok tt))
  /\ (Portal.cents "0.50" = Js.num 50 /\ Portal.cents "0.29" = Js.num 29
      /\ Portal.cents "0.07" = Js.num 7 /\ Portal.cents "1.005" = Js.num 100
      /\ Portal.cents "0.125" = Js.num 13 /\ Portal.cents "12" = Js.num 1200
      /\ Portal.cents "0.5abc" = Js.num 50
      /\ Portal.cents "" = Js.NaN /\ Portal.cents "abc" = Js.NaN
      /\ Portal.cents "1e400" = Js.Infinity false).
Proof.
  intros amount run. subst amount run.
  assert (R : Js.Number_isFinite (Portal.cents (Portal.amountDollars s)) = false
              \/ (exists q, Portal.cents (Portal.amountDollars s) = Js.Finite q
                            /\ (q < 50)%Q) ->
              Portal.handleCreatePaymentIntent w p s =
                (with_payError "Enter at least $0.50" s, [], Ok tt)).
  { intros [N | (q & Hq & Hlt)]; apply handleCreatePaymentIntent_rejects.
    - now rewrite N.
    - rewrite Hq. apply orb_true_iff. right. now apply Qltb_lt. }
  split; [|split; [exact R|split]].
  - intros ev Hin.
    destruct (negb (Js.Number_isFinite (Portal.cents (Portal.amountDollars s)))
              || Js.lt (Portal.cents (Portal.amountDollars s)) (Js.num 50))%bool eqn:G.
    + rewrite handleCreatePaymentIntent_rejects in Hin by exact G. destruct Hin.
    + rewrite handleCreatePaymentIntent_sends in Hin by exact G.
      destruct Hin as [<- | []].
      apply orb_false_iff in G. destruct G as [F L].
      destruct (cents_cases (Portal.amountDollars s)) as [N | [z Hz]].
      * rewrite N in F. discriminate.
      * rewrite Hz in L |- *. rewrite lt_num in L. apply Z.ltb_ge in L.
        exists z. split; [exact L | split; reflexivity].
  - intro H030.
    assert (C : Portal.cents (Portal.amountDollars s) = Js.num 30).
    { rewrite H030. vm_compute. reflexivity. }
    split; [exact C|]. apply R. right. exists (inject_Z 30).
    split; [exact C | reflexivity].
  - repeat split; vm_compute; reflexivity.
Qed.

Lemma portal_guards_intent_creation_witness :
  Portal.cents "0.30" = Js.num 30
  /\ Portal.handleCreatePaymentIntent
       (browser (intent "requires_payment_method" None "cus_123") true)
       props_of_alice (typed "0.30" None)
     = (with_payError "Enter at least $0.50" (typed "0.30" None), [], Ok tt).
Proof.
  destruct (portal_guards_intent_creation
              (browser (intent "requires_payment_method" None "cus_123") true)
              props_of_alice (typed "0.30" None)) as (_ & _ & A & _).
  apply A. reflexivity.
Defined.
